(** * Vital-Sense-AI: the conversation-to-feedback pipeline

    A shallow embedding of the Python sources

    - [feedback_analyzer.py]  (class [FeedbackAnalyzer]),
    - [conversation.py]       (class [ConversationManager]),
    - [llm_client.py]         (classes [MockProvider] and [LLMClient]),
    - [app.py]                (the routes [start_conversational_session],
                               [send_message], [end_conversational_session]
                               and the helper the last two share),
    - [prompts.py]            ([get_user_message]),
    - [storage.py]            (class [FeedbackStorage]),
    - [conversational_assistant.py] (class [ConversationalAssistant]),

    followed by the properties stated about them.

    Conventions of the embedding.

    - A Python [str] is a [string]; a character is a code point below 256
      (the Latin-1 range), so the whitespace and lower-casing tables below
      are Python's tables restricted to that range.
    - A Python [int] is a [Z]; a [float] is a [spec_float] (IEEE 754
      binary64 is [prec = 53], [emax = 1024]).
    - A [dict] with string keys is a [gmap string _]; a [list] is a [list].
    - A raised exception is the [Raise] case of [result]; [try]/[except]
      is a [match] on it.
    - [datetime.now()] is an argument of the operation that reads it, one
      argument per reading; [random.choice] takes its draw as an argument.
    - [print] and [time.sleep] have no counterpart. *)

From Stdlib Require Import ZArith NArith Ascii String List Lia Bool.
From Stdlib Require Import Floats.SpecFloat.
From stdpp Require Import base option list gmap strings pretty.

Set Warnings "-register-all".
Local Open Scope Z_scope.

(* ================================================================= *)
(** * Python string built-ins *)

Module PyStr.

(** [str.isspace] on one character: TAB..CR, FS..US, SPACE, NEL, NBSP. *)
Definition isspace (c : ascii) : bool :=
  let n := N_of_ascii c in
  (((9 <=? n) && (n <=? 13)) || ((28 <=? n) && (n <=? 32))
   || (n =? 133) || (n =? 160))%N.

(** [str.lower] on one character: A-Z and the accented capitals
    0xC0-0xDE (the multiplication sign 0xD7 apart) move up by 32. *)
Definition lower_char (c : ascii) : ascii :=
  let n := N_of_ascii c in
  if (((65 <=? n) && (n <=? 90))
      || ((192 <=? n) && (n <=? 222) && negb (n =? 215)))%N
  then ascii_of_N (n + 32) else c.

Fixpoint lower (s : string) : string :=
  match s with
  | EmptyString => EmptyString
  | String c r => String (lower_char c) (lower r)
  end.

(** Truth value of a string: [bool(s)]. *)
Definition truthy (s : string) : bool :=
  match s with EmptyString => false | String _ _ => true end.

Fixpoint lstrip (s : string) : string :=
  match s with
  | EmptyString => EmptyString
  | String c r => if isspace c then lstrip r else s
  end.

Fixpoint rstrip (s : string) : string :=
  match s with
  | EmptyString => EmptyString
  | String c r =>
      let r' := rstrip r in
      if negb (truthy r') && isspace c then EmptyString else String c r'
  end.

(** [s.strip()] *)
Definition strip (s : string) : string := rstrip (lstrip s).

(** Puts a word in front of a list of words unless it is empty. *)
Definition cons_word (w : string) (ws : list string) : list string :=
  if truthy w then w :: ws else ws.

(** The run of non-blank characters that starts at the head of [s]
    (empty when [s] starts with a blank) and the words after it. *)
Fixpoint words_from (s : string) : string * list string :=
  match s with
  | EmptyString => (EmptyString, [])
  | String c r =>
      let '(w, ws) := words_from r in
      if isspace c then (EmptyString, cons_word w ws) else (String c w, ws)
  end.

(** [s.split()]: the maximal runs of non-blank characters. *)
Definition split_ws (s : string) : list string :=
  let '(w, ws) := words_from s in cons_word w ws.

(** The piece before the first [d] and the pieces after it. *)
Fixpoint pieces_from (d : ascii) (s : string) : string * list string :=
  match s with
  | EmptyString => (EmptyString, [])
  | String c r =>
      let '(p, ps) := pieces_from d r in
      if Ascii.eqb c d then (EmptyString, p :: ps) else (String c p, ps)
  end.

(** [s.split(d)] for a one-character separator: never an empty list. *)
Definition split_on (d : ascii) (s : string) : list string :=
  let '(p, ps) := pieces_from d s in p :: ps.

(** [sep.join(ws)] *)
Fixpoint join (sep : string) (ws : list string) : string :=
  match ws with
  | [] => EmptyString
  | [w] => w
  | w :: rest => w +:+ sep +:+ join sep rest
  end.

(** [w in s]: [w] occurs in [s] as a substring. *)
Fixpoint contains (w s : string) : bool :=
  String.prefix w s
  || match s with
     | EmptyString => false
     | String _ r => contains w r
     end.

(** [any(w in s for w in ws)] *)
Definition any_in (ws : list string) (s : string) : bool :=
  existsb (fun w => contains w s) ws.

(** [s.startswith(p)] and [s.endswith(p)] *)
Definition startswith (p s : string) : bool := String.prefix p s.

Definition endswith (p s : string) : bool :=
  String.prefix (String.rev p) (String.rev s).

(** [s[n:]] and [s[:-n]] for a non-negative literal [n]. *)
Fixpoint drop_front (n : nat) (s : string) : string :=
  match n, s with
  | O, _ => s
  | S _, EmptyString => EmptyString
  | S n', String _ r => drop_front n' r
  end.

Definition drop_back (n : nat) (s : string) : string :=
  String.rev (drop_front n (String.rev s)).

(** A word: not empty, and no blank in it. *)
Fixpoint no_blank (s : string) : Prop :=
  match s with
  | EmptyString => True
  | String c r => isspace c = false /\ no_blank r
  end.

Definition word (w : string) : Prop := w ≠ "" /\ no_blank w.

(** [" ".join(s.strip().split())], the cleaning done by [clean_text]. *)
Definition squeeze (s : string) : string := join " " (split_ws (strip s)).

(** [s.split(sep)] for a separator of one character or more: the pieces
    between the occurrences of [sep], found from left to right and not
    overlapping. [skip] counts the characters of the occurrence just
    found that are still to be passed over; [cur] is the piece being
    read. *)
Fixpoint split_from (sep : string) (skip : nat) (cur s : string)
  : list string :=
  match s with
  | EmptyString => [cur]
  | String c r =>
      match skip with
      | S k => split_from sep k cur r
      | O =>
          if String.prefix sep s
          then cur :: split_from sep (String.length sep - 1) EmptyString r
          else split_from sep 0 (cur +:+ String c EmptyString) r
      end
  end.

Definition split_str (sep s : string) : list string :=
  split_from sep 0 EmptyString s.

End PyStr.

(* ================================================================= *)
(** * Python values, exceptions and numeric conversions *)

(** The values a decoded JSON document, a request body or a model reply
    can hold. *)
Inductive pyval : Type :=
| PNone
| PBool (b : bool)
| PInt (z : Z)
| PFloat (f : spec_float)
| PStr (s : string)
| PList (l : list pyval)
| PDict (d : gmap string pyval).

(** The exception classes the modelled code raises or catches.
    [JSONDecodeError] is a subclass of [ValueError]; [Exception_ msg] is
    a plain [Exception(msg)]. All of them are instances of [Exception]. *)
Inductive exn : Type :=
| ValueError
| TypeError
| OverflowError
| AttributeError
| JSONDecodeError
| KeyError
| Exception_ (msg : string).

Inductive result (A : Type) : Type :=
| Ok (a : A)
| Raise (e : exn).

Arguments Ok {A} a.
Arguments Raise {A} e.

#[global] Instance result_ret : MRet result := fun A a => Ok a.

#[global] Instance result_bind : MBind result := fun A B f m =>
  match m with
  | Ok a => f a
  | Raise e => Raise e
  end.

(** [isinstance(e, (ValueError, TypeError))] *)
Definition is_value_or_type_error (e : exn) : bool :=
  match e with
  | ValueError | JSONDecodeError | TypeError => true
  | _ => false
  end.

Definition float_one : spec_float := S754_finite false 4503599627370496 (-52).

(** [float(n)] for an [int]: rounding to the nearest binary64, ties to
    even; a value beyond the largest finite float is an [OverflowError]. *)
Definition float_of_int (n : Z) : result spec_float :=
  match binary_normalize 53 1024 n 0 false with
  | S754_infinity _ => Raise OverflowError
  | f => Ok f
  end.

(** [int(f)] for a [float]: truncation toward zero; a NaN is a
    [ValueError], an infinity an [OverflowError]. *)
Definition int_of_float (f : spec_float) : result Z :=
  match f with
  | S754_nan => Raise ValueError
  | S754_infinity _ => Raise OverflowError
  | S754_zero _ => Ok 0
  | S754_finite s m e =>
      let mag := if 0 <=? e then Z.pos m * 2 ^ e else Z.pos m / 2 ^ (- e) in
      Ok (if s then - mag else mag)
  end.

(** [sys.get_int_max_str_digits()]: the interpreter's limit on the
    number of digits of an [int] it converts to or from decimal text.
    The program leaves it at its default. *)
Definition int_max_str_digits : Z := 4300.

(** The least magnitude with more digits than the limit. *)
Definition str_digits_bound : Z := 10 ^ int_max_str_digits.

(** [str(n)] for an [int]: its decimal form, or a [ValueError] when it
    has more digits, the sign apart, than the limit. *)
Definition str_of_int (n : Z) : result string :=
  if bool_decide (str_digits_bound <= Z.abs n)
  then Raise ValueError
  else Ok (pretty n).

(* ================================================================= *)
(** * feedback_analyzer.py *)

Module FeedbackAnalyzer.
Import PyStr.

Section Builtins.

(** Two built-ins are taken from the interpreter rather than defined:
    [float(s)] on a string ([None] is its [ValueError]) and [str(x)] on a
    float, a list or a dict, which returns the text or raises (a
    [ValueError] when the value holds an [int] with too many digits to
    print). *)
Variable float_of_str : string -> option spec_float.
Variable repr : pyval -> result string.

(** [float(x)] *)
Definition py_float (x : pyval) : result spec_float :=
  match x with
  | PFloat f => Ok f
  | PInt n => float_of_int n
  | PBool b => Ok (if b then float_one else S754_zero false)
  | PStr s =>
      match float_of_str s with
      | Some f => Ok f
      | None => Raise ValueError
      end
  | PNone | PList _ | PDict _ => Raise TypeError
  end.

(** [str(x)] *)
Definition py_str (x : pyval) : result string :=
  match x with
  | PNone => Ok "None"
  | PBool true => Ok "True"
  | PBool false => Ok "False"
  | PInt n => str_of_int n
  | PStr s => Ok s
  | PFloat _ | PList _ | PDict _ => repr x
  end.

Definition validate_score (score : pyval) (min_val max_val : Z) : result Z :=
  match py_float score ≫= int_of_float with
  | Ok score_int => Ok (Z.max min_val (Z.min max_val score_int))
  | Raise e =>
      if is_value_or_type_error e
      then Ok ((min_val + max_val) `div` 2)
      else Raise e
  end.

Definition clean_text (text : pyval) : result string :=
  match text with
  | PNone => Ok ""
  | _ =>
      text_str ← py_str text;
      let cleaned := strip text_str in
      Ok (join " " (split_ws cleaned))
  end.

Definition validate_confidence (value : pyval) : result string :=
  match value with
  | PNone => Ok "partial"
  | _ =>
      value_str ← py_str value;
      let val_str := strip (lower value_str) in
      if bool_decide (val_str ∈ ["yes"; "y"; "true"; "1"]) then Ok "yes"
      else if bool_decide (val_str ∈ ["no"; "n"; "false"; "0"]) then Ok "no"
      else Ok "partial"
  end.

(** The literal [default_metrics], in the order it is written. *)
Definition default_metrics_items : list (string * Z) :=
  [ ("felt_heard", 3); ("concerns_addressed", 3);
    ("clear_communication", 3); ("respect_shown", 3); ("time_given", 3) ].

Definition default_metrics : gmap string Z := list_to_map default_metrics_items.

(** [dict.get(key, default)] *)
Definition dict_get (d : gmap string pyval) (key : string) (dflt : pyval)
  : pyval :=
  default dflt (d !! key).

(** The loop [for key in default_metrics.keys(): validated[key] = ...]. *)
Fixpoint radar_loop (keys : list string) (metrics : gmap string pyval)
    (validated : gmap string Z) : result (gmap string Z) :=
  match keys with
  | [] => Ok validated
  | key :: rest =>
      v ← validate_score (dict_get metrics key (PInt 3)) 1 5;
      radar_loop rest metrics (<[key := v]> validated)
  end.

Definition validate_radar_metrics (metrics : pyval) : result (gmap string Z) :=
  match metrics with
  | PDict d => radar_loop (default_metrics_items.*1) d ∅
  | _ => Ok default_metrics
  end.

Definition no_feedback : string := "No specific feedback provided.".

(** The loop [for bullet in bullets[:5]: ...], over the elements still
    to visit and the list [cleaned] built so far. *)
Fixpoint bullets_loop (bullets : list pyval) (cleaned : list string)
  : result (list string) :=
  match bullets with
  | [] => Ok cleaned
  | bullet :: rest =>
      text ← clean_text bullet;
      bullets_loop rest (if truthy text then cleaned ++ [text] else cleaned)
  end.

Definition validate_bullets (bullets : pyval) : result (list string) :=
  match bullets with
  | PNone => Ok [no_feedback]
  | _ =>
      let bullets :=
        match bullets with
        | PStr s =>
            PList (PStr <$>
                     (strip <$> filter (fun b => truthy (strip b))
                                       (split_on "," s)))
        | _ => bullets
        end in
      match bullets with
      | PList l =>
          cleaned ← bullets_loop (take 5 l) [];
          match cleaned with
          | [] => Ok [no_feedback]
          | _ => Ok cleaned
          end
      | _ => Ok [no_feedback]
      end
  end.

(** The dict literal [feedback = {...}] that the function returns. *)
Definition feedback_dict (satisfaction_score : Z) (radar_metrics : gmap string Z)
    (confidence_in_treatment : string) (duration_satisfaction : Z)
    (staff_behavior : Z) (summary_bullets : list string) : pyval :=
  PDict (list_to_map
    [ ("satisfaction_score", PInt satisfaction_score);
      ("radar_metrics", PDict (PInt <$> radar_metrics));
      ("confidence_in_treatment", PStr confidence_in_treatment);
      ("duration_satisfaction", PInt duration_satisfaction);
      ("staff_behavior", PInt staff_behavior);
      ("summary_bullets", PList (PStr <$> summary_bullets)) ]).

Definition process_llm_output (llm_response : pyval) : result pyval :=
  let llm_response :=
    match llm_response with
    | PDict d => d
    | _ => ∅
    end in
  satisfaction_score ←
    validate_score (dict_get llm_response "satisfaction_score" (PInt 3)) 1 5;
  radar_metrics ←
    validate_radar_metrics (dict_get llm_response "radar_metrics" (PDict ∅));
  confidence_in_treatment ←
    validate_confidence
      (dict_get llm_response "confidence_in_treatment" (PStr "partial"));
  duration_satisfaction ←
    validate_score (dict_get llm_response "duration_satisfaction" (PInt 3)) 1 5;
  staff_behavior ←
    validate_score (dict_get llm_response "staff_behavior" (PInt 3)) 1 5;
  summary_bullets ←
    validate_bullets (dict_get llm_response "summary_bullets" (PList []));
  Ok (feedback_dict satisfaction_score radar_metrics confidence_in_treatment
        duration_satisfaction staff_behavior summary_bullets).

(** The bullets rule as the specification words it, step by step: null
    gives the placeholder; a string is split on commas into a list; a
    list has each element cleaned, the empty ones dropped, and is then
    cut to five; an empty outcome gives the placeholder. *)
Definition or_placeholder (bullets : list string) : list string :=
  match bullets with
  | [] => [no_feedback]
  | _ => bullets
  end.

Definition validate_bullets_spec (bullets : pyval) : result (list string) :=
  match bullets with
  | PNone => Ok [no_feedback]
  | PStr s =>
      cleaned ← mapM clean_text (PStr <$> split_on "," s);
      Ok (or_placeholder (take 5 (filter (fun t => truthy t) cleaned)))
  | PList l =>
      cleaned ← mapM clean_text l;
      Ok (or_placeholder (take 5 (filter (fun t => truthy t) cleaned)))
  | _ => Ok [no_feedback]
  end.

(** An input value that [str] cannot print and [process_llm_output]
    prints: the confidence, or one of the first five bullets of a list. *)
Definition unprintable_field (raw : pyval) (e : exn) : Prop :=
  exists d v,
    raw = PDict d /\
    (d !! "confidence_in_treatment" = Some v \/
     exists l, d !! "summary_bullets" = Some (PList l) /\ v ∈ take 5 l) /\
    py_str v = Raise e.

End Builtins.

(** The five axes of the radar chart. *)
Definition radar_axes : gset string :=
  {[ "felt_heard"; "concerns_addressed"; "clear_communication";
     "respect_shown"; "time_given" ]}.

Definition record_fields : gset string :=
  {[ "satisfaction_score"; "radar_metrics"; "confidence_in_treatment";
     "duration_satisfaction"; "staff_behavior"; "summary_bullets" ]}.

(** An integer score between 1 and 5. *)
Definition score_value (v : pyval) : Prop :=
  exists z, v = PInt z /\ 1 <= z <= 5.

(** A non-empty string. *)
Definition bullet_value (v : pyval) : Prop :=
  exists s, v = PStr s /\ s ≠ "".

(** The RatingRecord invariants: all six fields present and in range. *)
Definition valid_record (r : pyval) : Prop :=
  exists d,
    r = PDict d /\
    dom d = record_fields /\
    (exists v, d !! "satisfaction_score" = Some v /\ score_value v) /\
    (exists m, d !! "radar_metrics" = Some (PDict m) /\
               dom m = radar_axes /\
               forall k v, m !! k = Some v -> score_value v) /\
    (exists c, d !! "confidence_in_treatment" = Some (PStr c) /\
               c ∈ ["yes"; "no"; "partial"]) /\
    (exists v, d !! "duration_satisfaction" = Some v /\ score_value v) /\
    (exists v, d !! "staff_behavior" = Some v /\ score_value v) /\
    (exists bs, d !! "summary_bullets" = Some (PList bs) /\
                (1 <= length bs <= 5)%nat /\ Forall bullet_value bs).

(** A cleaned bullet: not empty, and left alone by [squeeze]. *)
Definition clean_bullet (b : string) : Prop :=
  truthy b = true /\ squeeze b = b.

(** The bullet lists [validate_bullets] hands out. *)
Definition clean_bullets (bs : list string) : Prop :=
  (1 <= length bs <= 5)%nat /\ Forall clean_bullet bs.

(** The record every field of which is its default. *)
Definition default_record : pyval :=
  feedback_dict 3 default_metrics "partial" 3 3 [no_feedback].

(** A float that is infinite, as [json.loads] gives for [1e999] or
    [Infinity] and [float] gives for the string [inf]. *)
Definition float_inf : spec_float := S754_infinity false.

(** Stand-ins for the two interpreter built-ins, for closed examples
    whose inputs hold no string to convert to a float and no float or
    container to print. *)
Definition no_float (s : string) : option spec_float := None.

Definition no_repr (x : pyval) : result string := Ok "".

End FeedbackAnalyzer.

(* ================================================================= *)
(** * conversation.py *)

Module Conversation.
Import PyStr.

(** A reading of [datetime.now()]. *)
Definition time : Type := Z.

Inductive role : Type := user | assistant | system.

#[global] Instance role_eq_dec : EqDecision role.
Proof. solve_decision. Defined.

(** One entry of [self.messages]: the dict with the keys [role],
    [content] and [timestamp]. *)
Record message : Type := Message {
  msg_role : role;
  msg_content : string;
  msg_timestamp : time
}.

Record ConversationManager : Type := Manager {
  messages : list message;
  session_id : option string;
  created_at : time;
  last_activity : time;
  is_active : bool
}.

Definition MAX_HISTORY_LENGTH : nat := 50.

Definition __init__ (sid : option string) (now1 now2 : time)
  : ConversationManager :=
  {| messages := []; session_id := sid; created_at := now1;
     last_activity := now2; is_active := true |}.

Definition set_messages (self : ConversationManager) (ms : list message)
  : ConversationManager :=
  {| messages := ms; session_id := session_id self;
     created_at := created_at self; last_activity := last_activity self;
     is_active := is_active self |}.

Definition set_last_activity (self : ConversationManager) (now : time)
  : ConversationManager :=
  {| messages := messages self; session_id := session_id self;
     created_at := created_at self; last_activity := now;
     is_active := is_active self |}.

Definition _enforce_max_length (self : ConversationManager)
  : ConversationManager :=
  if bool_decide (MAX_HISTORY_LENGTH < length (messages self))%nat then
    let excess := (length (messages self) - MAX_HISTORY_LENGTH)%nat in
    set_messages self (drop excess (messages self))
  else self.

(** [not content or not content.strip()] *)
Definition blank (content : string) : bool :=
  negb (truthy content) || negb (truthy (strip content)).

Definition add_user_message (self : ConversationManager) (content : string)
    (stamp now : time) : ConversationManager :=
  if blank content then self
  else
    let self := set_messages self
                  (messages self ++ [Message user (strip content) stamp]) in
    let self := set_last_activity self now in
    _enforce_max_length self.

Definition add_assistant_message (self : ConversationManager)
    (content : string) (stamp now : time) : ConversationManager :=
  if blank content then self
  else
    let self := set_messages self
                  (messages self ++ [Message assistant (strip content) stamp]) in
    let self := set_last_activity self now in
    _enforce_max_length self.

Definition add_system_message (self : ConversationManager) (content : string)
    (stamp : time) : ConversationManager :=
  set_messages self (messages self ++ [Message system (strip content) stamp]).

(** [msg["role"] in ("user", "assistant")] *)
Definition conversational (m : message) : bool :=
  match msg_role m with
  | user | assistant => true
  | system => false
  end.

(** One entry of the history: the dict with the keys [role] and [content]. *)
Definition get_history (self : ConversationManager) : list (role * string) :=
  (fun msg => (msg_role msg, msg_content msg))
    <$> filter (fun msg => conversational msg) (messages self).

Definition newline : string := String "010"%char EmptyString.

Definition transcript_line (msg : message) : string :=
  let role_name :=
    match msg_role msg with
    | user => "Patient"
    | _ => "Assistant"
    end in
  role_name +:+ ": " +:+ msg_content msg.

Definition get_conversation_transcript (self : ConversationManager) : string :=
  match messages self with
  | [] => ""
  | _ =>
      join newline
        (transcript_line
           <$> filter (fun msg => negb (bool_decide (msg_role msg = system)))
                      (messages self))
  end.

(** One call of an appending method, with the clock readings it takes. *)
Inductive append_op : Type :=
| AddUser (content : string) (stamp now : time)
| AddAssistant (content : string) (stamp now : time)
| AddSystem (content : string) (stamp : time).

Definition apply_op (self : ConversationManager) (op : append_op)
  : ConversationManager :=
  match op with
  | AddUser content stamp now => add_user_message self content stamp now
  | AddAssistant content stamp now =>
      add_assistant_message self content stamp now
  | AddSystem content stamp => add_system_message self content stamp
  end.

(** A sequence of calls, first to last. *)
Definition run_ops (self : ConversationManager) (ops : list append_op)
  : ConversationManager :=
  fold_left apply_op ops self.

(** The message a call appends, if it appends one. *)
Definition appended (op : append_op) : option message :=
  match op with
  | AddUser content stamp _ =>
      if blank content then None
      else Some (Message user (strip content) stamp)
  | AddAssistant content stamp _ =>
      if blank content then None
      else Some (Message assistant (strip content) stamp)
  | AddSystem content stamp => Some (Message system (strip content) stamp)
  end.

(** Every message the calls appended, oldest first, none evicted. *)
Definition all_appended (ops : list append_op) : list message :=
  omap appended ops.

Definition is_system_op (op : append_op) : bool :=
  match op with
  | AddSystem _ _ => true
  | _ => false
  end.

Definition end_session (self : ConversationManager) (now : time)
  : ConversationManager :=
  {| messages := messages self; session_id := session_id self;
     created_at := created_at self; last_activity := now;
     is_active := false |}.

(** The value of [msg["role"]]. *)
Definition role_name (r : role) : string :=
  match r with
  | user => "user"
  | assistant => "assistant"
  | system => "system"
  end.

(** [get_last_message(role)]; [role] is [None] when the argument is left
    out, and an empty string counts as left out ([if role:]). *)
Definition get_last_message (self : ConversationManager)
    (role : option string) : option message :=
  match messages self with
  | [] => None
  | _ =>
      if from_option truthy false role then
        List.find
          (fun msg => bool_decide (Some (role_name (msg_role msg)) = role))
          (reverse (messages self))
      else last (messages self)
  end.

(** [sum(1 for m in self.messages if m["role"] == r)] *)
Definition count_role (r : role) (ms : list message) : Z :=
  Z.of_nat (length (filter (fun m => msg_role m = r) ms)).

Definition get_message_count (self : ConversationManager) : gmap string Z :=
  let user_count := count_role user (messages self) in
  let assistant_count := count_role assistant (messages self) in
  list_to_map
    [ ("user", user_count);
      ("assistant", assistant_count);
      ("total", user_count + assistant_count) ].

(** [(self.last_activity - self.created_at).total_seconds()], in the
    unit of the clock readings. *)
Definition get_session_duration (self : ConversationManager) : Z :=
  last_activity self - created_at self.

Definition __len__ (self : ConversationManager) : nat :=
  length (messages self).

(** The clock readings a call takes after the object's creation. *)
Definition op_readings (op : append_op) : list time :=
  match op with
  | AddUser content stamp now | AddAssistant content stamp now =>
      if blank content then [] else [stamp; now]
  | AddSystem _ stamp => [stamp]
  end.

(** One line of the transcript, from an entry of [get_history]. *)
Definition history_line (entry : role * string) : string :=
  (match entry.1 with user => "Patient" | _ => "Assistant" end)
    +:+ ": " +:+ entry.2.

End Conversation.

(* ================================================================= *)
(** * llm_client.py *)

Module MockProvider.
Import PyStr Conversation.

(** [random.choice(xs)] on a non-empty literal, for the draw [draw]. *)
Definition random_choice (draw : nat) (xs : list string) : string :=
  default "" (xs !! (draw `mod` length xs)%nat).

Definition greetings : list string :=
  [ "Hello! I'm here to hear about your healthcare visit today. How was your overall experience?";
    "Hi there! Thank you for taking the time to share your feedback. What brings you here today?";
    "Welcome! I'd love to hear about your recent healthcare experience. What stood out to you?" ].

Definition negatives : list string :=
  [ "I'm truly sorry to hear that. That sounds very difficult. Can you tell me more about what happened?";
    "That's really concerning to hear. Your experience matters. What specifically went wrong?";
    "I appreciate you sharing that, even though it was negative. What would have made it better?" ].

Definition wait_responses : list string :=
  [ "Wait times can be so frustrating. How long did you have to wait approximately?";
    "I understand waiting is difficult. Did anyone communicate about the delay?";
    "That's a common concern we hear. Was there anything available to make the wait more comfortable?" ].

Definition rude_responses : list string :=
  [ "I'm sorry you felt that way. No one should feel dismissed. Who was involved in that interaction?";
    "That's not the experience we want anyone to have. Can you describe what happened?";
    "Your feelings are valid. Would you like to share more details about that interaction?" ].

Definition positives : list string :=
  [ "That's wonderful to hear! What made it such a positive experience?";
    "I'm so glad! Was there a particular person or aspect that stood out?";
    "That's great feedback! Would you recommend us to others? Why?" ].

Definition friendly_responses : list string :=
  [ "It's great that the staff made a positive impression! Anyone specific you'd like to mention?";
    "We love hearing this! Friendly interactions make such a difference, don't they?";
    "That's exactly what we aim for. Was the rest of your visit equally positive?" ].

Definition doctor_responses : list string :=
  [ "How was your interaction with the doctor? Did they address all your concerns?";
    "The doctor-patient relationship is so important. Did you feel heard?";
    "Was the doctor able to explain things in a way you understood?" ].

Definition nurse_responses : list string :=
  [ "Nurses play such a vital role. How was your experience with them?";
    "Our nursing staff works hard. Did they make you feel comfortable?";
    "Were the nurses attentive to your needs?" ].

Definition appointment_responses : list string :=
  [ "How was the appointment scheduling process?";
    "Was it easy to get an appointment at a time that worked for you?";
    "Did the appointment start on time?" ].

Definition facility_responses : list string :=
  [ "The environment matters. Was the facility up to your expectations?";
    "Cleanliness is important to us. How did you find the facilities?";
    "What did you think about the overall atmosphere of our facility?" ].

Definition off_topic_redirect : string :=
  "I appreciate the conversation! Though I'd love to hear more about your healthcare experience specifically. Anything else you'd like to share about your visit?".

Definition defaults (num_exchanges : nat) : list string :=
  if bool_decide (num_exchanges = 2%nat) then
    [ "Thank you for sharing that. Is there anything specific about the staff you'd like to mention?";
      "I appreciate that feedback. What about the facilities - how did you find them?";
      "Got it. How was the communication throughout your visit?" ]
  else if bool_decide (num_exchanges = 3%nat) then
    [ "That's helpful to know. Were there any surprises during your visit, good or bad?";
      "I see. If you could change one thing about your experience, what would it be?";
      "Thank you. Is there anything else that stands out in your memory?" ]
  else if bool_decide (num_exchanges = 4%nat) then
    [ "You've shared some valuable insights. Any final thoughts before we wrap up?";
      "This is really helpful feedback. Anything else you'd like to add?";
      "I appreciate all you've shared. Is there anything we haven't covered?" ]
  else
    [ "Thank you for continuing to share. What else would you like to mention?";
      "I'm still listening. Feel free to share any other thoughts.";
      "Is there anything else about your experience you'd like to discuss?";
      "Your feedback is valuable. Please continue if there's more.";
      "I appreciate your openness. What else comes to mind?" ].

(** [messages[-1]["content"].lower() if messages else ""] *)
Definition last_message_of (messages : list (role * string)) : string :=
  match last messages with
  | Some m => lower (m.2)
  | None => ""
  end.

(** [len([m for m in messages if m.get("role") == "user"])] *)
Definition num_exchanges_of (messages : list (role * string)) : nat :=
  length (filter (fun m => m.1 = user) messages).

(** The content of the latest message whose role is [user]. *)
Definition latest_user_content (messages : list (role * string))
  : option string :=
  snd <$> last (filter (fun m => m.1 = user) messages).

(** [chat_completion(messages, system_prompt)]; the pause
    [time.sleep(0.3)] has no counterpart here. *)
Definition chat_completion (draw : nat) (messages : list (role * string))
    (system_prompt : string) : string :=
  let last_message := last_message_of messages in
  let num_exchanges := num_exchanges_of messages in
  if bool_decide (num_exchanges ≤ 1)%nat then random_choice draw greetings
  else if any_in ["bad"; "terrible"; "awful"; "horrible"; "worst"] last_message
  then random_choice draw negatives
  else if any_in ["long"; "slow"; "wait"; "waiting"; "delayed"] last_message
  then random_choice draw wait_responses
  else if any_in ["rude"; "mean"; "dismissive"; "ignored"] last_message
  then random_choice draw rude_responses
  else if any_in ["good"; "great"; "excellent"; "amazing"; "wonderful"] last_message
  then random_choice draw positives
  else if any_in ["nice"; "friendly"; "helpful"; "kind"; "caring"] last_message
  then random_choice draw friendly_responses
  else if any_in ["doctor"; "physician"; "dr"] last_message
  then random_choice draw doctor_responses
  else if any_in ["nurse"; "nurses"; "nursing"] last_message
  then random_choice draw nurse_responses
  else if any_in ["appointment"; "schedule"; "booking"] last_message
  then random_choice draw appointment_responses
  else if any_in ["clean"; "dirty"; "facility"; "room"; "building"] last_message
  then random_choice draw facility_responses
  else if any_in ["marketing"; "sales"; "weather"; "sports"; "politics"] last_message
  then off_topic_redirect
  else random_choice draw (defaults num_exchanges).

(** The four documents [analyze_conversation] hands to [json.dumps]. *)
Definition negative_analysis : pyval :=
  PDict (list_to_map
    [ ("satisfaction_score", PInt 2);
      ("radar_metrics", PDict (list_to_map
         [ ("felt_heard", PInt 2);
           ("concerns_addressed", PInt 2);
           ("clear_communication", PInt 3);
           ("respect_shown", PInt 3);
           ("time_given", PInt 1) ]));
      ("confidence_in_treatment", PStr "partial");
      ("duration_satisfaction", PInt 2);
      ("staff_behavior", PInt 3);
      ("summary_bullets", PList
         [ PStr "Patient experienced significant wait times";
           PStr "Consultation felt rushed due to delays";
           PStr "Concerns were partially addressed";
           PStr "Recommend reviewing scheduling processes" ]) ]).

Definition positive_analysis : pyval :=
  PDict (list_to_map
    [ ("satisfaction_score", PInt 5);
      ("radar_metrics", PDict (list_to_map
         [ ("felt_heard", PInt 5);
           ("concerns_addressed", PInt 5);
           ("clear_communication", PInt 5);
           ("respect_shown", PInt 5);
           ("time_given", PInt 5) ]));
      ("confidence_in_treatment", PStr "yes");
      ("duration_satisfaction", PInt 5);
      ("staff_behavior", PInt 5);
      ("summary_bullets", PList
         [ PStr "Patient highly satisfied with overall care";
           PStr "Staff was attentive and professional";
           PStr "Clear communication throughout visit";
           PStr "Would recommend to others";
           PStr "No concerns or issues raised" ]) ]).

Definition rude_analysis : pyval :=
  PDict (list_to_map
    [ ("satisfaction_score", PInt 1);
      ("radar_metrics", PDict (list_to_map
         [ ("felt_heard", PInt 1);
           ("concerns_addressed", PInt 2);
           ("clear_communication", PInt 2);
           ("respect_shown", PInt 1);
           ("time_given", PInt 2) ]));
      ("confidence_in_treatment", PStr "no");
      ("duration_satisfaction", PInt 2);
      ("staff_behavior", PInt 1);
      ("summary_bullets", PList
         [ PStr "Patient felt dismissed by staff";
           PStr "Communication was poor or unclear";
           PStr "Did not feel respected during visit";
           PStr "Urgent follow-up recommended";
           PStr "Consider staff training on patient interactions" ]) ]).

Definition neutral_analysis : pyval :=
  PDict (list_to_map
    [ ("satisfaction_score", PInt 3);
      ("radar_metrics", PDict (list_to_map
         [ ("felt_heard", PInt 3);
           ("concerns_addressed", PInt 3);
           ("clear_communication", PInt 3);
           ("respect_shown", PInt 4);
           ("time_given", PInt 3) ]));
      ("confidence_in_treatment", PStr "partial");
      ("duration_satisfaction", PInt 3);
      ("staff_behavior", PInt 4);
      ("summary_bullets", PList
         [ PStr "Patient had a routine healthcare experience";
           PStr "No major concerns raised";
           PStr "Standard care was provided";
           PStr "Continue monitoring for patterns" ]) ]).

(** The document [analyze_conversation] chooses, before [json.dumps]
    turns it into text. *)
Definition analysis_document (conversation : string) : pyval :=
  let conversation_lower := lower conversation in
  if any_in ["bad"; "terrible"; "long"; "wait"] conversation_lower
  then negative_analysis
  else if any_in ["good"; "great"; "excellent"; "amazing"] conversation_lower
  then positive_analysis
  else if any_in ["rude"; "mean"; "dismissive"; "ignored"] conversation_lower
  then rude_analysis
  else neutral_analysis.

(** [analyze_conversation(conversation, system_prompt)], with
    [json.dumps] taken from the interpreter. *)
Definition analyze_conversation (json_dumps : pyval -> string)
    (conversation system_prompt : string) : string :=
  json_dumps (analysis_document conversation).

End MockProvider.

Module LLMClient.
Import PyStr FeedbackAnalyzer.

(** What a provider call does: it returns text, or it fails. The hosted
    providers re-raise every failure as [Exception(f"... error: {e}")],
    and the mock provider never fails; [Failed msg] is that exception. *)
Inductive provider_outcome : Type :=
| Returned (text : string)
| Failed (msg : string).

Section Json.

(** [json.loads], taken from the interpreter: the decoded value, or the
    exception it raises ([JSONDecodeError] on malformed text). *)
Variable json_loads : string -> result pyval.

(** The dict returned when the reply is not JSON. *)
Definition parse_failure_response : pyval :=
  PDict (list_to_map
    [ ("satisfaction_score", PInt 3);
      ("summary", PStr "Analysis failed to parse.");
      ("key_issues", PList [PStr "Analysis Error"]) ]).

(** The text handed to [json.loads]: the reply trimmed, without a
    leading [```json] and a trailing [```]. *)
Definition strip_code_fence (raw_response : string) : string :=
  let clean_response := strip raw_response in
  let clean_response :=
    if startswith "```json" clean_response
    then drop_front 7 clean_response else clean_response in
  let clean_response :=
    if endswith "```" clean_response
    then drop_back 3 clean_response else clean_response in
  clean_response.

(** The body of the [try] block of [analyze_feedback], given what
    [self.provider.analyze_conversation(...)] did. *)
Definition analyze_feedback_try (provider_result : provider_outcome)
  : result pyval :=
  raw_response ←
    match provider_result with
    | Returned text => Ok text
    | Failed msg => Raise (Exception_ msg)
    end;
  json_loads (strip_code_fence raw_response).

(** [analyze_feedback]: [except json.JSONDecodeError] comes first, then
    [except Exception]. *)
Definition analyze_feedback (provider_result : provider_outcome) : pyval :=
  match analyze_feedback_try provider_result with
  | Ok v => v
  | Raise JSONDecodeError => parse_failure_response
  | Raise _ => PDict ∅
  end.

(** The two steps of the analysis route, one after the other:
    [llm_response = llm_client.analyze_feedback(...)] and
    [feedback = analyzer.process_llm_output(llm_response)]. *)
Definition analyze_and_process (float_of_str : string -> option spec_float)
    (repr : pyval -> result string) (provider_result : provider_outcome)
  : result pyval :=
  process_llm_output float_of_str repr (analyze_feedback provider_result).

End Json.

(** A double quote, and a reply whose score overflows a float:
    [{"satisfaction_score": 1e999}]. *)
Definition dquote : string := String "034"%char EmptyString.

Definition overflowing_reply : string :=
  "{" +:+ dquote +:+ "satisfaction_score" +:+ dquote +:+ ": 1e999}".

(** A stand-in for [json.loads] that decodes that one reply and rejects
    every other text, for closed examples. *)
Definition loads_overflowing_reply (s : string) : result pyval :=
  if bool_decide (s = overflowing_reply)
  then Ok (PDict {[ "satisfaction_score" := PFloat float_inf ]})
  else Raise JSONDecodeError.

End LLMClient.

(* ================================================================= *)
(** * app.py *)

Module App.
Import PyStr Conversation LLMClient.

(** What a route returns: [jsonify(body)], [jsonify(...), 400] with its
    error text, or [jsonify(...), 500] for the exception [e] caught by
    the route's outer [except Exception as e]. *)
Inductive response : Type :=
| Json200 (body : gmap string pyval)
| Json400 (error : string)
| Json500 (e : exn).

Inductive gateway_call : Type :=
| PrimaryChat (history : list (role * string))
| FallbackChat (history : list (role * string)).

(** The process state a request runs in: the global [active_sessions],
    the chat calls made so far, and how many times [datetime.now()] has
    been read. *)
Record world : Type := World {
  active_sessions : gmap string ConversationManager;
  gateway_calls : list gateway_call;
  clock_reads : nat
}.

(** A computation that may raise and that changes the process state;
    what it changed before raising stays changed. *)
Definition M (A : Type) : Type := world -> result A * world.

Definition ret {A} (a : A) : M A := fun w => (Ok a, w).

Definition throw {A} (e : exn) : M A := fun w => (Raise e, w).

Definition bind {A B} (m : M A) (k : A -> M B) : M B := fun w =>
  match m w with
  | (Ok a, w') => k a w'
  | (Raise e, w') => (Raise e, w')
  end.

Definition try_except {A} (m : M A) (handler : exn -> M A) : M A := fun w =>
  match m w with
  | (Ok a, w') => (Ok a, w')
  | (Raise e, w') => handler e w'
  end.

Notation "'let*' x ':=' m 'in' k" := (bind m (fun x => k))
  (at level 10, x pattern, m at level 100, k at level 200, only parsing).

Definition closing_msg : string :=
  "Thank you for your feedback. We are now analyzing your response.".

Definition fallback_note : string :=
  " [Note: System fallback engaged due to connection error]".

Definition end_commands : list string := ["end"; "stop"; "finish"; "done"].

(** [bool(x)] *)
Definition truth (x : pyval) : bool :=
  match x with
  | PNone => false
  | PBool b => b
  | PInt n => negb (n =? 0)
  | PFloat (S754_zero _) => false
  | PFloat _ => true
  | PStr s => truthy s
  | PList l => negb (bool_decide (l = []))
  | PDict d => negb (bool_decide (d = ∅))
  end.

(** The reply the fallback policy prescribes, given what the primary
    and the fallback chat call do. *)
Definition settled_reply (primary fallback : provider_outcome) : string :=
  match primary with
  | Returned assistant_response => assistant_response
  | Failed llm_error =>
      match fallback with
      | Returned assistant_response => assistant_response +:+ fallback_note
      | Failed _ =>
          "System Error: " +:+ llm_error +:+ ". Please check server logs."
      end
  end.

Section Server.

Variable CONVERSATIONAL_SYSTEM_PROMPT : string.

(** [llm_client.chat] and [LLMClient(provider="mock").chat]. The second
    is [mock_chat] below, which never fails; the route is written for a
    fallback that may fail too, so it is kept general here. *)
Variable llm_client_chat : list (role * string) -> string -> provider_outcome.
Variable fallback_client_chat :
  list (role * string) -> string -> provider_outcome.

(** The readings of [datetime.now()], in the order they are taken. *)
Variable now : nat -> time.

Definition read_clock : M time := fun w =>
  (Ok (now (clock_reads w)),
   World (active_sessions w) (gateway_calls w) (S (clock_reads w))).

Definition log_call (c : gateway_call) : M unit := fun w =>
  (Ok tt, World (active_sessions w) (gateway_calls w ++ [c]) (clock_reads w)).

(** [active_sessions[sid]] *)
Definition get_session (sid : string) : M ConversationManager := fun w =>
  match active_sessions w !! sid with
  | Some conversation => (Ok conversation, w)
  | None => (Raise KeyError, w)
  end.

(** The session's object after a method changed it in place. *)
Definition put_session (sid : string) (conversation : ConversationManager)
  : M unit := fun w =>
  (Ok tt, World (<[sid := conversation]> (active_sessions w))
                (gateway_calls w) (clock_reads w)).

(** [not session_id or session_id not in active_sessions]: [None] when
    that holds, the key otherwise. A non-empty list or dict is not
    hashable, so the membership test raises [TypeError]. *)
Definition find_session (session_id : pyval) : M (option string) := fun w =>
  if negb (truth session_id) then (Ok None, w)
  else
    match session_id with
    | PStr sid =>
        (Ok (if bool_decide (is_Some (active_sessions w !! sid))
             then Some sid else None), w)
    | PList _ | PDict _ => (Raise TypeError, w)
    | _ => (Ok None, w)
    end.

(** [conversation.add_user_message(content)] on the session's object. *)
Definition session_add_user_message (sid content : string) : M unit :=
  let* conversation := get_session sid in
  if blank content then ret tt
  else
    let* stamp := read_clock in
    let* t := read_clock in
    put_session sid (add_user_message conversation content stamp t).

Definition session_add_assistant_message (sid content : string) : M unit :=
  let* conversation := get_session sid in
  if blank content then ret tt
  else
    let* stamp := read_clock in
    let* t := read_clock in
    put_session sid (add_assistant_message conversation content stamp t).

Definition end_conversational_session_internal (session_id : pyval)
  : M response :=
  let* found := find_session session_id in
  match found with
  | None => ret (Json400 "Invalid session")
  | Some sid =>
      let* _ := session_add_assistant_message sid closing_msg in
      let* conversation := get_session sid in
      let transcript := get_conversation_transcript conversation in
      ret (Json200 (list_to_map
        [ ("success", PBool true);
          ("message", PStr closing_msg);
          ("transcript", PStr transcript);
          ("is_active", PBool false);
          ("should_analyze", PBool true);
          ("session_id", session_id) ]))
  end.

(** [data.get(key, dflt)] on the request body: an [AttributeError]
    unless the body is a dict. *)
Definition body_get (data : pyval) (key : string) (dflt : pyval) : M pyval :=
  match data with
  | PDict d => ret (default dflt (d !! key))
  | _ => throw AttributeError
  end.

(** [x.strip()]: an [AttributeError] unless [x] is a string. *)
Definition str_strip (x : pyval) : M string :=
  match x with
  | PStr s => ret (strip s)
  | _ => throw AttributeError
  end.

(** One chat call, recorded; its failure is handled by the caller. *)
Definition chat_via (call : list (role * string) -> gateway_call)
    (chat : list (role * string) -> string -> provider_outcome)
    (sid : string) : M provider_outcome :=
  let* conversation := get_session sid in
  let history := get_history conversation in
  let* _ := log_call (call history) in
  ret (chat history CONVERSATIONAL_SYSTEM_PROMPT).

(** The [try] around [llm_client.chat] with its two handlers. *)
Definition generate_response (sid : string) : M string :=
  let* primary := chat_via PrimaryChat llm_client_chat sid in
  match primary with
  | Returned assistant_response => ret assistant_response
  | Failed llm_error =>
      let* fallback := chat_via FallbackChat fallback_client_chat sid in
      match fallback with
      | Returned assistant_response =>
          ret (assistant_response +:+ fallback_note)
      | Failed _ =>
          ret ("System Error: " +:+ llm_error +:+ ". Please check server logs.")
      end
  end.

Definition send_message (data : pyval) : M response :=
  try_except
    (let* message := body_get data "message" (PStr "") in
     let* user_message := str_strip message in
     let* session_id := body_get data "session_id" PNone in
     if negb (truthy user_message)
     then ret (Json400 "Message cannot be empty")
     else
       let* found := find_session session_id in
       match found with
       | None => ret (Json400 "Invalid or expired session")
       | Some sid =>
           if bool_decide (lower user_message ∈ end_commands)
           then end_conversational_session_internal session_id
           else
             let* _ := session_add_user_message sid user_message in
             let* assistant_response := generate_response sid in
             let* _ := session_add_assistant_message sid assistant_response in
             ret (Json200 (list_to_map
               [ ("success", PBool true);
                 ("message", PStr assistant_response);
                 ("is_active", PBool true);
                 ("session_id", session_id) ]))
       end)
    (fun e => ret (Json500 e)).

Definition end_conversational_session (data : pyval) : M response :=
  try_except
    (let* session_id := body_get data "session_id" PNone in
     end_conversational_session_internal session_id)
    (fun e => ret (Json500 e)).

Definition greeting : string :=
  "Hello! I'm here to listen about your healthcare experience today. What would you like to share?".

(** The start route; [fresh_id] is the text of the identifier that
    [uuid.uuid4()] draws for the request. *)
Definition start_conversational_session (fresh_id : string) : M response :=
  try_except
    (let session_id := fresh_id in
     let* created := read_clock in
     let* active := read_clock in
     let conversation := __init__ None created active in
     let* conversation :=
       if blank greeting then ret conversation
       else
         let* stamp := read_clock in
         let* t := read_clock in
         ret (add_assistant_message conversation greeting stamp t) in
     let* _ := put_session session_id conversation in
     ret (Json200 (list_to_map
       [ ("success", PBool true);
         ("message", PStr greeting);
         ("is_active", PBool true);
         ("session_id", PStr session_id) ])))
    (fun e => ret (Json500 e)).

End Server.

(** The chat of [LLMClient(provider="mock")], for the draw [draw] of
    [random.choice]. *)
Definition mock_chat (draw : nat) (messages : list (role * string))
    (system_prompt : string) : provider_outcome :=
  Returned (MockProvider.chat_completion draw messages system_prompt).

(** A hosted provider that is out of reach. *)
Definition offline_chat (messages : list (role * string))
    (system_prompt : string) : provider_outcome :=
  Failed "Anthropic API chat error: connection refused".

(** A clock that advances by one at each reading. *)
Definition ticking (n : nat) : time := Z.of_nat n.

(** One session, right after the start route greeted the patient. *)
Definition greeted : ConversationManager :=
  add_assistant_message (__init__ None 0 0)
    "Hello! I'm here to listen about your healthcare experience today. What would you like to share?"
    1 1.

Definition one_session : world := World {[ "s1" := greeted ]} [] 2.

(** The body of a message request. *)
Definition message_request (text sid : string) : gmap string pyval :=
  {[ "message" := PStr text; "session_id" := PStr sid ]}.

(** The chat calls the route makes for a history, given what the primary
    call does: the fallback is called only when the primary fails. *)
Definition calls_for (primary : provider_outcome)
    (history : list (role * string)) : list gateway_call :=
  match primary with
  | Returned _ => [PrimaryChat history]
  | Failed _ => [PrimaryChat history; FallbackChat history]
  end.

End App.

(* ================================================================= *)
(** * prompts.py *)

Module Prompts.
Import Conversation.

(** [get_user_message(conversation)]: the transcript between two fixed
    lines, a blank line on either side of it. *)
Definition get_user_message (conversation : string) : string :=
  "Now analyze this conversation:" +:+ newline +:+ newline
    +:+ conversation +:+ newline +:+ newline
    +:+ "Output the JSON response:".

End Prompts.

(* ================================================================= *)
(** * storage.py *)

Module Storage.
Import PyStr FeedbackAnalyzer Conversation.

(** A line of the CSV file as [csv.DictWriter] writes it and as
    [csv.DictReader] yields it: the text of each column, [None] where a
    line read has no cell for the column. *)
Definition csv_row : Type := gmap string (option string).

(** The file as [save_feedback] sees it: the lines written after the
    header, or [None] while the file does not exist. The file operations
    themselves are taken to succeed. *)
Definition csv_file : Type := option (list csv_row).

(** The file as [load_all_feedback] sees it: [None] while it does not
    exist; otherwise what [csv.DictReader] does with its text, which is
    to yield the lines or to raise (a field longer than the reader's
    limit of 131072 characters, for one). What the reader makes of text
    the writer wrote is the [csv] module's business and has no
    counterpart here. *)
Definition csv_reading : Type := option (result (list csv_row)).

Definition fieldnames : list string :=
  ["timestamp"; "satisfaction_score"; "summary"; "key_issues"].

(** The one-character strings a [str] yields when iterated. *)
Fixpoint chars (s : string) : list string :=
  match s with
  | EmptyString => []
  | String c r => String c EmptyString :: chars r
  end.

Section Interpreter.

(** Taken from the interpreter: [str(x)] on a float or a container,
    [strftime("%Y-%m-%d %H:%M:%S")] on a clock reading, the order in
    which a dict yields its keys, and [int(s)] on a string ([None] is its
    [ValueError]). *)
Variable repr : pyval -> result string.
Variable strftime : time -> string.
Variable key_order : gmap string pyval -> list string.
Variable int_of_str : string -> option Z.

(** The items [sep.join(x)] joins: a [TypeError] when [x] cannot be
    iterated or yields something that is not a string. *)
Definition join_items (x : pyval) : result (list string) :=
  match x with
  | PList l =>
      mapM (fun item => match item with
                        | PStr s => Ok s
                        | _ => Raise TypeError
                        end) l
  | PStr s => Ok (chars s)
  | PDict d => Ok (key_order d)
  | _ => Raise TypeError
  end.

(** [feedback.get(key, default)]: an [AttributeError] unless [feedback]
    is a dict. *)
Definition feedback_get (feedback : pyval) (key : string) (dflt : pyval)
  : result pyval :=
  match feedback with
  | PDict d => Ok (dict_get d key dflt)
  | _ => Raise AttributeError
  end.

(** The dict [row] that [save_feedback] prepares. *)
Definition prepare_row (feedback : pyval) (now : time)
  : result (gmap string pyval) :=
  let timestamp := strftime now in
  key_issues ← feedback_get feedback "key_issues" (PList []);
  items ← join_items key_issues;
  let key_issues_str := join "; " items in
  satisfaction_score ← feedback_get feedback "satisfaction_score" (PInt 0);
  summary ← feedback_get feedback "summary" (PStr "");
  Ok (list_to_map
        [ ("timestamp", PStr timestamp);
          ("satisfaction_score", satisfaction_score);
          ("summary", summary);
          ("key_issues", PStr key_issues_str) ]).

(** The text [csv.DictWriter] writes for a value: nothing for [None],
    [str(x)] otherwise, with the exception [str] raises. *)
Definition cell_text (x : pyval) : result string :=
  match x with
  | PNone => Ok ""
  | _ => py_str repr x
  end.

(** [writer.writerow(row)]: one cell for each name in [fieldnames];
    nothing is written when a cell cannot be printed. *)
Definition written_row (row : gmap string pyval) : result csv_row :=
  cells ←
    mapM (fun name =>
            text ← cell_text (default (PStr "") (row !! name));
            Ok (name, Some text))
         fieldnames;
  Ok (list_to_map cells).

Definition _ensure_file_exists (file : csv_file) : list csv_row :=
  default [] file.

(** [save_feedback(feedback)]: what it returns and the file it leaves. *)
Definition save_feedback (feedback : pyval) (now : time) (file : csv_file)
  : bool * csv_file :=
  let lines := _ensure_file_exists file in
  match prepare_row feedback now ≫= written_row with
  | Ok line => (true, Some (lines ++ [line]))
  | Raise _ => (false, Some lines)
  end.

(** [row[key]] on a line read back. *)
Definition row_get (row : csv_row) (key : string) : result (option string) :=
  match row !! key with
  | Some cell => Ok cell
  | None => Raise KeyError
  end.

(** A cell as a Python value. *)
Definition cell_value (cell : option string) : pyval :=
  match cell with
  | Some s => PStr s
  | None => PNone
  end.

(** The body of the loop [for row in reader]. *)
Definition load_row (row : csv_row) : result pyval :=
  cell ← row_get row "key_issues";
  let key_issues :=
    match cell with
    | Some s => if truthy s then split_str "; " s else []
    | None => []
    end in
  timestamp ← row_get row "timestamp";
  cell ← row_get row "satisfaction_score";
  satisfaction_score ←
    match cell with
    | Some s =>
        match int_of_str s with
        | Some n => Ok n
        | None => Raise ValueError
        end
    | None => Raise TypeError
    end;
  summary ← row_get row "summary";
  Ok (PDict (list_to_map
        [ ("timestamp", cell_value timestamp);
          ("satisfaction_score", PInt satisfaction_score);
          ("summary", cell_value summary);
          ("key_issues", PList (PStr <$> key_issues)) ])).

(** [load_all_feedback()]: an exception anywhere, in the reader or in
    the loop, gives the empty list. *)
Definition load_all_feedback (file : csv_reading) : list pyval :=
  match file with
  | None => []
  | Some reading =>
      match reading ≫= mapM load_row with
      | Ok feedback_list => feedback_list
      | Raise _ => []
      end
  end.

End Interpreter.

(** A stand-in for [int(s)] that reads one digit, for closed examples. *)
Definition int_of_digit (s : string) : option Z :=
  match s with
  | String c EmptyString =>
      let n := N_of_ascii c in
      if ((48 <=? n) && (n <=? 57))%N then Some (Z.of_N n - 48) else None
  | _ => None
  end.

(** Stand-ins for the clock format and the key order of a dict. *)
Definition no_strftime (t : time) : string := "".

Definition no_key_order (d : gmap string pyval) : list string := [].

End Storage.

(* ================================================================= *)
(** * conversational_assistant.py *)

Module ConversationalAssistant.
Import PyStr.

Inductive ConversationState : Type := IDLE | ACTIVE | ENDING | COMPLETED.

#[global] Instance ConversationState_eq_dec : EqDecision ConversationState.
Proof. solve_decision. Defined.

Definition GREETINGS : list string :=
  [ "Hello! I'm here to listen about your healthcare experience today. What would you like to share?";
    "Hi there! I'd love to hear about your recent healthcare visit. How did it go?";
    "Welcome! I'm here to understand your healthcare experience. Feel free to share anything on your mind." ].

Definition CLOSING_MESSAGES : list string :=
  [ "Thank you so much for sharing your experience with me. Your feedback is really valuable.";
    "I appreciate you taking the time to share this. Your input helps us improve.";
    "Thank you for this conversation. Your feedback will make a real difference." ].

(** The object's attributes; an entry of [conversation_history] is the
    dict with the keys [role], [content] and [timestamp]. *)
Record Assistant : Type := MkAssistant {
  conversation_history : list Conversation.message;
  state : ConversationState;
  topics_discussed : gset string;
  created_at : option Conversation.time;
  ended_at : option Conversation.time;
  _greeting_index : nat
}.

Definition __init__ : Assistant :=
  {| conversation_history := []; state := IDLE; topics_discussed := ∅;
     created_at := None; ended_at := None; _greeting_index := 0 |}.

(** [xs[i]] for an index within the literal [xs]. *)
Definition item (xs : list string) (i : nat) : string := default "" (xs !! i).

(** [start_conversation()]: the greeting returned and the object left;
    [now1] and [now2] are its two clock readings. *)
Definition start_conversation (self : Assistant)
    (now1 now2 : Conversation.time) : string * Assistant :=
  let greeting :=
    item GREETINGS (_greeting_index self `mod` length GREETINGS)%nat in
  (greeting,
   {| conversation_history :=
        [Conversation.Message Conversation.assistant greeting now2];
      state := ACTIVE; topics_discussed := ∅;
      created_at := Some now1; ended_at := None;
      _greeting_index := S (_greeting_index self) |}).

(** [len([m for m in self.conversation_history if m["role"] == "user"])] *)
Definition user_count (self : Assistant) : nat :=
  length (filter (fun m => Conversation.msg_role m = Conversation.user)
                 (conversation_history self)).

Definition end_conversation (self : Assistant)
    (now1 now2 : Conversation.time) : string * Assistant :=
  match state self with
  | IDLE => ("There's no active conversation to end.", self)
  | COMPLETED => ("This conversation has already ended.", self)
  | _ =>
      let msg_count := user_count self in
      let closing :=
        if bool_decide (5 ≤ msg_count)%nat then item CLOSING_MESSAGES 0
        else if bool_decide (2 ≤ msg_count)%nat then item CLOSING_MESSAGES 1
        else item CLOSING_MESSAGES 2 in
      (closing,
       {| conversation_history :=
            conversation_history self
              ++ [Conversation.Message Conversation.assistant closing now2];
          state := COMPLETED; topics_discussed := topics_discussed self;
          created_at := created_at self; ended_at := Some now1;
          _greeting_index := _greeting_index self |})
  end.

(** The literal [topic_keywords], in the order it is written. *)
Definition topic_keywords : list (string * list string) :=
  [ ("wait_time", ["wait"; "waiting"; "long time"; "hours"; "delay"]);
    ("staff", ["staff"; "nurse"; "doctor"; "receptionist"; "employee"]);
    ("facility", ["room"; "building"; "facility"; "parking"; "clean"]);
    ("communication", ["explain"; "told"; "said"; "understand"; "confused"]);
    ("treatment", ["treatment"; "procedure"; "medicine"; "prescription"]);
    ("billing", ["cost"; "bill"; "insurance"; "payment"; "expensive"]);
    ("appointment", ["appointment"; "schedule"; "booking"; "available"]);
    ("overall_positive", ["good"; "great"; "excellent"; "happy"; "satisfied"]);
    ("overall_negative", ["bad"; "poor"; "terrible"; "unhappy"; "disappointed"]) ].

(** [_detect_topics(message)]: the set [topics_discussed] it leaves. *)
Definition _detect_topics (topics : gset string) (message : string)
  : gset string :=
  let message_lower := lower message in
  fold_left
    (fun topics entry =>
       if any_in entry.2 message_lower then topics ∪ {[ entry.1 ]}
       else topics)
    topic_keywords topics.

Definition add_user_message (self : Assistant) (message : string)
    (now : Conversation.time) : bool * Assistant :=
  if negb (bool_decide (state self = ACTIVE)) then (false, self)
  else if Conversation.blank message then (false, self)
  else
    let cleaned_message := strip message in
    (true,
     {| conversation_history :=
          conversation_history self
            ++ [Conversation.Message Conversation.user cleaned_message now];
        state := state self;
        topics_discussed :=
          _detect_topics (topics_discussed self) cleaned_message;
        created_at := created_at self; ended_at := ended_at self;
        _greeting_index := _greeting_index self |}).

Definition add_assistant_message (self : Assistant) (message : string)
    (now : Conversation.time) : bool * Assistant :=
  if negb (bool_decide (state self = ACTIVE ∨ state self = ENDING))
  then (false, self)
  else if Conversation.blank message then (false, self)
  else
    (true,
     {| conversation_history :=
          conversation_history self
            ++ [Conversation.Message Conversation.assistant (strip message)
                  now];
        state := state self; topics_discussed := topics_discussed self;
        created_at := created_at self; ended_at := ended_at self;
        _greeting_index := _greeting_index self |}).

Definition reset (self : Assistant) : Assistant :=
  {| conversation_history := []; state := IDLE; topics_discussed := ∅;
     created_at := None; ended_at := None;
     _greeting_index := _greeting_index self |}.

(** One call of a method that changes the object, with the clock
    readings it takes. *)
Inductive call : Type :=
| Start (now1 now2 : Conversation.time)
| End_ (now1 now2 : Conversation.time)
| UserSays (message : string) (now : Conversation.time)
| AssistantSays (message : string) (now : Conversation.time)
| Reset.

Definition step (self : Assistant) (c : call) : Assistant :=
  match c with
  | Start now1 now2 => (start_conversation self now1 now2).2
  | End_ now1 now2 => (end_conversation self now1 now2).2
  | UserSays message now => (add_user_message self message now).2
  | AssistantSays message now => (add_assistant_message self message now).2
  | Reset => reset self
  end.

(** A sequence of calls on a new object, first to last. *)
Definition run (calls : list call) : Assistant :=
  fold_left step calls __init__.

Definition is_start (c : call) : bool :=
  match c with
  | Start _ _ => true
  | _ => false
  end.

(** The calls that neither start a conversation nor reset the object. *)
Definition keeps_session (c : call) : bool :=
  match c with
  | Start _ _ | Reset => false
  | _ => true
  end.

(** What holds of the object whatever was called: it is never [ENDING];
    while [IDLE] it holds nothing; once started its history begins with a
    greeting; when [COMPLETED] its history ends with a closing message. *)
Definition coherent (self : Assistant) : Prop :=
  state self ≠ ENDING /\
  (state self = IDLE ->
   conversation_history self = [] /\ topics_discussed self = ∅ /\
   created_at self = None) /\
  (state self ≠ IDLE ->
   exists g t rest,
     g ∈ GREETINGS /\
     conversation_history self
     = Conversation.Message Conversation.assistant g t :: rest) /\
  (state self = COMPLETED ->
   exists front c t,
     c ∈ CLOSING_MESSAGES /\
     conversation_history self
     = front ++ [Conversation.Message Conversation.assistant c t]).

End ConversationalAssistant.

(* ================================================================= *)
(** * Facts about the string built-ins *)

Module PyStrFacts.
Import PyStr.

(** ** The built-ins on a few inputs *)

Example strip_example : strip "  a b  " = "a b".
Proof. reflexivity. Qed.

Example split_ws_example : split_ws "  ab   c d " = ["ab"; "c"; "d"].
Proof. reflexivity. Qed.

Example split_on_example : split_on "," "a,,b," = ["a"; ""; "b"; ""].
Proof. reflexivity. Qed.

Example split_on_empty : split_on "," "" = [""].
Proof. reflexivity. Qed.

Example squeeze_example : squeeze "  long   wait " = "long wait".
Proof. reflexivity. Qed.

Example lower_example : lower "FiNiSh" = "finish".
Proof. reflexivity. Qed.

Example contains_example :
  contains "terrible" "it was terrible" = true /\ contains "x" "abc" = false.
Proof. by split. Qed.

Example code_fence_example :
  endswith "```" "{}```" = true /\ drop_back 3 "{}```" = "{}" /\
  startswith "```json" "```json{}" = true /\ drop_front 7 "```json{}" = "{}".
Proof. by repeat split. Qed.

(** ** Trimming, splitting and joining *)

Lemma isspace_lower_char (c : ascii) : isspace (lower_char c) = isspace c.
Proof. destruct c as [[] [] [] [] [] [] [] []]; reflexivity. Qed.

Lemma truthy_false (s : string) : truthy s = false <-> s = "".
Proof. destruct s; simpl; split; congruence. Qed.

Lemma truthy_true (s : string) : truthy s = true <-> s ≠ "".
Proof. destruct s; simpl; split; congruence. Qed.

Lemma cons_word_empty (ws : list string) : cons_word "" ws = ws.
Proof. reflexivity. Qed.

Lemma split_ws_cons_space (c : ascii) (r : string) :
  isspace c = true -> split_ws (String c r) = split_ws r.
Proof.
  intros Hc. unfold split_ws. simpl.
  destruct (words_from r) as [w ws]. rewrite Hc. reflexivity.
Qed.

Lemma split_ws_cons_word (c : ascii) (r : string) :
  isspace c = false ->
  split_ws (String c r) = String c (words_from r).1 :: (words_from r).2.
Proof.
  intros Hc. unfold split_ws. simpl.
  destruct (words_from r) as [w ws]. rewrite Hc. reflexivity.
Qed.

Lemma split_ws_lstrip (s : string) : split_ws (lstrip s) = split_ws s.
Proof.
  induction s as [|c r IH]; [reflexivity|]. simpl.
  destruct (isspace c) eqn:Hc; [|reflexivity].
  rewrite IH. symmetry. apply split_ws_cons_space, Hc.
Qed.

Lemma words_from_rstrip (s : string) : words_from (rstrip s) = words_from s.
Proof.
  induction s as [|c r IH]; [reflexivity|]. simpl.
  destruct (truthy (rstrip r)) eqn:Hr; simpl.
  - rewrite IH. reflexivity.
  - destruct (isspace c) eqn:Hc; simpl.
    + apply truthy_false in Hr. rewrite Hr in IH. simpl in IH.
      rewrite <- IH. reflexivity.
    + rewrite IH, Hc. reflexivity.
Qed.

Lemma split_ws_rstrip (s : string) : split_ws (rstrip s) = split_ws s.
Proof. unfold split_ws. rewrite words_from_rstrip. reflexivity. Qed.

Lemma split_ws_strip (s : string) : split_ws (strip s) = split_ws s.
Proof. unfold strip. rewrite split_ws_rstrip. apply split_ws_lstrip. Qed.

Lemma words_from_words (s : string) :
  no_blank (words_from s).1 /\ Forall word (words_from s).2.
Proof.
  induction s as [|c r [IHw IHws]]; simpl; [by split|].
  destruct (words_from r) as [w ws]. simpl in *.
  destruct (isspace c) eqn:Hc; simpl.
  - split; [done|]. unfold cons_word. destruct w; simpl; [done|].
    constructor; [|done]. split; [done|]. exact IHw.
  - by repeat split.
Qed.

Lemma split_ws_words (s : string) : Forall word (split_ws s).
Proof.
  unfold split_ws. pose proof (words_from_words s) as [Hw Hws].
  destruct (words_from s) as [w ws]. simpl in *.
  unfold cons_word. destruct w; simpl; [done|].
  constructor; [|done]. by split.
Qed.

Lemma app_empty_l (s : string) : "" +:+ s = s.
Proof. reflexivity. Qed.

Lemma app_String (c : ascii) (r s : string) :
  String c r +:+ s = String c (r +:+ s).
Proof. reflexivity. Qed.

Lemma app_empty_r (s : string) : s +:+ "" = s.
Proof. induction s as [|c r IH]; [done|]. by rewrite app_String, IH. Qed.

Lemma words_from_app (w s : string) :
  no_blank w ->
  words_from (w +:+ s) = (w +:+ (words_from s).1, (words_from s).2).
Proof.
  induction w as [|c r IH]; intros Hw.
  - rewrite !app_empty_l. by destruct (words_from s).
  - destruct Hw as [Hc Hr]. rewrite !app_String. simpl.
    rewrite (IH Hr), Hc. reflexivity.
Qed.

Lemma words_from_space (c : ascii) (r : string) :
  isspace c = true -> words_from (String c r) = ("", split_ws r).
Proof.
  intros Hc. unfold split_ws. simpl.
  destruct (words_from r) as [w ws]. by rewrite Hc.
Qed.

Lemma split_ws_join (ws : list string) :
  Forall word ws -> split_ws (join " " ws) = ws.
Proof.
  induction ws as [|w rest IH]; intros Hws; [reflexivity|].
  apply Forall_cons in Hws as [[Hne Hnb] Hrest].
  apply truthy_true in Hne.
  destruct rest as [|w2 rest].
  - simpl. unfold split_ws.
    rewrite <- (app_empty_r w) at 1. rewrite words_from_app by done.
    simpl. rewrite app_empty_r. unfold cons_word. by rewrite Hne.
  - change (join " " (w :: w2 :: rest))
      with (w +:+ String " " (join " " (w2 :: rest))).
    unfold split_ws at 1. rewrite words_from_app by done.
    rewrite words_from_space by done. cbn [fst snd].
    rewrite app_empty_r, (IH Hrest). unfold cons_word. by rewrite Hne.
Qed.

Lemma lstrip_no_blank_head (c : ascii) (r : string) :
  isspace c = false -> lstrip (String c r) = String c r.
Proof. intros Hc. simpl. by rewrite Hc. Qed.

Lemma rstrip_app (a b : string) :
  truthy (rstrip b) = true -> rstrip (a +:+ b) = a +:+ rstrip b.
Proof.
  intros Hb. induction a as [|c r IH]; [done|].
  rewrite !app_String. simpl. rewrite IH.
  destruct r; [by rewrite app_empty_l, Hb|done].
Qed.

Lemma rstrip_word (w : string) : no_blank w -> rstrip w = w.
Proof.
  induction w as [|c r IH]; simpl; [done|]. intros [Hc Hr].
  rewrite (IH Hr), Hc. by rewrite andb_false_r.
Qed.

Lemma join_truthy (ws : list string) :
  Forall word ws -> ws ≠ [] -> truthy (join " " ws) = true.
Proof.
  destruct ws as [|w rest]; [done|]. intros Hws _.
  apply Forall_cons in Hws as [[Hne _] _].
  destruct w; [done|]. by destruct rest.
Qed.

Lemma rstrip_String (c : ascii) (r : string) :
  truthy (rstrip r) = true -> rstrip (String c r) = String c (rstrip r).
Proof. intros Hr. simpl. by rewrite Hr. Qed.

Lemma rstrip_join (ws : list string) :
  Forall word ws -> rstrip (join " " ws) = join " " ws.
Proof.
  induction ws as [|w rest IH]; intros Hws; [reflexivity|].
  apply Forall_cons in Hws as [[Hne Hnb] Hrest].
  destruct rest as [|w2 rest]; [by apply rstrip_word|].
  change (join " " (w :: w2 :: rest))
    with (w +:+ String " " (join " " (w2 :: rest))).
  assert (truthy (rstrip (join " " (w2 :: rest))) = true) as Ht.
  { rewrite IH by done. by apply join_truthy. }
  rewrite rstrip_app; rewrite rstrip_String by done; [|done].
  by rewrite IH.
Qed.

Lemma lstrip_join (ws : list string) :
  Forall word ws -> lstrip (join " " ws) = join " " ws.
Proof.
  destruct ws as [|w rest]; [done|]. intros Hws.
  apply Forall_cons in Hws as [[Hne Hnb] _].
  destruct w as [|c r]; [done|]. destruct Hnb as [Hc _].
  destruct rest; simpl; by rewrite Hc.
Qed.

Lemma strip_join (ws : list string) :
  Forall word ws -> strip (join " " ws) = join " " ws.
Proof.
  intros Hws. unfold strip. rewrite lstrip_join by done. by apply rstrip_join.
Qed.

Lemma squeeze_idempotent (s : string) : squeeze (squeeze s) = squeeze s.
Proof.
  unfold squeeze. pose proof (split_ws_words (strip s)) as Hws.
  rewrite strip_join by done. by rewrite split_ws_join.
Qed.

Lemma squeeze_strip (s : string) : squeeze (strip s) = squeeze s.
Proof. unfold squeeze. by rewrite !split_ws_strip. Qed.

Lemma split_ws_nil_lstrip (s : string) : split_ws s = [] -> lstrip s = "".
Proof.
  induction s as [|c r IH]; [done|]. simpl.
  destruct (isspace c) eqn:Hc.
  - rewrite split_ws_cons_space by done. exact IH.
  - rewrite split_ws_cons_word by done. done.
Qed.

Lemma truthy_squeeze (s : string) : truthy (squeeze s) = truthy (strip s).
Proof.
  unfold squeeze. rewrite split_ws_strip.
  destruct (split_ws s) as [|w ws] eqn:Hs.
  - apply split_ws_nil_lstrip in Hs. unfold strip. by rewrite Hs.
  - pose proof (split_ws_words s) as Hws. rewrite Hs in Hws.
    rewrite join_truthy by done.
    symmetry. apply truthy_true. intros Hstrip.
    assert (split_ws (strip s) = []) as Hnil by by rewrite Hstrip.
    rewrite split_ws_strip, Hs in Hnil. done.
Qed.

End PyStrFacts.

(* ================================================================= *)
(** * Facts about feedback_analyzer.py *)

Module AnalyzerFacts.
Import PyStr PyStrFacts FeedbackAnalyzer.

(** ** Loops that may raise *)

Lemma mapM_cons {A B} (f : A -> result B) (x : A) (l : list A) :
  mapM f (x :: l) = y ← f x; k ← mapM f l; Ok (y :: k).
Proof. reflexivity. Qed.

Lemma mapM_returns {A B} (f : A -> result B) (l : list A) (k : list B) :
  mapM f l = Ok k -> Forall2 (fun x y => f x = Ok y) l k.
Proof.
  revert k. induction l as [|x l IH]; intros k.
  - intros [= <-]. constructor.
  - rewrite mapM_cons. destruct (f x) as [y|e] eqn:Hx; [|done].
    cbn [mbind result_bind].
    destruct (mapM f l) as [k'|e] eqn:Hl; [|done].
    intros [= <-]. constructor; [done|]. by apply IH.
Qed.

Lemma mapM_raises {A B} (f : A -> result B) (l : list A) (e : exn) :
  mapM f l = Raise e -> exists x, x ∈ l /\ f x = Raise e.
Proof.
  induction l as [|x l IH]; [done|].
  rewrite mapM_cons. destruct (f x) as [y|e'] eqn:Hx.
  - cbn [mbind result_bind].
    destruct (mapM f l) as [k'|e'] eqn:Hl; [done|].
    intros [= <-]. destruct IH as (x' & Hin & Hx'); [done|].
    exists x'. split; [by right|done].
  - intros [= <-]. exists x. split; [by left|done].
Qed.

Lemma mapM_length {A B} (f : A -> result B) (l : list A) (k : list B) :
  mapM f l = Ok k -> length k = length l.
Proof. intros H%mapM_returns. symmetry. by eapply Forall2_length. Qed.

(** ** [str] on an [int] *)

Lemma str_of_int_too_long (n : Z) :
  str_digits_bound <= Z.abs n -> str_of_int n = Raise ValueError.
Proof. intros Hn. unfold str_of_int. by rewrite bool_decide_true. Qed.

Lemma str_of_int_returns (n : Z) (s : string) :
  str_of_int n = Ok s -> s = pretty n /\ Z.abs n < str_digits_bound.
Proof.
  unfold str_of_int. case_bool_decide as Hn; [done|].
  intros [= <-]. split; [done|]. by apply Z.nlt_ge in Hn || lia.
Qed.

Lemma str_of_int_raises (n : Z) (e : exn) :
  str_of_int n = Raise e -> e = ValueError /\ str_digits_bound <= Z.abs n.
Proof.
  unfold str_of_int. case_bool_decide as Hn; [|done]. by intros [= <-].
Qed.

(** An [int] of 4301 digits, the least one. *)
Lemma bound_too_long : str_digits_bound <= Z.abs (10 ^ 4300).
Proof.
  rewrite Z.abs_eq; [apply Z.le_refl|]. by apply Z.pow_nonneg.
Qed.

Lemma str_of_int_score (z : Z) : 1 <= z <= 5 -> str_of_int z = Ok (pretty z).
Proof.
  intros Hz.
  assert (z = 1 \/ z = 2 \/ z = 3 \/ z = 4 \/ z = 5) as Hcases by lia.
  destruct Hcases as [->|[->|[->|[->| ->]]]]; reflexivity.
Qed.

Section WithBuiltins.

Variable float_of_str : string -> option spec_float.
Variable repr : pyval -> result string.

Local Abbreviation py_str := (py_str repr).
Local Abbreviation validate_score := (validate_score float_of_str).
Local Abbreviation validate_radar_metrics := (validate_radar_metrics float_of_str).
Local Abbreviation clean_text := (clean_text repr).
Local Abbreviation validate_confidence := (validate_confidence repr).
Local Abbreviation validate_bullets := (validate_bullets repr).
Local Abbreviation process_llm_output := (process_llm_output float_of_str repr).
Local Abbreviation unprintable_field := (unprintable_field repr).

(** ** The validators on a few inputs *)

Example validate_score_examples :
  validate_score (PInt 7) 1 5 = Ok 5 /\
  validate_score (PInt (-7)) 1 5 = Ok 1 /\
  validate_score (PBool true) 1 5 = Ok 1 /\
  validate_score PNone 1 5 = Ok 3 /\
  validate_score (PList []) 1 5 = Ok 3 /\
  validate_score (PFloat S754_nan) 1 5 = Ok 3 /\
  validate_score (PFloat float_inf) 1 5 = Raise OverflowError.
Proof. by repeat split. Qed.

Example str_examples :
  py_str (PInt 12) = Ok "12" /\
  py_str (PInt (-7)) = Ok "-7" /\
  py_str (PBool true) = Ok "True" /\
  py_str PNone = Ok "None" /\
  py_str (PInt (10 ^ 4300)) = Raise ValueError.
Proof.
  do 4 (split; [reflexivity|]).
  apply str_of_int_too_long, bound_too_long.
Qed.

Example validate_confidence_examples :
  validate_confidence (PStr " YES ") = Ok "yes" /\
  validate_confidence (PBool true) = Ok "yes" /\
  validate_confidence (PInt 0) = Ok "no" /\
  validate_confidence (PStr "maybe") = Ok "partial" /\
  validate_confidence PNone = Ok "partial".
Proof. by repeat split. Qed.

Example validate_bullets_examples :
  validate_bullets (PStr " a  b, ,c,,d , e, f,g")
    = Ok ["a b"; "c"; "d"; "e"; "f"] /\
  validate_bullets (PList [PStr ""; PNone; PInt 5; PStr " x   y "; PStr "q";
                           PStr "z"])
    = Ok ["5"; "x y"; "q"] /\
  validate_bullets (PList []) = Ok [no_feedback] /\
  validate_bullets (PInt 3) = Ok [no_feedback].
Proof. by repeat split. Qed.

(** ** Scores *)

Lemma validate_score_range (score : pyval) (lo hi z : Z) :
  lo <= hi -> validate_score score lo hi = Ok z -> lo <= z <= hi.
Proof.
  intros Hle. unfold FeedbackAnalyzer.validate_score.
  destruct (py_float float_of_str score ≫= int_of_float) as [n|e].
  - intros [= <-]. lia.
  - destruct (is_value_or_type_error e); [|done]. intros [= <-].
    split.
    + apply Z.div_le_lower_bound; lia.
    + apply Z.div_le_upper_bound; lia.
Qed.

Lemma int_of_float_raises (f : spec_float) (e : exn) :
  int_of_float f = Raise e -> e = ValueError \/ e = OverflowError.
Proof. destruct f; simpl; intros [= <-]; auto. Qed.

Lemma float_of_int_raises (n : Z) (e : exn) :
  float_of_int n = Raise e -> e = OverflowError.
Proof.
  unfold float_of_int. destruct (binary_normalize 53 1024 n 0 false);
    by intros [= <-].
Qed.

(** The only exception a score lets through is [OverflowError]. *)
Lemma validate_score_raises (score : pyval) (lo hi : Z) (e : exn) :
  validate_score score lo hi = Raise e -> e = OverflowError.
Proof.
  unfold FeedbackAnalyzer.validate_score.
  destruct (py_float float_of_str score ≫= int_of_float) as [n|e'] eqn:Hc;
    [done|].
  destruct (is_value_or_type_error e') eqn:He; [done|]. intros [= <-].
  destruct score; simpl in Hc.
  - by injection Hc as <-.
  - by destruct b.
  - destruct (float_of_int z) as [f|e0] eqn:Hf; simpl in Hc.
    + apply int_of_float_raises in Hc as [->| ->]; done.
    + injection Hc as <-. by apply float_of_int_raises in Hf.
  - apply int_of_float_raises in Hc as [->| ->]; done.
  - destruct (float_of_str s) as [f|]; simpl in Hc.
    + apply int_of_float_raises in Hc as [->| ->]; done.
    + by injection Hc as <-.
  - by injection Hc as <-.
  - by injection Hc as <-.
Qed.

(** A score already in range is returned as it is. *)
Lemma validate_score_fixed (z : Z) :
  1 <= z <= 5 -> validate_score (PInt z) 1 5 = Ok z.
Proof.
  intros Hz.
  assert (z = 1 \/ z = 2 \/ z = 3 \/ z = 4 \/ z = 5) as Hcases by lia.
  destruct Hcases as [->|[->|[->|[->| ->]]]]; reflexivity.
Qed.

(** ** Radar metrics *)

Lemma radar_loop_lookup (keys : list string) (d : gmap string pyval)
    (acc m : gmap string Z) :
  radar_loop float_of_str keys d acc = Ok m ->
  forall k,
    (k ∈ keys ->
     exists v, m !! k = Some v /\
               validate_score (dict_get d k (PInt 3)) 1 5 = Ok v) /\
    (k ∉ keys -> m !! k = acc !! k).
Proof.
  revert acc. induction keys as [|key rest IH]; intros acc Hrun k.
  - injection Hrun as <-. split; [by intros ?%elem_of_nil|done].
  - simpl in Hrun.
    destruct (validate_score (dict_get d key (PInt 3)) 1 5) as [v|e] eqn:Hv;
      [|done].
    simpl in Hrun. destruct (IH _ Hrun k) as [Hin Hout].
    destruct (decide (k ∈ rest)) as [Hrest|Hrest].
    + split; [auto|]. intros Hk. exfalso. apply Hk. by right.
    + split.
      * intros [->|?]%elem_of_cons; [|done].
        exists v. split; [|done]. rewrite Hout by done.
        apply lookup_insert_eq.
      * intros Hk. apply not_elem_of_cons in Hk as [Hne _].
        rewrite Hout by done. by apply lookup_insert_ne.
Qed.

Lemma radar_loop_returns (keys : list string) (d : gmap string pyval)
    (acc : gmap string Z) :
  (forall k, k ∈ keys ->
             exists v, validate_score (dict_get d k (PInt 3)) 1 5 = Ok v) ->
  exists m, radar_loop float_of_str keys d acc = Ok m.
Proof.
  revert acc. induction keys as [|key rest IH]; intros acc Hall.
  - by exists acc.
  - simpl. destruct (Hall key) as [v Hv]; [by left|]. rewrite Hv. simpl.
    apply IH. intros k Hk. apply Hall. by right.
Qed.

Lemma radar_keys_axes (k : string) :
  k ∈ default_metrics_items.*1 <-> k ∈ radar_axes.
Proof.
  unfold radar_axes. simpl.
  rewrite !elem_of_cons, elem_of_nil, !elem_of_union, !elem_of_singleton.
  tauto.
Qed.

(** What a returned mapping looks like: exactly the five axes, each
    holding the validated score of the input's entry, or of 3 when the
    input has no such entry. *)
Lemma validate_radar_metrics_returned (metrics : pyval) (m : gmap string Z) :
  validate_radar_metrics metrics = Ok m ->
  dom m = radar_axes /\
  (forall k v, m !! k = Some v -> 1 <= v <= 5) /\
  (forall d k, metrics = PDict d -> k ∈ radar_axes ->
     exists v, m !! k = Some v /\
               validate_score (dict_get d k (PInt 3)) 1 5 = Ok v) /\
  ((forall d, metrics ≠ PDict d) -> m = default_metrics).
Proof.
  intros Hrun.
  assert (forall d, metrics = PDict d ->
            forall k,
              (k ∈ radar_axes ->
               exists v, m !! k = Some v /\
                 validate_score (dict_get d k (PInt 3)) 1 5 = Ok v) /\
              (k ∉ radar_axes -> m !! k = None)) as Hdict.
  { intros d -> k. unfold FeedbackAnalyzer.validate_radar_metrics in Hrun.
    destruct (radar_loop_lookup _ _ _ _ Hrun k) as [Hin Hout].
    rewrite <- radar_keys_axes. split; [done|].
    intros Hk. by rewrite Hout. }
  assert ((forall d, metrics ≠ PDict d) -> m = default_metrics) as Hother.
  { intros Hnd. destruct metrics; try (by injection Hrun as <-).
    by destruct (Hnd d). }
  assert ((exists d, metrics = PDict d) \/ (forall d, metrics ≠ PDict d))
    as [[d Hd]|Hnd] by (destruct metrics; eauto).
  - split; [|split; [|split]]; [| | |done].
    + apply set_eq. intros k. rewrite elem_of_dom.
      destruct (Hdict d Hd k) as [Hin Hout].
      destruct (decide (k ∈ radar_axes)) as [Hk|Hk].
      * destruct (Hin Hk) as [v [-> _]]. by split.
      * rewrite (Hout Hk). split; [by intros [? ?]|done].
    + intros k v Hkv. destruct (Hdict d Hd k) as [Hin Hout].
      destruct (decide (k ∈ radar_axes)) as [Hk|Hk].
      * destruct (Hin Hk) as [v' [Hv' Hs]].
        assert (v' = v) as -> by congruence.
        by apply validate_score_range in Hs.
      * rewrite (Hout Hk) in Hkv. done.
    + intros d' k Hd' Hk. apply (Hdict d' Hd' k), Hk.
  - assert (m = default_metrics) as -> by auto.
    split; [|split; [|split]]; [done| | |done].
    + intros k v Hkv.
      assert (v = 3) as ->; [|lia].
      unfold default_metrics, default_metrics_items in Hkv.
      apply elem_of_list_to_map_2 in Hkv.
      rewrite !elem_of_cons, elem_of_nil in Hkv.
      destruct Hkv as [?|[?|[?|[?|[?|[]]]]]]; congruence.
    + intros d k Hd. by destruct (Hnd d).
Qed.

(** ** Confidence *)

Lemma py_str_str (s : string) : py_str (PStr s) = Ok s.
Proof. reflexivity. Qed.

(** What [str] raises on an [int] is a [ValueError]. *)
Lemma py_str_int_raises (n : Z) (e : exn) :
  py_str (PInt n) = Raise e -> e = ValueError.
Proof. by intros [-> _]%str_of_int_raises. Qed.

Lemma validate_confidence_str (value : pyval) (s : string) :
  py_str value = Ok s ->
  validate_confidence value = validate_confidence (PStr s).
Proof.
  intros Hs. unfold FeedbackAnalyzer.validate_confidence.
  destruct value; [by injection Hs as <-|..]; by rewrite Hs.
Qed.

Lemma validate_confidence_unprintable (value : pyval) (e : exn) :
  py_str value = Raise e -> validate_confidence value = Raise e.
Proof.
  intros He. unfold FeedbackAnalyzer.validate_confidence.
  destruct value; [discriminate He|..]; by rewrite He.
Qed.

Lemma validate_confidence_str_values (s : string) :
  exists c, validate_confidence (PStr s) = Ok c /\
            c ∈ ["yes"; "no"; "partial"].
Proof.
  unfold FeedbackAnalyzer.validate_confidence. cbn [py_str mbind result_bind].
  repeat case_bool_decide; eexists; (split; [reflexivity|]);
    repeat constructor.
Qed.

Lemma validate_confidence_values (value : pyval) (c : string) :
  validate_confidence value = Ok c -> c ∈ ["yes"; "no"; "partial"].
Proof.
  destruct (py_str value) as [s|e] eqn:Hs.
  - rewrite (validate_confidence_str value s Hs).
    destruct (validate_confidence_str_values s) as (c' & -> & Hc').
    by intros [= <-].
  - by rewrite (validate_confidence_unprintable value e Hs).
Qed.

Lemma validate_confidence_raises (value : pyval) (e : exn) :
  validate_confidence value = Raise e -> py_str value = Raise e.
Proof.
  destruct (py_str value) as [s|e'] eqn:Hs.
  - rewrite (validate_confidence_str value s Hs).
    by destruct (validate_confidence_str_values s) as (c' & -> & _).
  - rewrite (validate_confidence_unprintable value e' Hs). by intros [= <-].
Qed.

Lemma validate_confidence_fixed (c : string) :
  c ∈ ["yes"; "no"; "partial"] -> validate_confidence (PStr c) = Ok c.
Proof.
  rewrite !elem_of_cons, elem_of_nil.
  intros [->|[->|[->|[]]]]; reflexivity.
Qed.

(** ** Bullets *)

Lemma clean_text_str (s : string) : clean_text (PStr s) = Ok (squeeze s).
Proof. reflexivity. Qed.

Lemma clean_text_unprintable (text : pyval) (e : exn) :
  py_str text = Raise e -> clean_text text = Raise e.
Proof.
  intros He. unfold FeedbackAnalyzer.clean_text.
  destruct text; [discriminate He|..]; by rewrite He.
Qed.

Lemma clean_text_printable (text : pyval) (s : string) :
  text ≠ PNone -> py_str text = Ok s -> clean_text text = Ok (squeeze s).
Proof.
  intros Hne Hs. unfold FeedbackAnalyzer.clean_text.
  destruct text; [done|..]; by rewrite Hs.
Qed.

Lemma none_or_not (x : pyval) : x = PNone \/ x ≠ PNone.
Proof. destruct x; auto. Qed.

Lemma clean_text_returns (text : pyval) (t : string) :
  clean_text text = Ok t ->
  (text = PNone /\ t = "") \/
  (exists s, py_str text = Ok s /\ t = squeeze s).
Proof.
  destruct (none_or_not text) as [->|Hne]; [intros [= <-]; by left|].
  destruct (py_str text) as [s|e] eqn:Hs.
  - rewrite (clean_text_printable text s) by done. intros [= <-]. right.
    by exists s.
  - by rewrite (clean_text_unprintable text e).
Qed.

Lemma clean_text_raises (text : pyval) (e : exn) :
  clean_text text = Raise e -> py_str text = Raise e.
Proof.
  destruct (none_or_not text) as [->|Hne]; [done|].
  destruct (py_str text) as [s|e'] eqn:Hs.
  - by rewrite (clean_text_printable text s).
  - rewrite (clean_text_unprintable text e') by done. by intros [= <-].
Qed.

Lemma clean_text_fixed (text : pyval) (t : string) :
  clean_text text = Ok t -> squeeze t = t.
Proof.
  intros [[_ ->]|(s & _ & ->)]%clean_text_returns; [reflexivity|].
  apply squeeze_idempotent.
Qed.

(** The loop keeps, in order, the non-empty cleanings of the elements it
    visits, and stops at the first element that cannot be cleaned. *)
Lemma bullets_loop_mapM (l : list pyval) (acc : list string) :
  bullets_loop repr l acc
  = ts ← mapM clean_text l; Ok (acc ++ filter (fun t => truthy t) ts).
Proof.
  revert acc. induction l as [|x l IH]; intros acc.
  - simpl. by rewrite app_nil_r.
  - rewrite mapM_cons. cbn [bullets_loop].
    destruct (clean_text x) as [t|e]; [|done]. cbn [mbind result_bind].
    rewrite IH. destruct (mapM clean_text l) as [ts|e]; [|done].
    cbn [mbind result_bind]. f_equal.
    destruct (truthy t) eqn:Ht.
    + rewrite filter_cons_True by (by apply Is_true_true).
      by rewrite <- app_assoc.
    + rewrite filter_cons_False; [done|]. by apply Is_true_false.
Qed.

Lemma no_feedback_clean : clean_bullets [no_feedback].
Proof.
  split; [simpl; lia|]. constructor; [|done]. split; reflexivity.
Qed.

Lemma or_placeholder_clean (bs : list string) :
  (length bs <= 5)%nat -> Forall clean_bullet bs ->
  clean_bullets (or_placeholder bs).
Proof.
  destruct bs as [|b bs]; [intros; apply no_feedback_clean|].
  intros Hlen Hall. split; [simpl in *; lia|done].
Qed.

Lemma validate_bullets_list (l : list pyval) :
  validate_bullets (PList l)
  = ts ← mapM clean_text (take 5 l);
    Ok (or_placeholder (filter (fun t => truthy t) ts)).
Proof.
  unfold FeedbackAnalyzer.validate_bullets. rewrite bullets_loop_mapM.
  destruct (mapM clean_text (take 5 l)) as [ts|e]; [|done].
  cbn [mbind result_bind]. rewrite app_nil_l.
  by destruct (filter (fun t => truthy t) ts).
Qed.

Lemma validate_bullets_str (s : string) :
  validate_bullets (PStr s)
  = validate_bullets
      (PList (PStr <$> (strip <$> filter (fun b => truthy (strip b))
                                        (split_on "," s)))).
Proof. reflexivity. Qed.

Lemma mapM_clean_text_strs (ps : list string) :
  mapM clean_text (PStr <$> ps) = Ok (squeeze <$> ps).
Proof.
  induction ps as [|p ps IH]; [reflexivity|].
  rewrite fmap_cons, mapM_cons, clean_text_str. cbn [mbind result_bind].
  by rewrite IH.
Qed.

(** The non-empty cleanings of at most five elements are clean bullets. *)
Lemma cleaned_clean (l : list pyval) (ts : list string) :
  mapM clean_text (take 5 l) = Ok ts ->
  (length (filter (fun t => truthy t) ts) <= 5)%nat /\
  Forall clean_bullet (filter (fun t => truthy t) ts).
Proof.
  intros Hts. split.
  - etrans; [apply length_filter|].
    rewrite (mapM_length _ _ _ Hts), length_take. lia.
  - apply Forall_forall. intros t [Ht Hin]%list_elem_of_filter.
    apply mapM_returns in Hts.
    apply list_elem_of_lookup in Hin as [i Hi].
    destruct (Forall2_lookup_r _ _ _ i t Hts Hi) as (x & _ & Hxt).
    split; [by apply Is_true_true|]. by apply (clean_text_fixed x).
Qed.

(** Every list [validate_bullets] returns is a list of one to five
    cleaned bullets. *)
Lemma validate_bullets_clean (bullets : pyval) (bs : list string) :
  validate_bullets bullets = Ok bs -> clean_bullets bs.
Proof.
  assert (forall l, validate_bullets (PList l) = Ok bs -> clean_bullets bs)
    as Hlist.
  { intros l. rewrite validate_bullets_list.
    destruct (mapM clean_text (take 5 l)) as [ts|e] eqn:Hts; [|done].
    intros [= <-]. destruct (cleaned_clean l ts Hts).
    by apply or_placeholder_clean. }
  destruct bullets; try (intros [= <-]; apply no_feedback_clean).
  - rewrite validate_bullets_str. apply Hlist.
  - apply Hlist.
Qed.

(** [validate_bullets] raises only what [str] raises on one of the first
    five elements of a list. *)
Lemma validate_bullets_raises (bullets : pyval) (e : exn) :
  validate_bullets bullets = Raise e ->
  exists l v, bullets = PList l /\ v ∈ take 5 l /\ py_str v = Raise e.
Proof.
  destruct bullets as [| | | |s|l|]; try done.
  - rewrite validate_bullets_str, validate_bullets_list.
    rewrite <- !fmap_take, mapM_clean_text_strs. done.
  - rewrite validate_bullets_list.
    destruct (mapM clean_text (take 5 l)) as [ts|e'] eqn:Hts; [done|].
    intros [= <-]. apply mapM_raises in Hts as (v & Hin & Hv).
    exists l, v. split; [done|]. split; [done|]. by apply clean_text_raises.
Qed.

(** A list of cleaned bullets is returned as it is. *)
Lemma validate_bullets_fixed (bs : list string) :
  clean_bullets bs -> validate_bullets (PList (PStr <$> bs)) = Ok bs.
Proof.
  intros [Hlen Hall]. rewrite validate_bullets_list.
  rewrite take_ge by (rewrite length_fmap; lia).
  rewrite mapM_clean_text_strs. cbn [mbind result_bind].
  assert (filter (fun t => truthy t) (squeeze <$> bs) = bs) as ->.
  { clear Hlen. induction Hall as [|b bs [Ht Hs] _ IH]; [done|].
    rewrite fmap_cons, Hs.
    rewrite filter_cons_True by (by apply Is_true_true). by rewrite IH. }
  destruct bs; [simpl in Hlen; lia|done].
Qed.

(** ** The whole record *)

Lemma validate_radar_metrics_fixed (m : gmap string Z) :
  dom m = radar_axes ->
  (forall k v, m !! k = Some v -> 1 <= v <= 5) ->
  validate_radar_metrics (PDict (PInt <$> m)) = Ok m.
Proof.
  intros Hdom Hrange.
  assert (forall k, k ∈ default_metrics_items.*1 ->
            exists v, m !! k = Some v /\
              validate_score (dict_get (PInt <$> m) k (PInt 3)) 1 5 = Ok v)
    as Hkeys.
  { intros k Hk%radar_keys_axes. rewrite <- Hdom in Hk.
    apply elem_of_dom in Hk as [v Hv]. exists v. split; [done|].
    unfold dict_get. rewrite lookup_fmap, Hv. simpl.
    apply validate_score_fixed. by apply (Hrange k). }
  unfold FeedbackAnalyzer.validate_radar_metrics.
  destruct (radar_loop_returns (default_metrics_items.*1) (PInt <$> m) ∅)
    as [m' Hm'].
  { intros k Hk. destruct (Hkeys k Hk) as [v [_ Hv]]. by exists v. }
  rewrite Hm'. f_equal. apply map_eq. intros k.
  destruct (radar_loop_lookup _ _ _ _ Hm' k) as [Hin Hout].
  destruct (decide (k ∈ default_metrics_items.*1)) as [Hk|Hk].
  - destruct (Hin Hk) as [v' [-> Hv']]. destruct (Hkeys k Hk) as [v [-> Hv]].
    congruence.
  - rewrite (Hout Hk), lookup_empty. symmetry.
    apply not_elem_of_dom. rewrite Hdom. by rewrite <- radar_keys_axes.
Qed.

(** What a returned record is made of. *)
Lemma process_llm_output_returned (raw r : pyval) :
  process_llm_output raw = Ok r ->
  exists s m c du st bs,
    r = feedback_dict s m c du st bs /\
    1 <= s <= 5 /\
    (dom m = radar_axes /\ forall k v, m !! k = Some v -> 1 <= v <= 5) /\
    c ∈ ["yes"; "no"; "partial"] /\
    1 <= du <= 5 /\ 1 <= st <= 5 /\ clean_bullets bs.
Proof.
  unfold FeedbackAnalyzer.process_llm_output.
  set (d := match raw with PDict d => d | _ => ∅ end).
  destruct (validate_score (dict_get d "satisfaction_score" (PInt 3)) 1 5)
    as [s|] eqn:Hs; [cbn [mbind result_bind]|done].
  destruct (validate_radar_metrics (dict_get d "radar_metrics" (PDict ∅)))
    as [m|] eqn:Hm; [cbn [mbind result_bind]|done].
  destruct (validate_confidence
              (dict_get d "confidence_in_treatment" (PStr "partial")))
    as [c|] eqn:Hc; [cbn [mbind result_bind]|done].
  destruct (validate_score (dict_get d "duration_satisfaction" (PInt 3)) 1 5)
    as [du|] eqn:Hdu; [cbn [mbind result_bind]|done].
  destruct (validate_score (dict_get d "staff_behavior" (PInt 3)) 1 5)
    as [st|] eqn:Hst; [cbn [mbind result_bind]|done].
  destruct (validate_bullets (dict_get d "summary_bullets" (PList [])))
    as [bs|] eqn:Hbs; [cbn [mbind result_bind]|done].
  intros [= <-]. exists s, m, c, du, st, bs. split; [reflexivity|].
  apply validate_score_range in Hs, Hdu, Hst; try lia.
  apply validate_radar_metrics_returned in Hm as (Hdom & Hrange & _).
  split; [done|]. split; [done|].
  split; [by apply validate_confidence_values in Hc|].
  split; [done|]. split; [done|]. by apply validate_bullets_clean in Hbs.
Qed.

Lemma feedback_dict_valid (s : Z) (m : gmap string Z) (c : string)
    (du st : Z) (bs : list string) :
  1 <= s <= 5 -> dom m = radar_axes ->
  (forall k v, m !! k = Some v -> 1 <= v <= 5) ->
  c ∈ ["yes"; "no"; "partial"] -> 1 <= du <= 5 -> 1 <= st <= 5 ->
  clean_bullets bs ->
  valid_record (feedback_dict s m c du st bs).
Proof.
  intros Hs Hdom Hrange Hc Hdu Hst [Hlen Hbs].
  eexists. split; [reflexivity|].
  split; [|split; [|split; [|split; [|split; [|split]]]]].
  - unfold record_fields. rewrite dom_list_to_map_L. simpl. set_solver.
  - exists (PInt s). split; [reflexivity|]. by exists s.
  - exists (PInt <$> m). split; [reflexivity|]. split; [by rewrite dom_fmap_L|].
    intros k v. rewrite lookup_fmap.
    destruct (m !! k) as [z|] eqn:Hz; simpl; [|done].
    intros [= <-]. exists z. split; [done|]. by apply (Hrange k).
  - exists c. split; [reflexivity|done].
  - exists (PInt du). split; [reflexivity|]. by exists du.
  - exists (PInt st). split; [reflexivity|]. by exists st.
  - exists (PStr <$> bs). split; [reflexivity|].
    rewrite length_fmap. split; [done|].
    apply Forall_fmap. eapply Forall_impl; [exact Hbs|].
    intros b [Ht _]. exists b. split; [done|]. by apply truthy_true.
Qed.

(** Whenever [process_llm_output] returns, what it returns satisfies the
    RatingRecord invariants. *)
Lemma process_llm_output_valid (raw r : pyval) :
  process_llm_output raw = Ok r -> valid_record r.
Proof.
  intros (s & m & c & du & st & bs & -> & Hs & [Hdom Hrange] & Hc & Hdu
          & Hst & Hbs)%process_llm_output_returned.
  by apply feedback_dict_valid.
Qed.

Lemma radar_metrics_raises (metrics : pyval) (e : exn) :
  validate_radar_metrics metrics = Raise e -> e = OverflowError.
Proof.
  unfold FeedbackAnalyzer.validate_radar_metrics.
  destruct metrics as [| | | | | |d]; try done.
  generalize (∅ : gmap string Z).
  induction (default_metrics_items.*1) as [|key rest IH]; [done|].
  intros acc. simpl.
  destruct (validate_score (dict_get d key (PInt 3)) 1 5)
    as [v|e3] eqn:Hv; simpl; [apply IH|].
  intros [= <-]. by apply validate_score_raises in Hv.
Qed.

(** [process_llm_output] lets two kinds of exception through: the
    [OverflowError] of a score, and whatever [str] raises on the
    confidence or on one of the first five bullets. *)
Lemma process_llm_output_raises (raw : pyval) (e : exn) :
  process_llm_output raw = Raise e ->
  e = OverflowError \/ unprintable_field raw e.
Proof.
  unfold FeedbackAnalyzer.process_llm_output.
  set (d := match raw with PDict d => d | _ => ∅ end).
  assert (forall k v, d !! k = Some v -> raw = PDict d) as Hraw.
  { intros k v. subst d. destruct raw; try by rewrite lookup_empty. done. }
  destruct (validate_score (dict_get d "satisfaction_score" (PInt 3)) 1 5)
    as [s|e1] eqn:Hs; cbn [mbind result_bind];
    [|intros [= <-]; left; by apply validate_score_raises in Hs].
  destruct (validate_radar_metrics (dict_get d "radar_metrics" (PDict ∅)))
    as [m|e2] eqn:Hm; cbn [mbind result_bind];
    [|intros [= <-]; left; by apply radar_metrics_raises in Hm].
  destruct (validate_confidence
              (dict_get d "confidence_in_treatment" (PStr "partial")))
    as [c|e3] eqn:Hc; cbn [mbind result_bind].
  2:{ intros [= <-]. right. apply validate_confidence_raises in Hc.
      unfold dict_get in Hc.
      destruct (d !! "confidence_in_treatment") as [v|] eqn:Hv; [|done].
      exists d, v. split; [by apply (Hraw _ _ Hv)|]. split; [by left|done]. }
  destruct (validate_score (dict_get d "duration_satisfaction" (PInt 3)) 1 5)
    as [du|e4] eqn:Hdu; cbn [mbind result_bind];
    [|intros [= <-]; left; by apply validate_score_raises in Hdu].
  destruct (validate_score (dict_get d "staff_behavior" (PInt 3)) 1 5)
    as [st|e5] eqn:Hst; cbn [mbind result_bind];
    [|intros [= <-]; left; by apply validate_score_raises in Hst].
  destruct (validate_bullets (dict_get d "summary_bullets" (PList [])))
    as [bs|e6] eqn:Hbs; cbn [mbind result_bind]; [done|].
  intros [= <-]. right.
  apply validate_bullets_raises in Hbs as (l & v & Hl & Hin & Hv).
  unfold dict_get in Hl.
  destruct (d !! "summary_bullets") as [x|] eqn:Hx.
  - simpl in Hl. subst x. exists d, v. split; [by apply (Hraw _ _ Hx)|].
    split; [right; by exists l|done].
  - simpl in Hl. injection Hl as <-. by apply elem_of_nil in Hin.
Qed.

Lemma process_feedback_dict (s : Z) (m : gmap string Z) (c : string)
    (du st : Z) (bs : list string) :
  1 <= s <= 5 -> dom m = radar_axes ->
  (forall k v, m !! k = Some v -> 1 <= v <= 5) ->
  c ∈ ["yes"; "no"; "partial"] -> 1 <= du <= 5 -> 1 <= st <= 5 ->
  clean_bullets bs ->
  process_llm_output (feedback_dict s m c du st bs)
  = Ok (feedback_dict s m c du st bs).
Proof.
  intros Hs Hdom Hrange Hc Hdu Hst Hbs.
  unfold FeedbackAnalyzer.process_llm_output, feedback_dict at 1.
  change (dict_get _ "satisfaction_score" (PInt 3)) with (PInt s).
  change (dict_get _ "radar_metrics" (PDict ∅)) with (PDict (PInt <$> m)).
  change (dict_get _ "confidence_in_treatment" (PStr "partial"))
    with (PStr c).
  change (dict_get _ "duration_satisfaction" (PInt 3)) with (PInt du).
  change (dict_get _ "staff_behavior" (PInt 3)) with (PInt st).
  change (dict_get _ "summary_bullets" (PList [])) with (PList (PStr <$> bs)).
  rewrite !validate_score_fixed by done.
  rewrite validate_radar_metrics_fixed by done.
  rewrite validate_confidence_fixed, validate_bullets_fixed by done.
  reflexivity.
Qed.

(** ** The claims about the normaliser *)

(** C1: [process_llm_output] is claimed to return a valid record for
    every input without raising. It does not: a score that is an
    infinite float (what [json.loads] gives for [1e999]), or an integer
    too large for a float, makes [int(float(score))] raise
    [OverflowError], which [validate_score] does not catch, so the call
    raises instead of returning a record. *)
Theorem process_llm_output_overflow :
  process_llm_output (PDict {[ "satisfaction_score" := PFloat float_inf ]})
    = Raise OverflowError /\
  process_llm_output (PDict {[ "satisfaction_score" := PInt (10 ^ 400) ]})
    = Raise OverflowError.
Proof. split; vm_compute; reflexivity. Qed.

(** C10: [validate_radar_metrics] is claimed to return a mapping over
    the five axes for every input. It does not when an axis of the input
    dict holds an infinite float: the [OverflowError] of
    [validate_score] escapes and no mapping is returned. *)
Theorem validate_radar_metrics_overflow :
  validate_radar_metrics (PDict {[ "felt_heard" := PFloat float_inf ]})
    = Raise OverflowError.
Proof. vm_compute. reflexivity. Qed.

(** C8: normalising is idempotent. When [process_llm_output] returns a
    record for [raw], applying it to that record returns the same
    record, field for field. *)
Theorem process_llm_output_idempotent (raw r : pyval) :
  process_llm_output raw = Ok r -> process_llm_output r = Ok r.
Proof.
  intros (s & m & c & du & st & bs & -> & Hs & [Hdom Hrange] & Hc & Hdu
          & Hst & Hbs)%process_llm_output_returned.
  by apply process_feedback_dict.
Qed.

(** ** The bullets rule *)

Lemma filter_fmap_truthy {A} (f : A -> string) (l : list A) :
  filter (fun t => truthy t) (f <$> l)
  = f <$> filter (fun x => truthy (f x)) l.
Proof.
  induction l as [|x l IH]; [done|]. rewrite fmap_cons.
  destruct (truthy (f x)) eqn:Hx.
  - rewrite !filter_cons_True by (by apply Is_true_true).
    by rewrite fmap_cons, IH.
  - rewrite !filter_cons_False by (by apply Is_true_false). exact IH.
Qed.

Lemma filter_truthy_id (l : list string) :
  Forall (fun t => truthy t = true) l -> filter (fun t => truthy t) l = l.
Proof.
  induction 1 as [|t l Ht _ IH]; [done|].
  rewrite filter_cons_True by (by apply Is_true_true). by rewrite IH.
Qed.

(** Of the pieces of a string, the loop sees the stripped non-empty
    ones, cut to five; what it keeps is the first five non-empty
    cleanings of the pieces. *)
Lemma cleaned_pieces (ps : list string) :
  filter (fun t => truthy t)
    (squeeze <$> take 5 (strip <$> filter (fun b => truthy (strip b)) ps))
  = take 5 (filter (fun t => truthy t) (squeeze <$> ps)).
Proof.
  set (kept := filter (fun b => truthy (strip b)) ps).
  assert (filter (fun t => truthy t) (squeeze <$> ps) = squeeze <$> kept)
    as ->.
  { rewrite filter_fmap_truthy. f_equal. apply list_filter_iff.
    intros b. by rewrite truthy_squeeze. }
  rewrite <- !fmap_take, <- list_fmap_compose.
  assert ((squeeze ∘ strip) <$> take 5 kept = squeeze <$> take 5 kept) as ->.
  { apply list_fmap_ext. intros _ b _. simpl. apply squeeze_strip. }
  apply filter_truthy_id, Forall_fmap, Forall_forall. intros b Hb.
  apply (subseteq_take 5), list_elem_of_filter in Hb as [Hb _].
  simpl. rewrite truthy_squeeze. by apply Is_true_true.
Qed.

(** A string never makes [validate_bullets] raise. *)
Lemma validate_bullets_string (s : string) :
  validate_bullets (PStr s)
  = Ok (or_placeholder
          (take 5 (filter (fun t => truthy t) (squeeze <$> split_on "," s)))).
Proof.
  rewrite validate_bullets_str, validate_bullets_list.
  rewrite <- fmap_take, mapM_clean_text_strs. cbn [mbind result_bind].
  by rewrite cleaned_pieces.
Qed.

(** C5, as amended: [validate_bullets] gives the placeholder for null; a
    string is split on commas and yields the first five non-empty
    cleanings of its pieces; a list is first cut to its first five
    elements, which are then cleaned in order, the empty results being
    dropped, and the call raises what [str] raises on the first of the
    five that cannot be printed; an empty outcome, and any other type,
    gives the placeholder. Whatever is returned is a list of one to five
    cleaned bullets. *)
Theorem validate_bullets_behaviour :
  validate_bullets PNone = Ok [no_feedback] /\
  (forall s,
     validate_bullets (PStr s)
     = Ok (or_placeholder
             (take 5 (filter (fun t => truthy t)
                             (squeeze <$> split_on "," s))))) /\
  (forall l,
     validate_bullets (PList l)
     = cleaned ← mapM clean_text (take 5 l);
       Ok (or_placeholder (filter (fun t => truthy t) cleaned))) /\
  (forall b, validate_bullets (PBool b) = Ok [no_feedback]) /\
  (forall z, validate_bullets (PInt z) = Ok [no_feedback]) /\
  (forall f, validate_bullets (PFloat f) = Ok [no_feedback]) /\
  (forall d, validate_bullets (PDict d) = Ok [no_feedback]) /\
  (forall bullets bs, validate_bullets bullets = Ok bs -> clean_bullets bs) /\
  (forall bullets e,
     validate_bullets bullets = Raise e ->
     exists l v, bullets = PList l /\ v ∈ take 5 l /\ py_str v = Raise e) /\
  (forall text,
     clean_text text
     = match text with
       | PNone => Ok ""
       | _ => text_str ← py_str text; Ok (squeeze text_str)
       end).
Proof.
  split; [reflexivity|]. split; [apply validate_bullets_string|].
  split; [apply validate_bullets_list|].
  do 4 (split; [done|]).
  split; [apply validate_bullets_clean|].
  split; [apply validate_bullets_raises|].
  intros text. by destruct text.
Qed.

(** The worded rule and the code agree on every string, and on every
    list of at most five elements: they differ only in what a longer
    list loses. *)
Lemma validate_bullets_spec_agrees (bullets : pyval) :
  (forall l, bullets = PList l -> (length l <= 5)%nat) ->
  validate_bullets bullets = validate_bullets_spec repr bullets.
Proof.
  intros Hshort. destruct bullets as [| | | |s|l|]; try reflexivity.
  - rewrite validate_bullets_string. unfold validate_bullets_spec.
    by rewrite mapM_clean_text_strs.
  - rewrite validate_bullets_list. unfold validate_bullets_spec.
    rewrite (take_ge l) by by apply Hshort.
    destruct (mapM clean_text l) as [ts|e] eqn:Hts; [|done].
    cbn [mbind result_bind]. rewrite take_ge; [done|].
    etrans; [apply length_filter|]. rewrite (mapM_length _ _ _ Hts).
    by apply Hshort.
Qed.

End WithBuiltins.

(** Witness of C8: a reply with an out-of-range score, an upper-case
    confidence and bullets to clean is normalised, and normalising the
    outcome changes nothing. *)
Lemma process_llm_output_idempotent_witness :
  let raw :=
    PDict (list_to_map
      [ ("satisfaction_score", PInt 9);
        ("confidence_in_treatment", PStr " YES ");
        ("summary_bullets", PList [PStr "  long   wait "; PStr ""]) ]) in
  let r := feedback_dict 5 default_metrics "yes" 3 3 ["long wait"] in
  process_llm_output no_float no_repr raw = Ok r /\
  process_llm_output no_float no_repr r = Ok r.
Proof.
  split; [vm_compute; reflexivity|].
  apply (process_llm_output_idempotent no_float no_repr
           (PDict (list_to_map
              [ ("satisfaction_score", PInt 9);
                ("confidence_in_treatment", PStr " YES ");
                ("summary_bullets",
                  PList [PStr "  long   wait "; PStr ""]) ]))).
  vm_compute. reflexivity.
Defined.

(** Counterexample to C5 read in the order it lists the steps (clean,
    drop the empty ones, cut to five): with an empty first element and
    five more, the code keeps four bullets, since it cuts to five
    elements before it drops the empty one, and the worded rule five. *)
Lemma validate_bullets_differs_from_spec :
  exists bullets,
    bullets
    = PList [PStr ""; PStr "a"; PStr "b"; PStr "c"; PStr "d"; PStr "e"] /\
    forall repr,
      validate_bullets repr bullets = Ok ["a"; "b"; "c"; "d"] /\
      validate_bullets_spec repr bullets = Ok ["a"; "b"; "c"; "d"; "e"] /\
      validate_bullets repr bullets ≠ validate_bullets_spec repr bullets.
Proof.
  eexists. split; [reflexivity|]. intros repr.
  split; [reflexivity|]. split; [reflexivity|]. vm_compute. discriminate.
Qed.

End AnalyzerFacts.

(* ================================================================= *)
(** * Facts about conversation.py *)

Module ConversationFacts.
Import PyStr PyStrFacts Conversation.

Lemma enforce_messages (self : ConversationManager) :
  messages (_enforce_max_length self)
  = drop (length (messages self) - MAX_HISTORY_LENGTH) (messages self).
Proof.
  unfold _enforce_max_length. case_bool_decide as Hlen; [done|].
  replace (length (messages self) - MAX_HISTORY_LENGTH)%nat with 0%nat
    by lia.
  done.
Qed.

Lemma enforce_length (self : ConversationManager) :
  (length (messages (_enforce_max_length self)) <= MAX_HISTORY_LENGTH)%nat.
Proof. rewrite enforce_messages, length_drop. lia. Qed.

Lemma enforce_last_activity (self : ConversationManager) :
  last_activity (_enforce_max_length self) = last_activity self.
Proof. unfold _enforce_max_length. by case_bool_decide. Qed.

(** ** What one call does to the buffer *)

Lemma add_user_message_blank (self : ConversationManager) (content : string)
    (stamp now : time) :
  blank content = true -> add_user_message self content stamp now = self.
Proof. intros Hb. unfold add_user_message. by rewrite Hb. Qed.

Lemma add_assistant_message_blank (self : ConversationManager)
    (content : string) (stamp now : time) :
  blank content = true -> add_assistant_message self content stamp now = self.
Proof. intros Hb. unfold add_assistant_message. by rewrite Hb. Qed.

Lemma add_user_message_appends (self : ConversationManager)
    (content : string) (stamp now : time) :
  blank content = false ->
  let self' := add_user_message self content stamp now in
  messages self'
  = drop (S (length (messages self)) - MAX_HISTORY_LENGTH)
         (messages self ++ [Message user (strip content) stamp]) /\
  last_activity self' = now.
Proof.
  intros Hb. unfold add_user_message. rewrite Hb. simpl.
  rewrite enforce_messages, enforce_last_activity. simpl.
  rewrite length_app. simpl.
  by replace (length (messages self) + 1)%nat
    with (S (length (messages self))) by lia.
Qed.

Lemma add_assistant_message_appends (self : ConversationManager)
    (content : string) (stamp now : time) :
  blank content = false ->
  let self' := add_assistant_message self content stamp now in
  messages self'
  = drop (S (length (messages self)) - MAX_HISTORY_LENGTH)
         (messages self ++ [Message assistant (strip content) stamp]) /\
  last_activity self' = now.
Proof.
  intros Hb. unfold add_assistant_message. rewrite Hb. simpl.
  rewrite enforce_messages, enforce_last_activity. simpl.
  rewrite length_app. simpl.
  by replace (length (messages self) + 1)%nat
    with (S (length (messages self))) by lia.
Qed.

(** A blank string: empty, or nothing left after trimming. *)
Lemma blank_strip (content : string) :
  blank content = true <-> strip content = "".
Proof.
  unfold blank. destruct content as [|c r]; [by split|]. simpl truthy at 1.
  rewrite orb_false_l, negb_true_iff. apply truthy_false.
Qed.

(** After a call the buffer is a suffix of the old buffer followed by
    what the call appended. *)
Lemma apply_op_suffix (self : ConversationManager) (op : append_op) :
  messages (apply_op self op)
    `suffix_of` messages self ++ option_list (appended op).
Proof.
  destruct op as [content stamp now|content stamp now|content stamp]; simpl.
  - destruct (blank content) eqn:Hb.
    + rewrite add_user_message_blank by done. by rewrite app_nil_r.
    + destruct (add_user_message_appends self content stamp now Hb)
        as [-> _].
      apply suffix_drop.
  - destruct (blank content) eqn:Hb.
    + rewrite add_assistant_message_blank by done. by rewrite app_nil_r.
    + destruct (add_assistant_message_appends self content stamp now Hb)
        as [-> _].
      apply suffix_drop.
  - done.
Qed.

Lemma all_appended_cons (op : append_op) (ops : list append_op) :
  all_appended (op :: ops) = option_list (appended op) ++ all_appended ops.
Proof. unfold all_appended. simpl. by destruct (appended op). Qed.

Lemma run_ops_suffix (self : ConversationManager) (ops : list append_op) :
  messages (run_ops self ops) `suffix_of` messages self ++ all_appended ops.
Proof.
  revert self. induction ops as [|op ops IH]; intros self.
  - unfold all_appended. simpl. by rewrite app_nil_r.
  - change (run_ops self (op :: ops)) with (run_ops (apply_op self op) ops).
    rewrite all_appended_cons, app_assoc.
    etrans; [apply IH|]. apply suffix_app, apply_op_suffix.
Qed.

Lemma get_history_suffix (self other : ConversationManager) :
  messages self `suffix_of` messages other ->
  get_history self `suffix_of` get_history other.
Proof.
  intros [k Hk]. unfold get_history. rewrite Hk, filter_app, fmap_app.
  by eexists.
Qed.

(** ** The bound on the history *)

Lemma get_history_length (self : ConversationManager) :
  (length (get_history self) <= length (messages self))%nat.
Proof. unfold get_history. rewrite length_fmap. apply length_filter. Qed.

Lemma apply_op_history_bound (self : ConversationManager) (op : append_op) :
  (length (get_history self) <= MAX_HISTORY_LENGTH)%nat ->
  (length (get_history (apply_op self op)) <= MAX_HISTORY_LENGTH)%nat.
Proof.
  intros Hinv.
  destruct op as [content stamp now|content stamp now|content stamp]; simpl.
  - unfold add_user_message. destruct (blank content); [done|].
    etrans; [apply get_history_length|apply enforce_length].
  - unfold add_assistant_message. destruct (blank content); [done|].
    etrans; [apply get_history_length|apply enforce_length].
  - unfold get_history, add_system_message. simpl.
    rewrite filter_app, filter_cons_False, filter_nil, app_nil_r;
      [exact Hinv|by intros ?].
Qed.

Lemma run_ops_history_bound (self : ConversationManager)
    (ops : list append_op) :
  (length (get_history self) <= MAX_HISTORY_LENGTH)%nat ->
  (length (get_history (run_ops self ops)) <= MAX_HISTORY_LENGTH)%nat.
Proof.
  revert self. induction ops as [|op ops IH]; intros self Hinv; [done|].
  apply IH, apply_op_history_bound, Hinv.
Qed.

(** Without system notes the buffer is exactly the last
    [MAX_HISTORY_LENGTH] appended messages. *)
Lemma run_ops_last_messages (sid : option string) (t1 t2 : time)
    (ops : list append_op) :
  Forall (fun op => is_system_op op = false) ops ->
  messages (run_ops (__init__ sid t1 t2) ops)
  = drop (length (all_appended ops) - MAX_HISTORY_LENGTH) (all_appended ops).
Proof.
  induction ops as [|op ops IH] using rev_ind; intros Hops; [done|].
  apply Forall_app in Hops as [Hops [Hop _]%Forall_cons].
  specialize (IH Hops).
  unfold run_ops in *. rewrite fold_left_app. simpl.
  set (self := fold_left apply_op ops (__init__ sid t1 t2)) in *.
  unfold all_appended in *. rewrite omap_app. simpl.
  set (old := omap appended ops) in *.
  assert (forall m,
            drop (S (length (messages self)) - MAX_HISTORY_LENGTH)
                 (messages self ++ [m])
            = drop (length (old ++ [m]) - MAX_HISTORY_LENGTH) (old ++ [m]))
    as Hpush.
  { intros m. rewrite IH, length_drop, length_app.
    change (length [m]) with 1%nat. unfold MAX_HISTORY_LENGTH.
    destruct (decide (length old <= 50)%nat) as [Hle|Hgt].
    - replace (length old - 50)%nat with 0%nat by lia.
      rewrite drop_0. f_equal. lia.
    - rewrite (drop_app_le old) by lia.
      replace (S (length old - (length old - 50)) - 50)%nat with 1%nat
        by lia.
      rewrite drop_app_le by (rewrite length_drop; lia).
      rewrite drop_drop. do 2 f_equal. lia. }
  destruct op as [content stamp now|content stamp now|content stamp];
    [| |discriminate Hop]; simpl; destruct (blank content) eqn:Hb; simpl.
  - rewrite add_user_message_blank by done. by rewrite app_nil_r.
  - destruct (add_user_message_appends self content stamp now Hb) as [-> _].
    apply Hpush.
  - rewrite add_assistant_message_blank by done. by rewrite app_nil_r.
  - destruct (add_assistant_message_appends self content stamp now Hb)
      as [-> _].
    apply Hpush.
Qed.

(** ** The exact contents of the buffer *)

(** Every list of messages is a front that does not end in a system
    note, followed by system notes only. *)
Lemma trailing_notes (ms : list message) :
  exists front notes,
    ms = front ++ notes /\
    Forall (fun m => msg_role m = system) notes /\
    (forall m, last front = Some m -> msg_role m ≠ system).
Proof.
  induction ms as [|x ms (front & notes & -> & Hnotes & Hlast)] using rev_ind.
  - exists [], []. by repeat split.
  - destruct (decide (msg_role x = system)) as [Hx|Hx].
    + exists front, (notes ++ [x]). rewrite app_assoc. split; [done|].
      split; [|done]. apply Forall_app. split; [done|]. by constructor.
    + exists ((front ++ notes) ++ [x]), []. rewrite app_nil_r.
      split; [done|]. split; [done|].
      intros m. rewrite last_snoc. by intros [= <-].
Qed.

(** A message of the user or the assistant ends the front. *)
Lemma front_ends_in_turn (old front notes : list message) (m : message) :
  msg_role m ≠ system ->
  old ++ [m] = front ++ notes ->
  Forall (fun m => msg_role m = system) notes ->
  front = old ++ [m] /\ notes = [].
Proof.
  intros Hm Heq Hnotes.
  destruct notes as [|x notes _] using rev_ind.
  - by rewrite app_nil_r in Heq.
  - rewrite app_assoc in Heq. apply app_inj_tail in Heq as [_ <-].
    apply Forall_app in Hnotes as [_ [Hx _]%Forall_cons]. done.
Qed.

(** A system note ends the notes. *)
Lemma notes_end_in_note (old front notes : list message) (m : message) :
  msg_role m = system ->
  old ++ [m] = front ++ notes ->
  (forall m, last front = Some m -> msg_role m ≠ system) ->
  exists notes', notes = notes' ++ [m] /\ old = front ++ notes'.
Proof.
  intros Hm Heq Hlast.
  destruct notes as [|x notes _] using rev_ind.
  - rewrite app_nil_r in Heq. subst front.
    destruct (Hlast m); [apply last_snoc|done].
  - rewrite app_assoc in Heq. apply app_inj_tail in Heq as [-> <-].
    by exists notes.
Qed.

(** Appending to a buffer that holds everything but the evicted part of
    the front, and cutting to [MAX_HISTORY_LENGTH]. *)
Lemma push_and_cut (front notes : list message) (m : message) :
  let old := drop (length front - MAX_HISTORY_LENGTH) front ++ notes in
  drop (S (length old) - MAX_HISTORY_LENGTH) (old ++ [m])
  = drop (length ((front ++ notes) ++ [m]) - MAX_HISTORY_LENGTH)
         ((front ++ notes) ++ [m]).
Proof.
  intros old.
  assert (old = drop (length front - MAX_HISTORY_LENGTH) (front ++ notes))
    as Hold by (rewrite drop_app_le; [done|lia]).
  assert (length old
          = (length front + length notes
             - (length front - MAX_HISTORY_LENGTH))%nat) as Hlen
    by (rewrite Hold, length_drop, length_app; lia).
  rewrite Hlen, Hold.
  rewrite <- (drop_app_le (front ++ notes) [m]) by (rewrite length_app; lia).
  rewrite drop_drop, !length_app. change (length [m]) with 1%nat.
  f_equal. unfold MAX_HISTORY_LENGTH. lia.
Qed.

(** The buffer after any sequence of calls: of everything appended up
    to the last message of the user or the assistant, the last
    [MAX_HISTORY_LENGTH]; then the system notes appended since. *)
Lemma run_ops_messages (sid : option string) (t1 t2 : time)
    (ops : list append_op) (front notes : list message) :
  all_appended ops = front ++ notes ->
  Forall (fun m => msg_role m = system) notes ->
  (forall m, last front = Some m -> msg_role m ≠ system) ->
  messages (run_ops (__init__ sid t1 t2) ops)
  = drop (length front - MAX_HISTORY_LENGTH) front ++ notes.
Proof.
  revert front notes.
  induction ops as [|op ops IH] using rev_ind; intros front notes Heq Hnotes
    Hlast.
  - symmetry in Heq. apply app_eq_nil in Heq as [-> ->]. done.
  - unfold all_appended in Heq. rewrite omap_app in Heq. simpl in Heq.
    fold (all_appended ops) in Heq.
    unfold run_ops. rewrite fold_left_app. simpl.
    fold (run_ops (__init__ sid t1 t2) ops).
    set (self := run_ops (__init__ sid t1 t2) ops) in *.
    assert (forall m,
              msg_role m ≠ system ->
              all_appended ops ++ [m] = front ++ notes ->
              drop (S (length (messages self)) - MAX_HISTORY_LENGTH)
                   (messages self ++ [m])
              = drop (length front - MAX_HISTORY_LENGTH) front ++ notes)
      as Hturn.
    { intros m Hm Hall.
      destruct (front_ends_in_turn _ _ _ _ Hm Hall Hnotes) as [-> ->].
      destruct (trailing_notes (all_appended ops))
        as (front0 & notes0 & Hall0 & Hnotes0 & Hlast0).
      rewrite (IH front0 notes0 Hall0 Hnotes0 Hlast0), Hall0, app_nil_r.
      apply push_and_cut. }
    destruct op as [content stamp now|content stamp now|content stamp];
      simpl in Heq |- *.
    + destruct (blank content) eqn:Hb; simpl in Heq.
      * rewrite add_user_message_blank by done.
        rewrite app_nil_r in Heq. by apply IH.
      * destruct (add_user_message_appends self content stamp now Hb)
          as [-> _].
        by apply Hturn.
    + destruct (blank content) eqn:Hb; simpl in Heq.
      * rewrite add_assistant_message_blank by done.
        rewrite app_nil_r in Heq. by apply IH.
      * destruct (add_assistant_message_appends self content stamp now Hb)
          as [-> _].
        by apply Hturn.
    + destruct (notes_end_in_note _ _ _ (Message system (strip content) stamp)
                  eq_refl Heq Hlast)
        as (notes' & -> & Hall').
      apply Forall_app in Hnotes as [Hnotes' _].
      unfold add_system_message. simpl.
      rewrite (IH front notes' Hall' Hnotes' Hlast). by rewrite app_assoc.
Qed.

Lemma filter_notes (notes : list message) :
  Forall (fun m => msg_role m = system) notes ->
  filter (fun msg => conversational msg) notes = [].
Proof.
  induction 1 as [|m notes Hm _ IH]; [done|].
  rewrite filter_cons_False; [done|].
  unfold conversational. rewrite Hm. by intros ?.
Qed.

Lemma filter_turns (ms : list message) :
  Forall (fun m => msg_role m ≠ system) ms ->
  filter (fun msg => conversational msg) ms = ms.
Proof.
  induction 1 as [|m ms Hm _ IH]; [done|].
  rewrite filter_cons_True; [by rewrite IH|].
  unfold conversational. by destruct (msg_role m).
Qed.

Lemma appended_turn (op : append_op) (m : message) :
  is_system_op op = false -> appended op = Some m -> msg_role m ≠ system.
Proof.
  destruct op as [content stamp now|content stamp now|content stamp];
    [| |done]; intros _; simpl; destruct (blank content); try done;
    by intros [= <-].
Qed.

Lemma all_appended_turns (ops : list append_op) :
  Forall (fun op => is_system_op op = false) ops ->
  Forall (fun m => msg_role m ≠ system) (all_appended ops).
Proof.
  intros Hops. apply Forall_forall. intros m.
  unfold all_appended. rewrite list_elem_of_omap.
  intros (op & Hop & Hm). eapply appended_turn; [|exact Hm].
  by apply (proj1 (Forall_forall _ _) Hops).
Qed.

(** C2: after any sequence of appends to a fresh manager the history
    holds at most [MAX_HISTORY_LENGTH] messages, and it is the most
    recent part, in order, of everything the user and the assistant
    appended. The buffer is given exactly: of all the messages appended
    up to the last one of the user or the assistant, the last
    [MAX_HISTORY_LENGTH], the oldest evicted first, followed by the
    system notes appended since; the history is the messages of the
    user and the assistant among them, with their roles and contents.
    When no system note is among the appends, buffer and history are
    exactly the last [MAX_HISTORY_LENGTH] appended messages. *)
Theorem history_bounded_and_most_recent (sid : option string)
    (t1 t2 : time) (ops : list append_op) :
  let self := run_ops (__init__ sid t1 t2) ops in
  (length (get_history self) <= MAX_HISTORY_LENGTH)%nat /\
  get_history self
    `suffix_of` get_history (set_messages self (all_appended ops)) /\
  (Forall (fun op => is_system_op op = false) ops ->
   messages self
   = drop (length (all_appended ops) - MAX_HISTORY_LENGTH)
          (all_appended ops) /\
   get_history self
   = (fun msg => (msg_role msg, msg_content msg))
       <$> drop (length (all_appended ops) - MAX_HISTORY_LENGTH)
                (all_appended ops)) /\
  (exists front notes,
     all_appended ops = front ++ notes /\
     Forall (fun m => msg_role m = system) notes /\
     (forall m, last front = Some m -> msg_role m ≠ system)) /\
  (forall front notes,
     all_appended ops = front ++ notes ->
     Forall (fun m => msg_role m = system) notes ->
     (forall m, last front = Some m -> msg_role m ≠ system) ->
     let kept := drop (length front - MAX_HISTORY_LENGTH) front in
     messages self = kept ++ notes /\
     get_history self
     = (fun msg => (msg_role msg, msg_content msg))
         <$> filter (fun msg => msg_role msg ≠ system) kept).
Proof.
  split; [|split; [|split; [|split]]].
  - apply run_ops_history_bound. simpl. unfold MAX_HISTORY_LENGTH. lia.
  - apply get_history_suffix. apply (run_ops_suffix (__init__ sid t1 t2)).
  - intros Hops.
    pose proof (run_ops_last_messages sid t1 t2 ops Hops) as Hms.
    split; [exact Hms|].
    unfold get_history. rewrite Hms. f_equal. apply filter_turns.
    apply Forall_forall. intros m Hm%subseteq_drop.
    by apply (proj1 (Forall_forall _ _) (all_appended_turns ops Hops)).
  - apply trailing_notes.
  - intros front notes Hall Hnotes Hlast kept.
    pose proof (run_ops_messages sid t1 t2 ops front notes Hall Hnotes Hlast)
      as Hms.
    split; [exact Hms|].
    unfold get_history. rewrite Hms, filter_app, (filter_notes notes) by done.
    rewrite app_nil_r. f_equal. apply list_filter_iff.
    intros m. unfold conversational. by destruct (msg_role m).
Qed.

(** C9: an append is claimed to be a no-op on blank content for every
    role, and to update the last-activity time whenever it changes the
    buffer. [add_system_message] does neither: whatever the content, it
    appends a message (with empty content when the content is blank)
    and leaves [last_activity] as it was. *)
Theorem add_system_message_unguarded (self : ConversationManager)
    (content : string) (stamp : time) :
  let self' := add_system_message self content stamp in
  messages self' = messages self ++ [Message system (strip content) stamp] /\
  last_activity self' = last_activity self /\
  messages (add_system_message self "   " stamp)
  = messages self ++ [Message system "" stamp].
Proof. by repeat split. Qed.

End ConversationFacts.

(* ================================================================= *)
(** * Facts about the mock chat backend *)

Module MockFacts.
Import PyStr Conversation MockProvider.

Lemma random_choice_elem (draw : nat) (xs : list string) :
  xs ≠ [] -> random_choice draw xs ∈ xs.
Proof.
  intros Hne. unfold random_choice.
  assert (draw `mod` length xs < length xs)%nat as Hlt.
  { apply Nat.mod_upper_bound. by destruct xs. }
  apply lookup_lt_is_Some in Hlt as [x Hx]. rewrite Hx. simpl.
  by eapply list_elem_of_lookup_2.
Qed.

Lemma any_in_elem (w : string) (ws : list string) (s : string) :
  w ∈ ws -> contains w s = true -> any_in ws s = true.
Proof.
  intros Hin Hc. unfold any_in. apply existsb_exists.
  exists w. split; [|done]. by apply list_elem_of_In.
Qed.

(** With at most one user message the reply is a greeting, whatever the
    messages say. *)
Lemma chat_completion_first_exchange (draw : nat)
    (messages : list (role * string)) (system_prompt : string) :
  (num_exchanges_of messages <= 1)%nat ->
  chat_completion draw messages system_prompt ∈ greetings.
Proof.
  intros Hn. unfold chat_completion. rewrite bool_decide_true by done.
  by apply random_choice_elem.
Qed.

(** C7, as amended: the reply is one of the negative responses when the
    history holds at least two user messages and its last message,
    lower-cased, contains "terrible"; it is one of the greetings when
    the history holds at most one user message. *)
Theorem chat_completion_terrible_or_first (draw : nat)
    (messages : list (role * string)) (system_prompt : string) :
  ((2 <= num_exchanges_of messages)%nat ->
   contains "terrible" (last_message_of messages) = true ->
   chat_completion draw messages system_prompt ∈ negatives) /\
  ((num_exchanges_of messages <= 1)%nat ->
   chat_completion draw messages system_prompt ∈ greetings).
Proof.
  split; [|apply chat_completion_first_exchange].
  intros Hn Hc. unfold chat_completion.
  rewrite bool_decide_false by lia.
  rewrite (any_in_elem "terrible"); [|repeat constructor|done].
  by apply random_choice_elem.
Qed.

(** Witness of C7 as amended: the third message of a conversation
    says "TERRIBLE" and is answered from the negative responses; an
    empty history is answered with a greeting. *)
Lemma chat_completion_terrible_or_first_witness :
  chat_completion 0
    [(user, "hello"); (assistant, "How was it?"); (user, "It was TERRIBLE")]
    "" ∈ negatives /\
  chat_completion 0 [] "" ∈ greetings.
Proof.
  split.
  - apply (chat_completion_terrible_or_first 0
             [(user, "hello"); (assistant, "How was it?");
              (user, "It was TERRIBLE")] "");
      [vm_compute; lia|reflexivity].
  - apply (chat_completion_terrible_or_first 0 [] ""). vm_compute. lia.
Defined.

(** Counterexample to C7 as stated: a history whose only user message
    says "it was terrible" is a first exchange, so the reply is a
    greeting and none of the negative responses, whatever the draw. *)
Lemma terrible_first_exchange_is_greeted :
  exists messages,
    messages = [(assistant, "Hello!"); (user, "it was terrible")] /\
    latest_user_content messages = Some "it was terrible" /\
    contains "terrible" "it was terrible" = true /\
    forall draw system_prompt,
      chat_completion draw messages system_prompt ∈ greetings /\
      chat_completion draw messages system_prompt ∉ negatives.
Proof.
  eexists. split; [reflexivity|]. do 2 (split; [reflexivity|]).
  intros draw system_prompt.
  assert (chat_completion draw
            [(assistant, "Hello!"); (user, "it was terrible")] system_prompt
          ∈ greetings) as Hgreet.
  { apply chat_completion_first_exchange. vm_compute. lia. }
  split; [exact Hgreet|]. intros Hneg.
  revert Hgreet Hneg.
  generalize (chat_completion draw
                [(assistant, "Hello!"); (user, "it was terrible")]
                system_prompt).
  intros reply. unfold greetings, negatives.
  rewrite !elem_of_cons, !elem_of_nil.
  intros [->|[->|[->|[]]]] [?|[?|[?|[]]]]; discriminate.
Qed.

End MockFacts.

(* ================================================================= *)
(** * Facts about the analysis path *)

Module AnalysisFacts.
Import PyStr FeedbackAnalyzer LLMClient AnalyzerFacts.

Section WithInterpreter.

Variable json_loads : string -> result pyval.
Variable float_of_str : string -> option spec_float.
Variable repr : pyval -> result string.

Local Abbreviation analyze_feedback := (analyze_feedback json_loads).
Local Abbreviation analyze_and_process :=
  (analyze_and_process json_loads float_of_str repr).

Lemma process_empty_dict :
  process_llm_output float_of_str repr (PDict ∅) = Ok default_record.
Proof. vm_compute. reflexivity. Qed.

Lemma process_parse_failure_response :
  process_llm_output float_of_str repr parse_failure_response
  = Ok default_record.
Proof. vm_compute. reflexivity. Qed.

(** A provider failure yields the record of defaults. *)
Lemma analyze_and_process_gateway_error (msg : string) :
  analyze_and_process (Failed msg) = Ok default_record.
Proof. apply process_empty_dict. Qed.

(** A reply that is not JSON yields the record of defaults, whose
    satisfaction score is 3. *)
Lemma analyze_and_process_parse_failure (text : string) :
  json_loads (strip_code_fence text) = Raise JSONDecodeError ->
  analyze_and_process (Returned text) = Ok default_record.
Proof.
  intros Hparse. unfold LLMClient.analyze_and_process, LLMClient.analyze_feedback,
    analyze_feedback_try. simpl. rewrite Hparse.
  apply process_parse_failure_response.
Qed.

(** Any other exception of [json.loads] yields the record of defaults
    too. *)
Lemma analyze_and_process_loads_error (text : string) (e : exn) :
  json_loads (strip_code_fence text) = Raise e ->
  analyze_and_process (Returned text) = Ok default_record.
Proof.
  intros Hparse. unfold LLMClient.analyze_and_process, LLMClient.analyze_feedback,
    analyze_feedback_try. simpl. rewrite Hparse.
  destruct e; first [apply process_parse_failure_response
                    |apply process_empty_dict].
Qed.

(** The two steps raise only when the reply was decoded, and then what
    [process_llm_output] raises on the decoded value. *)
Lemma analyze_and_process_raises (provider_result : provider_outcome)
    (e : exn) :
  analyze_and_process provider_result = Raise e ->
  exists text v,
    provider_result = Returned text /\
    json_loads (strip_code_fence text) = Ok v /\
    process_llm_output float_of_str repr v = Raise e.
Proof.
  intros Hraise. destruct provider_result as [text|msg].
  - destruct (json_loads (strip_code_fence text)) as [v|e'] eqn:Hloads.
    + exists text, v. do 2 (split; [done|]). revert Hraise.
      unfold LLMClient.analyze_and_process, LLMClient.analyze_feedback,
        analyze_feedback_try. simpl. by rewrite Hloads.
    + rewrite (analyze_and_process_loads_error text e') in Hraise; done.
  - by rewrite analyze_and_process_gateway_error in Hraise.
Qed.

(** C3: the analysis path is claimed to return a valid record for every
    provider result. It does not for a reply that decodes to a dict
    whose score is an infinite float, such as
    [{"satisfaction_score": 1e999}]: [analyze_feedback] returns the
    dict and [process_llm_output] raises [OverflowError]. *)
Theorem analyze_and_process_overflow (text : string) :
  json_loads (strip_code_fence text)
    = Ok (PDict {[ "satisfaction_score" := PFloat float_inf ]}) ->
  analyze_and_process (Returned text) = Raise OverflowError.
Proof.
  intros Hloads. unfold LLMClient.analyze_and_process, LLMClient.analyze_feedback,
    analyze_feedback_try. simpl. rewrite Hloads.
  vm_compute. reflexivity.
Qed.

End WithInterpreter.

(** Witness of C3's failing input: the reply
    [{"satisfaction_score": 1e999}] inside a code fence. *)
Lemma analyze_and_process_overflow_witness :
  let text := "```json" +:+ overflowing_reply +:+ "```" in
  loads_overflowing_reply (strip_code_fence text)
    = Ok (PDict {[ "satisfaction_score" := PFloat float_inf ]}) /\
  analyze_and_process loads_overflowing_reply no_float no_repr (Returned text)
    = Raise OverflowError.
Proof.
  split; [vm_compute; reflexivity|].
  apply (analyze_and_process_overflow loads_overflowing_reply no_float
           no_repr ("```json" +:+ overflowing_reply +:+ "```")).
  vm_compute. reflexivity.
Defined.

End AnalysisFacts.

(* ================================================================= *)
(** * Facts about the message route *)

Module AppFacts.
Import PyStr PyStrFacts Conversation ConversationFacts LLMClient App.

(** ** End commands *)

Lemma no_blank_lower (s : string) : no_blank (lower s) -> no_blank s.
Proof.
  induction s as [|c r IH]; [done|]. simpl.
  rewrite isspace_lower_char. intros [Hc Hr]. auto.
Qed.

Lemma strip_no_blank (s : string) : no_blank s -> strip s = s.
Proof.
  intros Hs. unfold strip.
  assert (lstrip s = s) as ->; [|by apply rstrip_word].
  destruct s as [|c r]; [done|]. destruct Hs as [Hc _]. simpl. by rewrite Hc.
Qed.

(** A text that is an end command up to case has no blank in it, so
    trimming leaves it as it is. *)
Lemma end_command_stripped (text : string) :
  lower text ∈ end_commands -> strip text = text /\ text ≠ "".
Proof.
  intros Hcmd.
  assert (no_blank (lower text) /\ lower text ≠ "") as [Hnb Hne].
  { unfold end_commands in Hcmd. revert Hcmd.
    rewrite !elem_of_cons, elem_of_nil.
    intros [->|[->|[->|[->|[]]]]]; by repeat split. }
  split; [by apply strip_no_blank, no_blank_lower|].
  intros ->. by apply Hne.
Qed.

Lemma truthy_strip_twice (s : string) :
  truthy (strip (strip s)) = truthy (strip s).
Proof. by rewrite <- !truthy_squeeze, squeeze_strip. Qed.

Lemma blank_stripped (s : string) :
  truthy (strip s) = true -> blank (strip s) = false.
Proof.
  intros Hs. unfold blank. by rewrite truthy_strip_twice, Hs.
Qed.

(** ** Replies that are not blank *)

Lemma lstrip_app_l (a b : string) : lstrip a ≠ "" -> lstrip (a +:+ b) ≠ "".
Proof.
  induction a as [|c a IH]; [done|]. rewrite app_String. simpl.
  by destruct (isspace c).
Qed.

Lemma lstrip_app_r (a b : string) : lstrip b ≠ "" -> lstrip (a +:+ b) ≠ "".
Proof.
  intros Hb. induction a as [|c a IH]; [by rewrite app_empty_l|].
  rewrite app_String. simpl. by destruct (isspace c).
Qed.

Lemma lstrip_first (s : string) :
  match lstrip s with
  | EmptyString => True
  | String c _ => isspace c = false
  end.
Proof.
  induction s as [|c r IH]; [done|]. simpl.
  destruct (isspace c) eqn:Hc; [exact IH|exact Hc].
Qed.

Lemma strip_nonempty (s : string) : lstrip s ≠ "" -> strip s ≠ "".
Proof.
  intros Hs. unfold strip. pose proof (lstrip_first s) as Hh.
  destruct (lstrip s) as [|c t]; [done|]. simpl.
  by rewrite Hh, andb_false_r.
Qed.

(** A string that holds a character other than a blank is not blank. *)
Lemma blank_false (s : string) : lstrip s ≠ "" -> blank s = false.
Proof.
  intros Hs%strip_nonempty. destruct (blank s) eqn:Hb; [|done].
  by apply blank_strip in Hb.
Qed.

Lemma blank_marked (r : string) :
  blank (r +:+ " [Note: System fallback engaged due to connection error]")
  = false.
Proof. apply blank_false, lstrip_app_r. by vm_compute. Qed.

Lemma blank_system_error (llm_error : string) :
  blank ("System Error: " +:+ llm_error +:+ ". Please check server logs.")
  = false.
Proof. apply blank_false, lstrip_app_l. by vm_compute. Qed.

(** ** What the session holds after an assistant message *)

Lemma add_assistant_message_messages (self : ConversationManager)
    (content : string) (stamp now : time) :
  messages (add_assistant_message self content stamp now)
  = if blank content then messages self
    else drop (S (length (messages self)) - MAX_HISTORY_LENGTH)
              (messages self ++ [Message assistant (strip content) stamp]).
Proof.
  destruct (blank content) eqn:Hb.
  - by rewrite add_assistant_message_blank.
  - by destruct (add_assistant_message_appends self content stamp now Hb).
Qed.

(** No append looks at the flag [is_active] or changes it. *)
Lemma add_assistant_message_keeps_flag (self : ConversationManager)
    (content : string) (stamp now : time) :
  is_active (add_assistant_message self content stamp now) = is_active self.
Proof.
  unfold add_assistant_message. destruct (blank content); [done|].
  unfold _enforce_max_length. by case_bool_decide.
Qed.

(** The transcript, written out: one line for each message that is not
    a system note, labelled with the speaker. *)
Lemma transcript_rendering (self : ConversationManager) :
  get_conversation_transcript self
  = join newline
      ((fun m => (match msg_role m with
                  | user => "Patient"
                  | _ => "Assistant"
                  end) +:+ ": " +:+ msg_content m)
         <$> filter (fun m => msg_role m ≠ system) (messages self)).
Proof.
  unfold get_conversation_transcript.
  assert (filter (fun msg => negb (bool_decide (msg_role msg = system)))
            (messages self)
          = filter (fun m => msg_role m ≠ system) (messages self)) as Hf.
  { apply list_filter_iff. intros m.
    by destruct (msg_role m). }
  destruct (messages self) as [|m ms] eqn:Hms.
  - reflexivity.
  - by rewrite Hf.
Qed.

Section WithServer.

Variable CONVERSATIONAL_SYSTEM_PROMPT : string.
Variable llm_client_chat : list (role * string) -> string -> provider_outcome.
Variable fallback_client_chat :
  list (role * string) -> string -> provider_outcome.
Variable now : nat -> time.

Local Abbreviation session_add_user_message :=
  (session_add_user_message now).
Local Abbreviation session_add_assistant_message :=
  (session_add_assistant_message now).
Local Abbreviation end_conversational_session_internal :=
  (end_conversational_session_internal now).
Local Abbreviation end_conversational_session :=
  (end_conversational_session now).
Local Abbreviation generate_response :=
  (generate_response CONVERSATIONAL_SYSTEM_PROMPT llm_client_chat
     fallback_client_chat).
Local Abbreviation send_message :=
  (send_message CONVERSATIONAL_SYSTEM_PROMPT llm_client_chat
     fallback_client_chat now).

(** ** The steps of a request, one at a time *)

Lemma find_session_active (sid : string) (conversation : ConversationManager)
    (w : world) :
  sid ≠ "" -> active_sessions w !! sid = Some conversation ->
  find_session (PStr sid) w = (Ok (Some sid), w).
Proof.
  intros Hne Hw. unfold find_session. simpl.
  apply truthy_true in Hne. rewrite Hne. simpl.
  rewrite bool_decide_true; [done|]. by rewrite Hw.
Qed.

Lemma session_add_user_message_run (sid content : string)
    (conversation : ConversationManager) (w : world) :
  active_sessions w !! sid = Some conversation -> blank content = false ->
  session_add_user_message sid content w
  = (Ok tt,
     World (<[sid := add_user_message conversation content
                       (now (clock_reads w)) (now (S (clock_reads w)))]>
              (active_sessions w))
           (gateway_calls w) (S (S (clock_reads w)))).
Proof.
  intros Hw Hb. unfold App.session_add_user_message, bind, get_session.
  by rewrite Hw, Hb.
Qed.

Lemma session_add_assistant_message_run (sid content : string)
    (conversation : ConversationManager) (w : world) :
  active_sessions w !! sid = Some conversation -> blank content = false ->
  session_add_assistant_message sid content w
  = (Ok tt,
     World (<[sid := add_assistant_message conversation content
                       (now (clock_reads w)) (now (S (clock_reads w)))]>
              (active_sessions w))
           (gateway_calls w) (S (S (clock_reads w)))).
Proof.
  intros Hw Hb. unfold App.session_add_assistant_message, bind, get_session.
  by rewrite Hw, Hb.
Qed.

(** Whether or not the content is blank, the session ends up holding
    what [add_assistant_message] makes of it, and no chat call is made. *)
Lemma session_add_assistant_message_any (sid content : string)
    (conversation : ConversationManager) (w : world) :
  active_sessions w !! sid = Some conversation ->
  exists w',
    session_add_assistant_message sid content w = (Ok tt, w') /\
    active_sessions w' !! sid
    = Some (add_assistant_message conversation content
              (now (clock_reads w)) (now (S (clock_reads w)))) /\
    gateway_calls w' = gateway_calls w.
Proof.
  intros Hw. destruct (blank content) eqn:Hb.
  - exists w. unfold App.session_add_assistant_message, bind, get_session.
    rewrite Hw, Hb. rewrite add_assistant_message_blank by done. done.
  - eexists. split; [by apply session_add_assistant_message_run|].
    simpl. by rewrite lookup_insert_eq.
Qed.

Lemma chat_via_run (call : list (role * string) -> gateway_call)
    (chat : list (role * string) -> string -> provider_outcome)
    (sid : string) (conversation : ConversationManager) (w : world) :
  active_sessions w !! sid = Some conversation ->
  chat_via CONVERSATIONAL_SYSTEM_PROMPT call chat sid w
  = (Ok (chat (get_history conversation) CONVERSATIONAL_SYSTEM_PROMPT),
     World (active_sessions w)
           (gateway_calls w ++ [call (get_history conversation)])
           (clock_reads w)).
Proof.
  intros Hw. unfold chat_via, bind, get_session. by rewrite Hw.
Qed.

Lemma generate_response_failure (sid llm_error : string)
    (conversation : ConversationManager) (w : world) :
  active_sessions w !! sid = Some conversation ->
  let history := get_history conversation in
  llm_client_chat history CONVERSATIONAL_SYSTEM_PROMPT = Failed llm_error ->
  generate_response sid w
  = (Ok (settled_reply (Failed llm_error)
           (fallback_client_chat history CONVERSATIONAL_SYSTEM_PROMPT)),
     World (active_sessions w)
           (gateway_calls w ++ [PrimaryChat history; FallbackChat history])
           (clock_reads w)).
Proof.
  intros Hw history Hfail. unfold App.generate_response, bind.
  rewrite (chat_via_run _ _ _ conversation) by done.
  fold history. rewrite Hfail.
  rewrite (chat_via_run _ _ _ conversation) by done.
  fold history. simpl. rewrite <- app_assoc. simpl.
  by destruct (fallback_client_chat history CONVERSATIONAL_SYSTEM_PROMPT).
Qed.

Lemma end_internal_run (sid : string) (conversation : ConversationManager)
    (w : world) :
  sid ≠ "" -> active_sessions w !! sid = Some conversation ->
  let conversation' :=
    add_assistant_message conversation closing_msg
      (now (clock_reads w)) (now (S (clock_reads w))) in
  end_conversational_session_internal (PStr sid) w
  = (Ok (Json200 (list_to_map
       [ ("success", PBool true);
         ("message", PStr closing_msg);
         ("transcript", PStr (get_conversation_transcript conversation'));
         ("is_active", PBool false);
         ("should_analyze", PBool true);
         ("session_id", PStr sid) ])),
     World (<[sid := conversation']> (active_sessions w))
           (gateway_calls w) (S (S (clock_reads w)))).
Proof.
  intros Hne Hw conversation'.
  unfold App.end_conversational_session_internal, bind.
  rewrite (find_session_active sid conversation) by done.
  rewrite (session_add_assistant_message_run sid _ conversation) by done.
  unfold get_session. simpl. by rewrite lookup_insert_eq.
Qed.

(** The route never raises: whatever the request and the state, it
    returns a response. *)
Lemma send_message_returns (data : pyval) (w : world) :
  exists r w', send_message data w = (Ok r, w').
Proof.
  unfold App.send_message, try_except.
  match goal with |- context [match ?m w with _ => _ end] =>
    destruct (m w) as [[r|e] w'] end; by eauto.
Qed.

(** C6, as amended: for a registered session, a message that is an end
    command up to case is answered exactly as the explicit end answers
    it (the helper and the end route alike): the command is not
    appended, the closing message is appended as an assistant message,
    and the response holds the transcript of the buffer and
    [is_active = False]. No ended state is recorded: the session stays
    registered and the flag [is_active] of its manager is left as it
    was. *)
Theorem send_message_end_command (d : gmap string pyval) (text sid : string)
    (conversation : ConversationManager) (w : world) :
  d !! "message" = Some (PStr text) ->
  d !! "session_id" = Some (PStr sid) ->
  sid ≠ "" ->
  active_sessions w !! sid = Some conversation ->
  lower text ∈ end_commands ->
  let conversation' :=
    add_assistant_message conversation
      "Thank you for your feedback. We are now analyzing your response."
      (now (clock_reads w)) (now (S (clock_reads w))) in
  let transcript :=
    join newline
      ((fun m => (match msg_role m with
                  | user => "Patient"
                  | _ => "Assistant"
                  end) +:+ ": " +:+ msg_content m)
         <$> filter (fun m => msg_role m ≠ system) (messages conversation')) in
  let answer :=
    (Ok (Json200 (list_to_map
       [ ("success", PBool true);
         ("message",
           PStr "Thank you for your feedback. We are now analyzing your response.");
         ("transcript", PStr transcript);
         ("is_active", PBool false);
         ("should_analyze", PBool true);
         ("session_id", PStr sid) ])),
     World (<[sid := conversation']> (active_sessions w))
           (gateway_calls w) (S (S (clock_reads w)))) in
  send_message (PDict d) w = answer /\
  end_conversational_session_internal (PStr sid) w = answer /\
  end_conversational_session (PDict d) w = answer /\
  messages conversation'
    = drop (S (length (messages conversation)) - MAX_HISTORY_LENGTH)
        (messages conversation
           ++ [Message assistant
                 "Thank you for your feedback. We are now analyzing your response."
                 (now (clock_reads w))]) /\
  is_active conversation' = is_active conversation /\
  session_id conversation' = session_id conversation.
Proof.
  intros Hmsg Hsid Hne Hw Hcmd conversation' transcript answer.
  destruct (end_command_stripped text Hcmd) as [Hstrip Htext].
  pose proof (end_internal_run sid conversation w Hne Hw) as Hend.
  cbv zeta in Hend. change closing_msg
    with "Thank you for your feedback. We are now analyzing your response."
    in Hend.
  fold conversation' in Hend.
  rewrite (transcript_rendering conversation') in Hend.
  fold transcript in Hend. fold answer in Hend.
  assert (send_message (PDict d) w
          = end_conversational_session_internal (PStr sid) w) as Hsame.
  { unfold App.send_message, try_except, bind, body_get, str_strip, ret.
    rewrite Hmsg, Hsid. simpl. rewrite Hstrip.
    apply truthy_true in Htext. rewrite Htext. simpl.
    rewrite (find_session_active sid conversation) by done.
    rewrite bool_decide_true by done.
    by rewrite Hend. }
  split; [by rewrite Hsame|]. split; [exact Hend|]. split; [|split; [|split]].
  - unfold App.end_conversational_session, try_except, bind, body_get, ret.
    rewrite Hsid. simpl. by rewrite Hend.
  - by destruct (add_assistant_message_appends conversation
                   "Thank you for your feedback. We are now analyzing your response."
                   (now (clock_reads w)) (now (S (clock_reads w)))).
  - apply add_assistant_message_keeps_flag.
  - unfold conversation', add_assistant_message.
    destruct (blank _); [done|]. unfold _enforce_max_length.
    by case_bool_decide.
Qed.

(** When the primary chat call fails, the fallback client is called
    once, and the route answers with the reply that the fallback policy
    settles on, which is what the session is given to record. *)
Lemma send_message_failure_run (d : gmap string pyval)
    (text sid llm_error : string) (conversation : ConversationManager)
    (w : world) :
  d !! "message" = Some (PStr text) ->
  d !! "session_id" = Some (PStr sid) ->
  sid ≠ "" ->
  active_sessions w !! sid = Some conversation ->
  strip text ≠ "" ->
  lower (strip text) ∉ end_commands ->
  let conversation1 :=
    add_user_message conversation (strip text)
      (now (clock_reads w)) (now (S (clock_reads w))) in
  let history := get_history conversation1 in
  llm_client_chat history CONVERSATIONAL_SYSTEM_PROMPT = Failed llm_error ->
  let fallback := fallback_client_chat history CONVERSATIONAL_SYSTEM_PROMPT in
  let reply := settled_reply (Failed llm_error) fallback in
  exists w',
    send_message (PDict d) w
      = (Ok (Json200 (list_to_map
           [ ("success", PBool true);
             ("message", PStr reply);
             ("is_active", PBool true);
             ("session_id", PStr sid) ])), w') /\
    gateway_calls w'
      = gateway_calls w ++ [PrimaryChat history; FallbackChat history] /\
    active_sessions w' !! sid
      = Some (add_assistant_message conversation1 reply
                (now (S (S (clock_reads w))))
                (now (S (S (S (clock_reads w)))))).
Proof.
  intros Hmsg Hsid Hne Hw Htext Hcmd conversation1 history Hfail fallback
    reply.
  apply truthy_true in Htext.
  set (w1 := World (<[sid := conversation1]> (active_sessions w))
                   (gateway_calls w) (S (S (clock_reads w)))).
  set (w2 := World (active_sessions w1)
                   (gateway_calls w1 ++ [PrimaryChat history;
                                         FallbackChat history])
                   (clock_reads w1)).
  assert (active_sessions w1 !! sid = Some conversation1) as Hw1
    by apply lookup_insert_eq.
  destruct (session_add_assistant_message_any sid reply conversation1 w2
              Hw1) as (w3 & Hrun3 & Hsess3 & Hcalls3).
  exists w3. split; [|by split].
  unfold App.send_message, try_except, bind, body_get, str_strip, ret.
  rewrite Hmsg, Hsid. simpl. rewrite Htext. simpl.
  rewrite (find_session_active sid conversation) by done.
  rewrite bool_decide_false by done.
  rewrite (session_add_user_message_run sid _ conversation)
    by (done || by apply blank_stripped).
  fold conversation1. fold w1.
  rewrite (generate_response_failure sid llm_error conversation1 w1)
    by done.
  fold history. fold fallback. fold reply. fold w2.
  by rewrite Hrun3.
Qed.

End WithServer.

(** C4: when the primary chat call fails, the route retries once, with
    the fallback client, and answers with a success response: with the
    mock as the fallback, as [app.py] has it, the reply is the mock's
    text followed by the fallback marker, whatever the mock draws; for
    any fallback that returns, its text followed by the marker; for a
    fallback that fails too, the error text built from the first
    failure. The gateway log grows by the primary call and one fallback
    call, and the session records the reply, trimmed, after the user
    message. *)
Theorem send_message_gateway_failure
    (CONVERSATIONAL_SYSTEM_PROMPT : string)
    (llm_client_chat fallback_client_chat :
       list (role * string) -> string -> provider_outcome)
    (now : nat -> time) (d : gmap string pyval)
    (text sid llm_error : string) (conversation : ConversationManager)
    (w : world) :
  d !! "message" = Some (PStr text) ->
  d !! "session_id" = Some (PStr sid) ->
  sid ≠ "" ->
  active_sessions w !! sid = Some conversation ->
  strip text ≠ "" ->
  lower (strip text) ∉ end_commands ->
  let conversation1 :=
    add_user_message conversation (strip text)
      (now (clock_reads w)) (now (S (clock_reads w))) in
  let history := get_history conversation1 in
  llm_client_chat history CONVERSATIONAL_SYSTEM_PROMPT = Failed llm_error ->
  let answered
      (fallback : list (role * string) -> string -> provider_outcome)
      (reply : string) : Prop :=
    exists w' conversation2,
      send_message CONVERSATIONAL_SYSTEM_PROMPT llm_client_chat fallback now
        (PDict d) w
      = (Ok (Json200 (list_to_map
           [ ("success", PBool true);
             ("message", PStr reply);
             ("is_active", PBool true);
             ("session_id", PStr sid) ])), w') /\
      gateway_calls w'
      = gateway_calls w ++ [PrimaryChat history; FallbackChat history] /\
      active_sessions w' !! sid = Some conversation2 /\
      messages conversation2
      = drop (S (length (messages conversation1)) - MAX_HISTORY_LENGTH)
          (messages conversation1
             ++ [Message assistant (strip reply)
                   (now (S (S (clock_reads w))))]) in
  (forall draw,
     answered (mock_chat draw)
       (MockProvider.chat_completion draw history CONVERSATIONAL_SYSTEM_PROMPT
        +:+ " [Note: System fallback engaged due to connection error]")) /\
  (forall r,
     fallback_client_chat history CONVERSATIONAL_SYSTEM_PROMPT = Returned r ->
     answered fallback_client_chat
       (r +:+ " [Note: System fallback engaged due to connection error]")) /\
  (forall e,
     fallback_client_chat history CONVERSATIONAL_SYSTEM_PROMPT = Failed e ->
     answered fallback_client_chat
       ("System Error: " +:+ llm_error +:+ ". Please check server logs.")).
Proof.
  intros Hmsg Hsid Hne Hw Htext Hcmd conversation1 history Hfail answered.
  assert (forall fallback reply,
            settled_reply (Failed llm_error)
              (fallback history CONVERSATIONAL_SYSTEM_PROMPT) = reply ->
            blank reply = false ->
            answered fallback reply) as Hany.
  { intros fallback reply Hreply Hb.
    destruct (send_message_failure_run CONVERSATIONAL_SYSTEM_PROMPT
                llm_client_chat fallback now d text sid llm_error conversation
                w Hmsg Hsid Hne Hw Htext Hcmd Hfail)
      as (w' & Hrun & Hcalls & Hsess).
    fold conversation1 in Hrun, Hcalls, Hsess.
    fold history in Hrun, Hcalls, Hsess.
    rewrite Hreply in Hrun, Hsess.
    exists w'. eexists. split; [exact Hrun|]. split; [exact Hcalls|].
    split; [exact Hsess|].
    by rewrite add_assistant_message_messages, Hb. }
  split; [|split].
  - intros draw. apply Hany; [reflexivity|apply blank_marked].
  - intros r Hr. apply Hany; [by rewrite Hr|apply blank_marked].
  - intros e He. apply Hany; [by rewrite He|apply blank_system_error].
Qed.

(** Witness of C6: "Done", sent to the greeted session, is answered as
    the explicit end answers it, with the transcript of the greeting
    and the closing message. *)
Lemma send_message_end_command_witness :
  (message_request "Done" "s1" !! "message" = Some (PStr "Done") /\
   message_request "Done" "s1" !! "session_id" = Some (PStr "s1") /\
   "s1" ≠ "" /\
   active_sessions one_session !! "s1" = Some greeted /\
   lower "Done" ∈ end_commands) /\
  exists w',
    send_message "" offline_chat (mock_chat 0) ticking
      (PDict (message_request "Done" "s1")) one_session
    = (Ok (Json200 (list_to_map
         [ ("success", PBool true);
           ("message",
             PStr "Thank you for your feedback. We are now analyzing your response.");
           ("transcript",
             PStr (join newline
               [ "Assistant: Hello! I'm here to listen about your healthcare experience today. What would you like to share?";
                 "Assistant: Thank you for your feedback. We are now analyzing your response." ]));
           ("is_active", PBool false);
           ("should_analyze", PBool true);
           ("session_id", PStr "s1") ])), w') /\
    end_conversational_session_internal ticking (PStr "s1") one_session
    = send_message "" offline_chat (mock_chat 0) ticking
        (PDict (message_request "Done" "s1")) one_session.
Proof.
  assert (lower "Done" ∈ end_commands) as Hcmd
    by (apply (bool_decide_unpack _); vm_compute; exact I).
  split; [by repeat split|].
  destruct (send_message_end_command "" offline_chat (mock_chat 0) ticking
              (message_request "Done" "s1") "Done" "s1" greeted one_session)
    as (Hrun & Hend & _);
    [reflexivity|reflexivity|discriminate|reflexivity|exact Hcmd|].
  eexists. split; [exact Hrun|]. by rewrite Hend, Hrun.
Defined.

(** Counterexample to C6 as stated: the end command moves the session
    to no ended state. After "Done" has been answered with
    [is_active = False], the session is still registered, the flag of
    its manager is still up, and the next message is appended and
    answered with [is_active = True] like any other. *)
Lemma end_command_leaves_session_open :
  exists ended w1 reply w2,
    send_message "" (mock_chat 0) (mock_chat 0) ticking
      (PDict (message_request "Done" "s1")) one_session
    = (Ok (Json200 ended), w1) /\
    ended !! "is_active" = Some (PBool false) /\
    is_active <$> active_sessions w1 !! "s1" = Some true /\
    send_message "" (mock_chat 0) (mock_chat 0) ticking
      (PDict (message_request "one more thing" "s1")) w1
    = (Ok (Json200 (list_to_map
         [ ("success", PBool true);
           ("message", PStr reply);
           ("is_active", PBool true);
           ("session_id", PStr "s1") ])), w2) /\
    get_history <$> active_sessions w2 !! "s1"
    = Some [ (assistant, greeting);
             (assistant, closing_msg);
             (user, "one more thing");
             (assistant, reply) ].
Proof.
  eexists _, _, _, _.
  split; [vm_compute; reflexivity|].
  split; [vm_compute; reflexivity|].
  split; [vm_compute; reflexivity|].
  split; [vm_compute; reflexivity|].
  vm_compute. reflexivity.
Qed.

(** Witness of C4: the hosted provider is out of reach, the patient
    writes to the greeted session, and the mock's reply is sent with the
    fallback marker after exactly one call of each client. *)
Lemma send_message_gateway_failure_witness :
  (strip " it was terrible " ≠ "" /\
   lower (strip " it was terrible ") ∉ end_commands) /\
  exists w',
    send_message "" offline_chat (mock_chat 0) ticking
      (PDict (message_request " it was terrible " "s1")) one_session
    = (Ok (Json200 (list_to_map
         [ ("success", PBool true);
           ("message",
             PStr "Hello! I'm here to hear about your healthcare visit today. How was your overall experience? [Note: System fallback engaged due to connection error]");
           ("is_active", PBool true);
           ("session_id", PStr "s1") ])), w') /\
    gateway_calls w'
    = [ PrimaryChat [(assistant, greeting); (user, "it was terrible")];
        FallbackChat [(assistant, greeting); (user, "it was terrible")] ].
Proof.
  assert (strip " it was terrible " ≠ "") as Htext by discriminate.
  assert (lower (strip " it was terrible ") ∉ end_commands) as Hcmd
    by (apply (proj1 (bool_decide_eq_false _)); vm_compute; reflexivity).
  split; [by split|].
  destruct (send_message_gateway_failure "" offline_chat (mock_chat 0) ticking
              (message_request " it was terrible " "s1")
              " it was terrible " "s1"
              "Anthropic API chat error: connection refused"
              greeted one_session)
    as (Hmock & _);
    [reflexivity|reflexivity|discriminate|reflexivity|exact Htext|exact Hcmd
    |reflexivity|].
  destruct (Hmock 0%nat) as (w' & conversation2 & Hrun & Hcalls & _).
  exists w'. split; [exact Hrun|exact Hcalls].
Defined.

End AppFacts.

(* ================================================================= *)
(** * More facts about the string built-ins *)

Module PyStrLaws.
Import PyStr PyStrFacts.

Lemma rstrip_rstrip (s : string) : rstrip (rstrip s) = rstrip s.
Proof.
  induction s as [|c r IH]; [reflexivity|]. simpl.
  destruct (negb (truthy (rstrip r)) && isspace c) eqn:Hc; [reflexivity|].
  simpl. rewrite IH, Hc. reflexivity.
Qed.

Lemma lstrip_head (s : string) :
  lstrip s = "" \/ exists c r, lstrip s = String c r /\ isspace c = false.
Proof.
  induction s as [|c r IH]; [by left|]. simpl.
  destruct (isspace c) eqn:Hc; [exact IH|]. right. by exists c, r.
Qed.

Lemma lstrip_strip (s : string) : lstrip (strip s) = strip s.
Proof.
  unfold strip. destruct (lstrip_head s) as [->|(c & r & -> & Hc)];
    [reflexivity|].
  simpl. rewrite Hc, andb_false_r. simpl. by rewrite Hc.
Qed.

Lemma strip_strip (s : string) : strip (strip s) = strip s.
Proof.
  unfold strip at 1. rewrite lstrip_strip. unfold strip.
  apply rstrip_rstrip.
Qed.







Lemma lower_app (a b : string) : lower (a +:+ b) = lower a +:+ lower b.
Proof.
  induction a as [|c r IH]; [reflexivity|].
  rewrite app_String. simpl. by rewrite IH, app_String.
Qed.

Lemma app_assoc (a b c : string) : (a +:+ b) +:+ c = a +:+ (b +:+ c).
Proof.
  induction a as [|x r IH]; [by rewrite !app_empty_l|].
  by rewrite !app_String, IH.
Qed.

(** A string without the character [d]. *)
Lemma without_cons (d c : ascii) (w : string) :
  contains (String d "") (String c w) = false ->
  c ≠ d /\ contains (String d "") w = false.
Proof.
  simpl. destruct (ascii_dec d c) as [->|Hne].
  - by destruct w.
  - intros Hw. split; [congruence|].
    destruct w; simpl in *; by rewrite ?orb_false_r in Hw.
Qed.

Lemma prefix_empty (s : string) : String.prefix "" s = true.
Proof. by destruct s. Qed.

(** An occurrence of [w] cannot run over a character that [w] lacks. *)
Lemma prefix_app_sep (d : ascii) (w x y : string) :
  contains (String d "") w = false ->
  String.prefix w (x +:+ String d y) = String.prefix w x.
Proof.
  revert x. induction w as [|a w IH]; intros x Hw.
  - by rewrite !prefix_empty.
  - apply without_cons in Hw as [Hne Hw].
    destruct x as [|b x].
    + rewrite app_empty_l. simpl. by destruct (ascii_dec a d).
    + rewrite app_String. simpl. destruct (ascii_dec a b); [|done].
      by apply IH.
Qed.

Lemma contains_app_sep (d : ascii) (w x y : string) :
  contains (String d "") w = false ->
  contains w (x +:+ String d y) = contains w x || contains w y.
Proof.
  intros Hw. induction x as [|c x IH].
  - rewrite app_empty_l.
    change (contains w (String d y))
      with (String.prefix w ("" +:+ String d y) || contains w y).
    rewrite prefix_app_sep by done.
    destruct w; simpl; by rewrite ?orb_false_r.
  - rewrite app_String.
    change (contains w (String c (x +:+ String d y)))
      with (String.prefix w (String c x +:+ String d y)
            || contains w (x +:+ String d y)).
    rewrite prefix_app_sep, IH by done.
    change (contains w (String c x))
      with (String.prefix w (String c x) || contains w x).
    by rewrite orb_assoc.
Qed.

Lemma rev_app_app (s t : string) :
  String.rev_app s t = String.rev s +:+ t.
Proof.
  unfold String.rev. revert t.
  induction s as [|c r IH]; intros t; [by rewrite app_empty_l|].
  simpl. rewrite (IH (String c "")), IH, app_assoc.
  by rewrite app_String, app_empty_l.
Qed.

Lemma rev_String (c : ascii) (r : string) :
  String.rev (String c r) = String.rev r +:+ String c "".
Proof. unfold String.rev at 1. simpl. apply rev_app_app. Qed.

Lemma rev_app (a b : string) :
  String.rev (a +:+ b) = String.rev b +:+ String.rev a.
Proof.
  induction a as [|c r IH]; [by rewrite app_empty_l, app_empty_r|].
  by rewrite app_String, !rev_String, IH, app_assoc.
Qed.

Lemma rev_rev (s : string) : String.rev (String.rev s) = s.
Proof.
  induction s as [|c r IH]; [reflexivity|].
  by rewrite rev_String, rev_app, IH.
Qed.

Lemma prefix_app (p s : string) : String.prefix p (p +:+ s) = true.
Proof.
  induction p as [|c r IH]; [apply prefix_empty|].
  rewrite app_String. simpl. by destruct (ascii_dec c c).
Qed.

Lemma drop_front_app (p s : string) :
  drop_front (String.length p) (p +:+ s) = s.
Proof.
  induction p as [|c r IH]; [by rewrite app_empty_l|].
  by rewrite app_String.
Qed.

Lemma startswith_app (p s : string) : startswith p (p +:+ s) = true.
Proof. apply prefix_app. Qed.

Lemma endswith_app (s p : string) : endswith p (s +:+ p) = true.
Proof. unfold endswith. rewrite rev_app. apply prefix_app. Qed.

Lemma length_rev (s : string) :
  String.length (String.rev s) = String.length s.
Proof.
  induction s as [|c r IH]; [reflexivity|].
  rewrite rev_String. simpl. rewrite <- IH.
  generalize (String.rev r). intros t.
  induction t as [|x t IHt]; [reflexivity|].
  rewrite app_String. simpl. by rewrite IHt.
Qed.

Lemma drop_back_app (s p : string) :
  drop_back (String.length p) (s +:+ p) = s.
Proof.
  unfold drop_back. rewrite rev_app, <- (length_rev p), drop_front_app.
  apply rev_rev.
Qed.

End PyStrLaws.

(* ================================================================= *)
(** * More facts about feedback_analyzer.py *)

Module AnalyzerLaws.
Import PyStr PyStrFacts PyStrLaws FeedbackAnalyzer AnalyzerFacts.

Section WithBuiltins.

Variable float_of_str : string -> option spec_float.
Variable repr : pyval -> result string.

Local Abbreviation validate_score := (validate_score float_of_str).
Local Abbreviation validate_radar_metrics :=
  (validate_radar_metrics float_of_str).
Local Abbreviation clean_text := (clean_text repr).
Local Abbreviation validate_confidence := (validate_confidence repr).
Local Abbreviation process_llm_output := (process_llm_output float_of_str repr).

(** X1: [validate_score] raises nothing but [OverflowError]; when the
    bounds are in order its result lies between them; a value that is no
    number at all ([None], a list, a dict, a NaN, a string [float]
    rejects) gives the midpoint of the bounds; an integer from 1 to 5 is
    returned as it is. *)
Theorem validate_score_outcomes (score : pyval) (lo hi : Z) :
  (forall e, validate_score score lo hi = Raise e -> e = OverflowError) /\
  (lo <= hi ->
   forall z, validate_score score lo hi = Ok z -> lo <= z <= hi) /\
  (score = PNone \/ (exists l, score = PList l) \/ (exists d, score = PDict d)
   \/ score = PFloat S754_nan
   \/ (exists s, score = PStr s /\ float_of_str s = None) ->
   validate_score score lo hi = Ok ((lo + hi) `div` 2)) /\
  (forall z, score = PInt z -> 1 <= z <= 5 ->
             validate_score score 1 5 = Ok z).
Proof.
  split; [intros e; apply validate_score_raises|].
  split; [intros Hle z; by apply validate_score_range|].
  split.
  - intros [->|[[l ->]|[[d ->]|[->|(s & -> & Hs)]]]]; try reflexivity.
    unfold FeedbackAnalyzer.validate_score. simpl. by rewrite Hs.
  - intros z -> Hz. by apply validate_score_fixed.
Qed.


(** X3: when [clean_text] returns, the text is a list of words, none
    empty and none holding a blank, joined by single spaces; so it has no
    blank at either end, and cleaning it again changes nothing. It
    raises only what [str] raises on its argument, as on an [int] of more
    than 4300 digits; a string never makes it raise. *)
Theorem clean_text_normal_form (text : pyval) :
  match clean_text text with
  | Ok t =>
      (exists ws, Forall word ws /\ t = join " " ws) /\
      strip t = t /\
      clean_text (PStr t) = Ok t
  | Raise e => text ≠ PNone /\ py_str repr text = Raise e
  end /\
  (forall s, clean_text (PStr s) = Ok (squeeze s)) /\
  clean_text PNone = Ok "" /\
  (forall n, str_digits_bound <= Z.abs n ->
             clean_text (PInt n) = Raise ValueError) /\
  clean_text (PInt (10 ^ 4300)) = Raise ValueError.
Proof.
  split.
  { destruct (clean_text text) as [t|e] eqn:Ht.
    - assert (exists ws, Forall word ws /\ t = join " " ws)
        as (ws & Hws & Heq).
      { apply clean_text_returns in Ht as [[_ ->]|(s & _ & ->)].
        - by exists [].
        - eexists. split; [apply split_ws_words|reflexivity]. }
      split; [by exists ws|]. split.
      + rewrite Heq. by apply strip_join.
      + rewrite clean_text_str. f_equal. by apply (clean_text_fixed repr text).
    - split; [by intros ->|]. by apply clean_text_raises. }
  split; [reflexivity|]. split; [reflexivity|].
  split.
  - intros n Hn. apply clean_text_unprintable. by apply str_of_int_too_long.
  - apply clean_text_unprintable, str_of_int_too_long, bound_too_long.
Qed.

Lemma radar_loop_raises (keys : list string) (d : gmap string pyval)
    (acc : gmap string Z) (e : exn) :
  radar_loop float_of_str keys d acc = Raise e -> e = OverflowError.
Proof.
  revert acc. induction keys as [|k keys IH]; intros acc; [done|].
  simpl.
  destruct (validate_score (dict_get d k (PInt 3)) 1 5) as [v|e'] eqn:Hv;
    simpl.
  - apply IH.
  - intros [= <-]. by apply validate_score_raises in Hv.
Qed.

(** X4: [validate_radar_metrics] either returns scores for exactly the
    five axes, each from 1 to 5, or raises [OverflowError]; anything that
    is not a dict gives the five defaults. *)
Theorem validate_radar_metrics_outcomes (metrics : pyval) :
  match validate_radar_metrics metrics with
  | Ok m =>
      dom m = radar_axes /\ forall k v, m !! k = Some v -> 1 <= v <= 5
  | Raise e => e = OverflowError
  end /\
  ((forall d, metrics ≠ PDict d) ->
   validate_radar_metrics metrics = Ok default_metrics).
Proof.
  split.
  - destruct (validate_radar_metrics metrics) as [m|e] eqn:Hm.
    + apply validate_radar_metrics_returned in Hm as (Hdom & Hrange & _).
      by split.
    + destruct metrics; try discriminate Hm.
      by apply radar_loop_raises in Hm.
  - intros Hnd. destruct metrics; try reflexivity. by destruct (Hnd d).
Qed.

(** The confidence is printed before it is judged: when [str] raises on
    it and the two fields read before it are missing, the exception
    leaves [process_llm_output]. *)
Lemma process_llm_output_unprintable (d : gmap string pyval) (v : pyval)
    (e : exn) :
  d !! "satisfaction_score" = None ->
  d !! "radar_metrics" = None ->
  d !! "confidence_in_treatment" = Some v ->
  py_str repr v = Raise e ->
  process_llm_output (PDict d) = Raise e.
Proof.
  intros Hs Hm Hc He. unfold FeedbackAnalyzer.process_llm_output, dict_get.
  rewrite Hs, Hm, Hc. unfold default, id.
  rewrite validate_score_fixed by lia. cbn [mbind result_bind].
  assert (validate_radar_metrics (PDict ∅) = Ok default_metrics) as ->
    by (vm_compute; reflexivity).
  cbn [mbind result_bind].
  by rewrite (validate_confidence_unprintable repr v e He).
Qed.

(** X5: [process_llm_output] either returns a record that meets every
    invariant of a rating record, or raises: the [OverflowError] of a
    score, or what [str] raises on the confidence or on one of the first
    five bullets of a list, as the [ValueError] of an [int] of more than
    4300 digits. A reply that is not a dict is read as an empty one and
    gives the default record. *)
Theorem process_llm_output_outcomes (raw : pyval) :
  match process_llm_output raw with
  | Ok r => valid_record r
  | Raise e =>
      e = OverflowError \/
      exists d v,
        raw = PDict d /\
        (d !! "confidence_in_treatment" = Some v \/
         exists l, d !! "summary_bullets" = Some (PList l) /\ v ∈ take 5 l) /\
        py_str repr v = Raise e
  end /\
  ((forall d, raw ≠ PDict d) -> process_llm_output raw = Ok default_record) /\
  process_llm_output (PDict {[ "confidence_in_treatment" := PInt (10 ^ 4300) ]})
  = Raise ValueError.
Proof.
  split; [|split].
  - destruct (process_llm_output raw) as [r|e] eqn:Hr.
    + by apply process_llm_output_valid in Hr.
    + by apply process_llm_output_raises in Hr.
  - intros Hnd.
    destruct raw as [| | | | | |d]; [..|by destruct (Hnd d)];
      exact (AnalysisFacts.process_empty_dict float_of_str repr).
  - apply (process_llm_output_unprintable _ (PInt (10 ^ 4300))).
    + by apply lookup_singleton_ne.
    + by apply lookup_singleton_ne.
    + apply lookup_singleton_eq.
    + apply str_of_int_too_long, bound_too_long.
Qed.

End WithBuiltins.

End AnalyzerLaws.

(* ================================================================= *)
(** * More facts about conversation.py *)

Module ConversationLaws.
Import PyStr PyStrFacts PyStrLaws Conversation ConversationFacts.

(** What every stored message satisfies. *)
Lemma appended_trimmed (op : append_op) (m : message) :
  appended op = Some m ->
  strip (msg_content m) = msg_content m /\
  (conversational m = true -> msg_content m ≠ "").
Proof.
  destruct op as [content stamp now|content stamp now|content stamp]; simpl.
  - destruct (blank content) eqn:Hb; [done|]. intros [= <-]. simpl.
    split; [apply strip_strip|]. intros _ He.
    apply blank_strip in He. congruence.
  - destruct (blank content) eqn:Hb; [done|]. intros [= <-]. simpl.
    split; [apply strip_strip|]. intros _ He.
    apply blank_strip in He. congruence.
  - intros [= <-]. simpl. split; [apply strip_strip|done].
Qed.

(** X6: in a manager that started empty, every stored message has its
    content trimmed, and the content of every user or assistant message
    is not empty, whatever calls were made. *)
Theorem stored_content_trimmed (sid : option string) (t1 t2 : time)
    (ops : list append_op) :
  Forall (fun m => strip (msg_content m) = msg_content m /\
                   (conversational m = true -> msg_content m ≠ ""))
         (messages (run_ops (__init__ sid t1 t2) ops)).
Proof.
  pose proof (run_ops_suffix (__init__ sid t1 t2) ops) as [dropped Hs].
  simpl in Hs.
  assert (Forall (fun m => strip (msg_content m) = msg_content m /\
                           (conversational m = true -> msg_content m ≠ ""))
                 (all_appended ops)) as Hall.
  { apply Forall_forall. intros m Hm. unfold all_appended in Hm.
    apply list_elem_of_omap in Hm as (op & _ & Hop).
    by apply appended_trimmed in Hop. }
  rewrite Hs in Hall. by apply Forall_app in Hall as [_ Hall].
Qed.

Lemma filter_conversational_length (ms : list message) :
  length (filter (fun m => conversational m) ms)
  = (length (filter (fun m => msg_role m = user) ms)
     + length (filter (fun m => msg_role m = assistant) ms))%nat.
Proof.
  induction ms as [|[r c t] ms IH]; [reflexivity|].
  destruct r.
  - rewrite (filter_cons_True (fun m => conversational m)) by done.
    rewrite (filter_cons_True (fun m => msg_role m = user)) by done.
    rewrite (filter_cons_False (fun m => msg_role m = assistant)) by done.
    simpl. by rewrite IH.
  - rewrite (filter_cons_True (fun m => conversational m)) by done.
    rewrite (filter_cons_False (fun m => msg_role m = user)) by done.
    rewrite (filter_cons_True (fun m => msg_role m = assistant)) by done.
    simpl. rewrite IH. lia.
  - rewrite (filter_cons_False (fun m => conversational m)) by (by intros ?).
    rewrite (filter_cons_False (fun m => msg_role m = user)) by done.
    by rewrite (filter_cons_False (fun m => msg_role m = assistant)) by done.
Qed.

(** X7: the counts of [get_message_count] add up: [total] is the number
    of entries [get_history] returns, so system messages are not counted
    and [total] may be less than [len(self)]; in a manager that started
    empty it never exceeds 50. *)
Theorem get_message_count_total (self : ConversationManager) :
  let counts := get_message_count self in
  let total := Z.of_nat (length (get_history self)) in
  counts !! "user" = Some (count_role user (messages self)) /\
  counts !! "assistant" = Some (count_role assistant (messages self)) /\
  counts !! "total" = Some total /\
  total <= Z.of_nat (__len__ self) /\
  (forall sid t1 t2 ops,
     self = run_ops (__init__ sid t1 t2) ops ->
     total <= Z.of_nat MAX_HISTORY_LENGTH).
Proof.
  simpl.
  assert (count_role user (messages self)
          + count_role assistant (messages self)
          = Z.of_nat (length (get_history self))) as Hsum.
  { unfold count_role, get_history.
    rewrite length_fmap, filter_conversational_length. lia. }
  split; [reflexivity|]. split; [reflexivity|].
  split; [|split].
  - unfold get_message_count. rewrite <- Hsum. reflexivity.
  - pose proof (get_history_length self). unfold __len__. lia.
  - intros sid t1 t2 ops ->.
    pose proof (run_ops_history_bound (__init__ sid t1 t2) ops) as Hb.
    apply inj_le, Hb. simpl. unfold MAX_HISTORY_LENGTH. lia.
Qed.

Lemma filter_none {A} (P : A -> Prop) `{!forall x, Decision (P x)}
    (l : list A) :
  Forall (fun x => ~ P x) l -> filter P l = [].
Proof.
  induction 1 as [|x l Hx _ IH]; [reflexivity|].
  by rewrite filter_cons_False.
Qed.

Lemma transcript_line_history (m : message) :
  transcript_line m = history_line (msg_role m, msg_content m).
Proof. by destruct m as [[] c t]. Qed.

(** X8: the transcript is the rendering, one line per entry, of what
    [get_history] returns: system messages and timestamps never reach
    it, and a buffer holding system messages only gives the empty
    transcript. *)
Theorem transcript_from_history (self : ConversationManager) :
  get_conversation_transcript self
  = join newline (history_line <$> get_history self) /\
  (Forall (fun m => msg_role m = system) (messages self) ->
   get_conversation_transcript self = "").
Proof.
  assert (get_conversation_transcript self
          = join newline (history_line <$> get_history self)) as Heq.
  { unfold get_conversation_transcript, get_history.
    assert (filter (fun msg => negb (bool_decide (msg_role msg = system)))
                   (messages self)
            = filter (fun msg => conversational msg) (messages self)) as ->.
    { apply list_filter_iff. intros [[] c t]; by cbv. }
    rewrite <- list_fmap_compose.
    by destruct (messages self). }
  split; [exact Heq|]. intros Hsys. rewrite Heq. unfold get_history.
  rewrite (filter_none (fun msg => conversational msg)); [reflexivity|].
  eapply Forall_impl; [exact Hsys|]. intros m Hm. unfold conversational.
  rewrite Hm. by intros ?.
Qed.

Lemma find_reverse_snoc {A} (f : A -> bool) (l : list A) (x : A) :
  List.find f (reverse (l ++ [x]))
  = if f x then Some x else List.find f (reverse l).
Proof. by rewrite reverse_snoc. Qed.

Lemma find_reverse_last_filter {A} (f : A -> bool) (l : list A) :
  List.find f (reverse l) = last (filter (fun x => f x) l).
Proof.
  induction l as [|x l IH] using rev_ind; [reflexivity|].
  rewrite find_reverse_snoc, filter_app, IH.
  destruct (f x) eqn:Hx.
  - rewrite (filter_cons_True (fun x => f x)) by by apply Is_true_true.
    by rewrite filter_nil, last_snoc.
  - rewrite (filter_cons_False (fun x => f x)) by by apply Is_true_false.
    by rewrite filter_nil, app_nil_r.
Qed.

(** X9: [get_last_message(role)] is the last stored message with that
    role, system messages included, and [None] when there is none; with
    no role, or with the empty string for it, it is the last stored
    message; a role no message can have gives [None]. *)
Theorem get_last_message_last (self : ConversationManager) (r : string) :
  get_last_message self None = last (messages self) /\
  get_last_message self (Some "") = last (messages self) /\
  (r ≠ "" ->
   get_last_message self (Some r)
   = last (filter (fun m => role_name (msg_role m) = r) (messages self))) /\
  (r ∉ ["user"; "assistant"; "system"] ->
   r ≠ "" -> get_last_message self (Some r) = None).
Proof.
  assert (r ≠ "" ->
          get_last_message self (Some r)
          = last (filter (fun m => role_name (msg_role m) = r)
                         (messages self))) as Hr.
  { intros Hne. unfold get_last_message.
    destruct (messages self) as [|m ms] eqn:Hms; [reflexivity|].
    simpl from_option. apply truthy_true in Hne. rewrite Hne.
    rewrite find_reverse_last_filter. f_equal.
    apply list_filter_iff. intros x. rewrite bool_decide_spec.
    split; [by intros [= ->]|by intros ->]. }
  split; [|split; [|split]].
  - unfold get_last_message. by destruct (messages self).
  - unfold get_last_message. by destruct (messages self).
  - exact Hr.
  - intros Hnot Hne. rewrite Hr by done.
    rewrite filter_none; [reflexivity|].
    apply Forall_forall. intros m _ Hm. apply Hnot. rewrite <- Hm.
    destruct (msg_role m); simpl; rewrite !elem_of_cons; auto.
Qed.

Lemma apply_op_last_activity (self : ConversationManager) (op : append_op) :
  last_activity (apply_op self op) = last_activity self \/
  last_activity (apply_op self op) ∈ op_readings op.
Proof.
  destruct op as [content stamp now|content stamp now|content stamp]; simpl.
  - destruct (blank content) eqn:Hb.
    + left. by rewrite add_user_message_blank.
    + right. destruct (add_user_message_appends self content stamp now Hb)
        as [_ ->]. rewrite !elem_of_cons. auto.
  - destruct (blank content) eqn:Hb.
    + left. by rewrite add_assistant_message_blank.
    + right.
      destruct (add_assistant_message_appends self content stamp now Hb)
        as [_ ->]. rewrite !elem_of_cons. auto.
  - by left.
Qed.

Lemma apply_op_created_at (self : ConversationManager) (op : append_op) :
  created_at (apply_op self op) = created_at self.
Proof.
  destruct op as [content stamp now|content stamp now|content stamp]; simpl.
  - unfold add_user_message. destruct (blank content); [done|].
    unfold _enforce_max_length. by case_bool_decide.
  - unfold add_assistant_message. destruct (blank content); [done|].
    unfold _enforce_max_length. by case_bool_decide.
  - reflexivity.
Qed.

Lemma run_ops_clock (self : ConversationManager) (ops : list append_op) :
  created_at (run_ops self ops) = created_at self /\
  (last_activity (run_ops self ops) = last_activity self \/
   last_activity (run_ops self ops) ∈ concat (op_readings <$> ops)).
Proof.
  revert self. induction ops as [|op ops IH]; intros self; [split; [done|by left]|].
  change (run_ops self (op :: ops)) with (run_ops (apply_op self op) ops).
  destruct (IH (apply_op self op)) as [Hc Ha].
  rewrite Hc, apply_op_created_at. split; [reflexivity|].
  rewrite fmap_cons. simpl concat. rewrite elem_of_app.
  destruct Ha as [->|Ha]; [|by right; right].
  destruct (apply_op_last_activity self op) as [->|Hin]; [by left|].
  right. by left.
Qed.

(** X10: if no clock reading taken after the creation of a manager is
    earlier than its creation time, then [get_session_duration] is never
    negative, whatever calls were made. *)
Theorem session_duration_nonneg (sid : option string) (t1 t2 : time)
    (ops : list append_op) :
  Forall (fun t => t1 <= t) (t2 :: concat (op_readings <$> ops)) ->
  0 <= get_session_duration (run_ops (__init__ sid t1 t2) ops).
Proof.
  intros [H2 Hops]%Forall_cons. unfold get_session_duration.
  destruct (run_ops_clock (__init__ sid t1 t2) ops) as [-> Ha]. simpl in *.
  destruct Ha as [->|Hin]; [lia|].
  rewrite Forall_forall in Hops. specialize (Hops _ Hin). lia.
Qed.

(** Witness of X10: one user message, stamped after the creation. *)
Lemma session_duration_nonneg_witness :
  Forall (fun t => 10 <= t) (10 :: concat (op_readings <$> [AddUser "hi" 11 12]))
  /\ 0 <= get_session_duration
            (run_ops (__init__ None 10 10) [AddUser "hi" 11 12]).
Proof.
  assert (Forall (fun t => 10 <= t)
            (10 :: concat (op_readings <$> [AddUser "hi" 11 12]))) as H.
  { repeat constructor; vm_compute; discriminate. }
  split; [exact H|]. exact (session_duration_nonneg None 10 10 _ H).
Defined.

Lemma apply_op_same_messages (s1 s2 : ConversationManager) (op : append_op) :
  messages s1 = messages s2 ->
  messages (apply_op s1 op) = messages (apply_op s2 op).
Proof.
  intros Heq.
  destruct op as [content stamp now|content stamp now|content stamp]; simpl.
  - destruct (blank content) eqn:Hb.
    + by rewrite !add_user_message_blank.
    + destruct (add_user_message_appends s1 content stamp now Hb) as [-> _].
      destruct (add_user_message_appends s2 content stamp now Hb) as [-> _].
      by rewrite Heq.
  - destruct (blank content) eqn:Hb.
    + by rewrite !add_assistant_message_blank.
    + destruct (add_assistant_message_appends s1 content stamp now Hb)
        as [-> _].
      destruct (add_assistant_message_appends s2 content stamp now Hb)
        as [-> _].
      by rewrite Heq.
  - by rewrite Heq.
Qed.

Lemma apply_op_is_active (self : ConversationManager) (op : append_op) :
  is_active (apply_op self op) = is_active self.
Proof.
  destruct op as [content stamp now|content stamp now|content stamp]; simpl.
  - unfold add_user_message. destruct (blank content); [done|].
    unfold _enforce_max_length. by case_bool_decide.
  - unfold add_assistant_message. destruct (blank content); [done|].
    unfold _enforce_max_length. by case_bool_decide.
  - reflexivity.
Qed.

Lemma run_ops_is_active (self : ConversationManager) (ops : list append_op) :
  is_active (run_ops self ops) = is_active self.
Proof.
  revert self. induction ops as [|op ops IH]; intros self; [done|].
  change (run_ops self (op :: ops)) with (run_ops (apply_op self op) ops).
  by rewrite IH, apply_op_is_active.
Qed.

(** X11: [end_session] lowers the flag [is_active] and refreshes
    [last_activity], and that is all: the appending methods never look
    at the flag, so the calls made after the end of a session store
    exactly what they would have stored without it, and the flag stays
    down. *)
Theorem end_session_does_not_close (self : ConversationManager) (now : time)
    (ops : list append_op) :
  messages (run_ops (end_session self now) ops) = messages (run_ops self ops)
  /\ is_active (run_ops (end_session self now) ops) = false
  /\ last_activity (end_session self now) = now
  /\ messages (end_session self now) = messages self
  /\ created_at (end_session self now) = created_at self
  /\ session_id (end_session self now) = session_id self.
Proof.
  assert (forall s1 s2,
            messages s1 = messages s2 ->
            messages (run_ops s1 ops) = messages (run_ops s2 ops)) as Hm.
  { induction ops as [|op ops IH]; intros s1 s2 Heq; [done|].
    apply IH. by apply apply_op_same_messages. }
  split; [by apply Hm|]. split; [by rewrite run_ops_is_active|done].
Qed.

End ConversationLaws.

(* ================================================================= *)
(** * More facts about llm_client.py and prompts.py *)

Module ClientLaws.
Import PyStr PyStrFacts PyStrLaws FeedbackAnalyzer AnalyzerFacts.
Import Conversation MockProvider LLMClient AnalysisFacts MockFacts Prompts.

(** X12: a reply wrapped in a code fence - [```json] in front, [```]
    behind - reaches [json.loads] as the text between the two, whatever
    that text is. *)
Theorem strip_code_fence_fenced (body : string) :
  strip_code_fence ("```json" +:+ body +:+ "```") = body.
Proof.
  unfold strip_code_fence.
  assert (strip ("```json" +:+ body +:+ "```")
          = "```json" +:+ body +:+ "```") as ->.
  { unfold strip.
    change (lstrip ("```json" +:+ body +:+ "```"))
      with ("```json" +:+ body +:+ "```").
    rewrite <- app_assoc. by rewrite rstrip_app. }
  rewrite startswith_app.
  change 7%nat with (String.length "```json") at 1.
  rewrite drop_front_app, endswith_app.
  change 3%nat with (String.length "```").
  apply drop_back_app.
Qed.

Section WithInterpreter.

Variable json_loads : string -> result pyval.
Variable float_of_str : string -> option spec_float.
Variable repr : pyval -> result string.

Local Abbreviation analyze_and_process :=
  (analyze_and_process json_loads float_of_str repr).
Local Abbreviation process_llm_output := (process_llm_output float_of_str repr).

(** X13: when the provider fails, or [json.loads] raises anything on its
    reply, the analysis gives the default record: the note of the
    parse-failure reply and the empty dict both turn into it. *)
Theorem analyze_and_process_defaults (provider_result : provider_outcome) :
  (exists msg, provider_result = Failed msg) \/
  (exists text e, provider_result = Returned text /\
                  json_loads (strip_code_fence text) = Raise e) ->
  analyze_and_process provider_result = Ok default_record.
Proof.
  intros [[msg ->]|(text & e & -> & He)].
  - apply analyze_and_process_gateway_error.
  - by apply analyze_and_process_loads_error with e.
Qed.

Lemma analysis_document_cases (conversation : string) :
  analysis_document conversation
    ∈ [negative_analysis; positive_analysis; rude_analysis; neutral_analysis].
Proof.
  unfold analysis_document. rewrite !elem_of_cons.
  repeat (match goal with |- context [if ?b then _ else _] => destruct b end);
    auto 6.
Qed.

(** X14: whatever the conversation, the document the mock provider
    writes is already a valid rating record, and [process_llm_output]
    returns it unchanged. *)
Theorem analysis_document_normalised (conversation : string) :
  process_llm_output (analysis_document conversation)
  = Ok (analysis_document conversation) /\
  valid_record (analysis_document conversation).
Proof.
  assert (process_llm_output (analysis_document conversation)
          = Ok (analysis_document conversation)) as Heq.
  { pose proof (analysis_document_cases conversation) as Hc.
    rewrite !elem_of_cons, elem_of_nil in Hc.
    destruct Hc as [->|[->|[->|[->|[]]]]]; vm_compute; reflexivity. }
  split; [exact Heq|]. by apply process_llm_output_valid in Heq.
Qed.

End WithInterpreter.

(** Witness of X13: a reply that is not JSON. *)
Lemma analyze_and_process_defaults_witness :
  loads_overflowing_reply (strip_code_fence "not json") = Raise JSONDecodeError
  /\ analyze_and_process loads_overflowing_reply no_float no_repr
       (Returned "not json") = Ok default_record.
Proof.
  assert (loads_overflowing_reply (strip_code_fence "not json")
          = Raise JSONDecodeError) as Hloads by (vm_compute; reflexivity).
  split; [exact Hloads|].
  apply analyze_and_process_defaults. right.
  by exists "not json", JSONDecodeError.
Defined.

Lemma lower_newline : lower newline = newline.
Proof. reflexivity. Qed.

(** A keyword without a line break occurs in the wrapped transcript
    where it occurs in the wrapper's two lines or in the transcript. *)
Lemma contains_user_message (w transcript : string) :
  contains newline w = false ->
  contains w (lower (get_user_message transcript))
  = contains w (lower "Now analyze this conversation:")
    || contains w (lower transcript)
    || contains w (lower "Output the JSON response:")
    || contains w "".
Proof.
  intros Hw. unfold get_user_message.
  rewrite !lower_app, lower_newline. unfold newline in *.
  rewrite !app_String, !app_empty_l.
  rewrite (contains_app_sep _ _ _ _ Hw).
  rewrite <- (app_empty_l (String "010" (lower transcript +:+ _))).
  rewrite (contains_app_sep _ _ _ _ Hw).
  rewrite (contains_app_sep _ _ _ _ Hw).
  rewrite <- (app_empty_l
                (String "010" (lower "Output the JSON response:"))).
  rewrite (contains_app_sep _ _ _ _ Hw).
  destruct (contains w "") eqn:He;
    destruct (contains w (lower "Now analyze this conversation:"));
    destruct (contains w (lower transcript));
    destruct (contains w (lower "Output the JSON response:")); reflexivity.
Qed.

Lemma any_in_user_message (ws : list string) (transcript : string) :
  Forall (fun w => contains newline w = false
                   /\ contains w (lower "Now analyze this conversation:")
                      = false
                   /\ contains w (lower "Output the JSON response:") = false
                   /\ contains w "" = false) ws ->
  any_in ws (lower (get_user_message transcript))
  = any_in ws (lower transcript).
Proof.
  unfold any_in. induction 1 as [|w ws (Hnl & Ha & Hb & He) _ IH];
    [reflexivity|].
  cbn [existsb]. rewrite IH, (contains_user_message _ _ Hnl), Ha, Hb, He.
  by rewrite !orb_false_r.
Qed.

(** X15: the two lines [get_user_message] puts around the transcript
    hold none of the mock provider's keywords, so the mock analysis of
    the wrapped transcript is its analysis of the transcript. *)
Theorem analysis_ignores_wrapper (transcript : string) :
  analysis_document (get_user_message transcript)
  = analysis_document transcript.
Proof.
  unfold analysis_document.
  rewrite !any_in_user_message; [reflexivity|..];
    repeat (apply Forall_cons; split;
            [repeat split; vm_compute; reflexivity|]);
    exact (Forall_nil_2 _).
Qed.

Lemma random_choice_Forall (P : string -> Prop) (draw : nat)
    (xs : list string) :
  xs ≠ [] -> Forall P xs -> P (random_choice draw xs).
Proof.
  intros Hne Hall. rewrite Forall_forall in Hall.
  by apply Hall, random_choice_elem.
Qed.

(** X16: the mock chat never answers with an empty or blank text, and
    its answer has no blank at either end: the text it returns is the
    text the buffer stores. *)
Theorem chat_completion_never_blank (draw : nat)
    (messages : list (role * string)) (system_prompt : string) :
  blank (chat_completion draw messages system_prompt) = false /\
  strip (chat_completion draw messages system_prompt)
  = chat_completion draw messages system_prompt.
Proof.
  unfold chat_completion, defaults.
  repeat match goal with
         | |- context [if ?b then _ else _] => destruct b
         end;
    first [ apply (random_choice_Forall
                     (fun s => blank s = false /\ strip s = s));
            [done|repeat (apply Forall_cons_2;
                          [split; vm_compute; reflexivity|]);
                  exact (Forall_nil_2 _)]
          | split; vm_compute; reflexivity ].
Qed.

End ClientLaws.

(* ================================================================= *)
(** * More facts about app.py *)

Module AppLaws.
Import PyStr PyStrFacts PyStrLaws Conversation ConversationFacts.
Import LLMClient App AppFacts.

Section WithServer.

Variable CONVERSATIONAL_SYSTEM_PROMPT : string.
Variable llm_client_chat : list (role * string) -> string -> provider_outcome.
Variable fallback_client_chat :
  list (role * string) -> string -> provider_outcome.
Variable now : nat -> time.

Local Abbreviation session_add_user_message :=
  (session_add_user_message now).
Local Abbreviation session_add_assistant_message :=
  (session_add_assistant_message now).
Local Abbreviation end_conversational_session_internal :=
  (end_conversational_session_internal now).
Local Abbreviation end_conversational_session :=
  (end_conversational_session now).
Local Abbreviation generate_response :=
  (generate_response CONVERSATIONAL_SYSTEM_PROMPT llm_client_chat
     fallback_client_chat).
Local Abbreviation send_message :=
  (send_message CONVERSATIONAL_SYSTEM_PROMPT llm_client_chat
     fallback_client_chat now).
Local Abbreviation start_conversational_session :=
  (start_conversational_session now).

Lemma find_session_cases (session_id : pyval) (w : world) :
  find_session session_id w = (Ok None, w) \/
  find_session session_id w = (Raise TypeError, w) \/
  exists sid conversation,
    session_id = PStr sid /\ sid ≠ "" /\
    active_sessions w !! sid = Some conversation /\
    find_session session_id w = (Ok (Some sid), w).
Proof.
  unfold find_session.
  destruct (negb (truth session_id)) eqn:Ht; [by left|].
  destruct session_id as [| | | |sid| |]; auto.
  case_bool_decide as Hs; [|by left].
  destruct Hs as [conversation Hs]. right. right.
  exists sid, conversation. repeat split; try done.
  simpl in Ht. apply negb_false_iff in Ht. by apply truthy_true.
Qed.

Lemma session_add_assistant_message_sessions (sid content : string)
    (conversation : ConversationManager) (w : world) :
  active_sessions w !! sid = Some conversation ->
  exists w',
    session_add_assistant_message sid content w = (Ok tt, w') /\
    active_sessions w'
    = <[sid := add_assistant_message conversation content
                 (now (clock_reads w)) (now (S (clock_reads w)))]>
        (active_sessions w) /\
    gateway_calls w' = gateway_calls w.
Proof.
  intros Hw. destruct (blank content) eqn:Hb.
  - exists w. unfold App.session_add_assistant_message, bind, get_session, ret.
    rewrite Hw, Hb. split; [done|]. split; [|done].
    rewrite add_assistant_message_blank by done. by rewrite insert_id.
  - rewrite (session_add_assistant_message_run now sid content conversation)
      by done.
    eexists. by split.
Qed.

Lemma generate_response_run (sid : string)
    (conversation : ConversationManager) (w : world) :
  active_sessions w !! sid = Some conversation ->
  let history := get_history conversation in
  let primary := llm_client_chat history CONVERSATIONAL_SYSTEM_PROMPT in
  let fallback := fallback_client_chat history CONVERSATIONAL_SYSTEM_PROMPT in
  generate_response sid w
  = (Ok (settled_reply primary fallback),
     World (active_sessions w)
           (gateway_calls w ++ calls_for primary history)
           (clock_reads w)).
Proof.
  intros Hw history primary fallback.
  destruct primary as [r|llm_error] eqn:Hp.
  - unfold App.generate_response, bind.
    rewrite (chat_via_run CONVERSATIONAL_SYSTEM_PROMPT _ _ sid conversation)
      by done.
    fold history. fold primary. by rewrite Hp.
  - by rewrite (generate_response_failure CONVERSATIONAL_SYSTEM_PROMPT
                  llm_client_chat fallback_client_chat sid llm_error
                  conversation w Hw Hp).
Qed.

(** A message that is neither empty nor an end command, sent to an
    active session: what the route returns and the state it leaves. *)
Lemma send_message_run (d : gmap string pyval) (text sid : string)
    (conversation : ConversationManager) (w : world) :
  d !! "message" = Some (PStr text) ->
  d !! "session_id" = Some (PStr sid) ->
  sid ≠ "" ->
  active_sessions w !! sid = Some conversation ->
  strip text ≠ "" ->
  lower (strip text) ∉ end_commands ->
  let conversation1 :=
    add_user_message conversation (strip text)
      (now (clock_reads w)) (now (S (clock_reads w))) in
  let history := get_history conversation1 in
  let primary := llm_client_chat history CONVERSATIONAL_SYSTEM_PROMPT in
  let fallback := fallback_client_chat history CONVERSATIONAL_SYSTEM_PROMPT in
  let reply := settled_reply primary fallback in
  exists w',
    send_message (PDict d) w
      = (Ok (Json200 (list_to_map
           [ ("success", PBool true);
             ("message", PStr reply);
             ("is_active", PBool true);
             ("session_id", PStr sid) ])), w') /\
    gateway_calls w' = gateway_calls w ++ calls_for primary history /\
    active_sessions w'
      = <[sid := add_assistant_message conversation1 reply
                   (now (S (S (clock_reads w))))
                   (now (S (S (S (clock_reads w)))))]>
          (active_sessions w).
Proof.
  intros Hmsg Hsid Hne Hw Htext Hcmd conversation1 history primary fallback
    reply.
  apply truthy_true in Htext.
  set (w1 := World (<[sid := conversation1]> (active_sessions w))
                   (gateway_calls w) (S (S (clock_reads w)))).
  set (w2 := World (active_sessions w1)
                   (gateway_calls w1 ++ calls_for primary history)
                   (clock_reads w1)).
  assert (active_sessions w1 !! sid = Some conversation1) as Hw1
    by apply lookup_insert_eq.
  destruct (session_add_assistant_message_sessions sid reply conversation1 w2
              Hw1) as (w3 & Hrun3 & Hsess3 & Hcalls3).
  exists w3. split; [|split].
  - unfold App.send_message, try_except, bind, body_get, str_strip, ret.
    rewrite Hmsg, Hsid. simpl. rewrite Htext. simpl.
    rewrite (find_session_active sid conversation) by done.
    rewrite bool_decide_false by done.
    rewrite (session_add_user_message_run now sid _ conversation)
      by (done || by apply blank_stripped).
    fold conversation1. fold w1.
    rewrite (generate_response_run sid conversation1 w1) by done.
    fold history. fold primary. fold fallback. fold reply. fold w2.
    by rewrite Hrun3.
  - by rewrite Hcalls3.
  - rewrite Hsess3. simpl. by rewrite insert_insert_eq.
Qed.

(** X17: a request that [send_message] answers with 400 or 500 - no
    message, an empty one, a body that is no dict, a session that is
    unknown or badly typed - leaves every session as it was, makes no
    chat call and reads no clock. *)
Theorem send_message_rejection_frame (data : pyval) (w : world) :
  match send_message data w with
  | (Ok (Json200 _), _) => True
  | (_, w') => w' = w
  end.
Proof.
  unfold App.send_message, try_except, bind, body_get, str_strip, ret, throw.
  destruct data as [| | | | | |d]; try reflexivity.
  destruct (default (PStr "") (d !! "message")) as [| | | |s| |];
    try reflexivity.
  destruct (truthy (strip s)) eqn:Ht; [|reflexivity]. cbn [negb].
  destruct (find_session_cases (default PNone (d !! "session_id")) w)
    as [H|[H|(sid & conversation & Hs & Hne & Hw & H)]];
    rewrite H; try reflexivity.
  case_bool_decide as Hcmd.
  - rewrite Hs.
    by rewrite (end_internal_run now sid conversation w Hne Hw).
  - rewrite (session_add_user_message_run now sid _ conversation)
      by (done || by apply blank_stripped).
    match goal with
    | |- context [App.generate_response _ _ _ sid ?w1] =>
        rewrite (generate_response_run sid
                   (add_user_message conversation (strip s)
                      (now (clock_reads w)) (now (S (clock_reads w)))) w1)
          by apply lookup_insert_eq
    end.
    match goal with
    | |- context [App.session_add_assistant_message now sid ?reply ?w2] =>
        destruct (session_add_assistant_message_sessions sid reply
                    (add_user_message conversation (strip s)
                       (now (clock_reads w)) (now (S (clock_reads w)))) w2)
          as (w3 & -> & _); [apply lookup_insert_eq|]
    end.
    exact I.
Qed.

(** X18: when the primary chat call returns, its text is sent as the
    reply, unchanged, and the fallback is not called. The user message,
    trimmed, is appended to the session; then the reply, trimmed, is
    appended after it - unless the reply is blank: a blank reply is sent
    to the client all the same, and nothing is stored for it. No other
    session changes. *)
Theorem send_message_primary_reply (d : gmap string pyval)
    (text sid r : string) (conversation : ConversationManager) (w : world) :
  d !! "message" = Some (PStr text) ->
  d !! "session_id" = Some (PStr sid) ->
  sid ≠ "" ->
  active_sessions w !! sid = Some conversation ->
  strip text ≠ "" ->
  lower (strip text) ∉ end_commands ->
  let conversation1 :=
    add_user_message conversation (strip text)
      (now (clock_reads w)) (now (S (clock_reads w))) in
  let history := get_history conversation1 in
  llm_client_chat history CONVERSATIONAL_SYSTEM_PROMPT = Returned r ->
  exists w',
    send_message (PDict d) w
      = (Ok (Json200 (list_to_map
           [ ("success", PBool true);
             ("message", PStr r);
             ("is_active", PBool true);
             ("session_id", PStr sid) ])), w') /\
    gateway_calls w' = gateway_calls w ++ [PrimaryChat history] /\
    active_sessions w' !! sid
      = Some (add_assistant_message conversation1 r
                (now (S (S (clock_reads w))))
                (now (S (S (S (clock_reads w)))))) /\
    (forall other, other ≠ sid ->
       active_sessions w' !! other = active_sessions w !! other) /\
    messages conversation1
      = drop (S (length (messages conversation)) - MAX_HISTORY_LENGTH)
          (messages conversation
             ++ [Message user (strip text) (now (clock_reads w))]) /\
    messages (add_assistant_message conversation1 r
                (now (S (S (clock_reads w))))
                (now (S (S (S (clock_reads w))))))
      = (if blank r then messages conversation1
         else drop (S (length (messages conversation1)) - MAX_HISTORY_LENGTH)
                (messages conversation1
                   ++ [Message assistant (strip r)
                         (now (S (S (clock_reads w))))])) /\
    (blank r = true ->
     add_assistant_message conversation1 r
       (now (S (S (clock_reads w)))) (now (S (S (S (clock_reads w)))))
     = conversation1).
Proof.
  intros Hmsg Hsid Hne Hw Htext Hcmd conversation1 history Hp.
  destruct (send_message_run d text sid conversation w Hmsg Hsid Hne Hw Htext
              Hcmd) as (w' & Hrun & Hcalls & Hsess).
  fold conversation1 in Hrun, Hcalls, Hsess.
  fold history in Hrun, Hcalls, Hsess.
  rewrite Hp in Hrun, Hcalls, Hsess. simpl in Hrun, Hcalls, Hsess.
  exists w'. split; [exact Hrun|]. split; [exact Hcalls|].
  rewrite Hsess. split; [apply lookup_insert_eq|].
  split; [intros other Hother; by apply lookup_insert_ne|].
  split; [|split].
  - assert (blank (strip text) = false) as Hb
      by by apply blank_stripped, truthy_true.
    destruct (add_user_message_appends conversation (strip text)
                (now (clock_reads w)) (now (S (clock_reads w))) Hb)
      as [Hm _].
    by rewrite strip_strip in Hm.
  - apply add_assistant_message_messages.
  - intros Hb. by apply add_assistant_message_blank.
Qed.

(** X19: the end of a session does not close it. After the end helper
    has answered, the session is still registered, and a further message
    is accepted like any other: it is appended after the closing
    message, answered, and reported with [is_active = True]. *)
Theorem session_accepts_messages_after_end (d : gmap string pyval)
    (text sid : string) (conversation : ConversationManager) (w : world) :
  d !! "message" = Some (PStr text) ->
  d !! "session_id" = Some (PStr sid) ->
  sid ≠ "" ->
  active_sessions w !! sid = Some conversation ->
  strip text ≠ "" ->
  lower (strip text) ∉ end_commands ->
  let closed :=
    add_assistant_message conversation closing_msg
      (now (clock_reads w)) (now (S (clock_reads w))) in
  let reopened :=
    add_user_message closed (strip text)
      (now (S (S (clock_reads w)))) (now (S (S (S (clock_reads w))))) in
  exists ended w1 reply w2,
    end_conversational_session_internal (PStr sid) w = (Ok (Json200 ended), w1)
    /\ ended !! "is_active" = Some (PBool false)
    /\ active_sessions w1 !! sid = Some closed
    /\ send_message (PDict d) w1
        = (Ok (Json200 (list_to_map
             [ ("success", PBool true);
               ("message", PStr reply);
               ("is_active", PBool true);
               ("session_id", PStr sid) ])), w2)
    /\ active_sessions w2 !! sid
        = Some (add_assistant_message reopened reply
                  (now (S (S (S (S (clock_reads w))))))
                  (now (S (S (S (S (S (clock_reads w))))))))
    /\ messages reopened
        = drop (S (length (messages closed)) - MAX_HISTORY_LENGTH)
            (messages closed
               ++ [Message user (strip text) (now (S (S (clock_reads w))))]).
Proof.
  intros Hmsg Hsid Hne Hw Htext Hcmd closed reopened.
  pose proof (end_internal_run now sid conversation w Hne Hw) as Hend.
  cbv zeta in Hend. fold closed in Hend.
  set (w1 := World (<[sid := closed]> (active_sessions w))
                   (gateway_calls w) (S (S (clock_reads w)))) in *.
  assert (active_sessions w1 !! sid = Some closed) as Hw1
    by apply lookup_insert_eq.
  destruct (send_message_run d text sid closed w1 Hmsg Hsid Hne Hw1 Htext
              Hcmd) as (w2 & Hrun & _ & Hsess).
  change (clock_reads w1) with (S (S (clock_reads w))) in Hrun, Hsess.
  fold reopened in Hrun, Hsess.
  eexists _, w1, _, w2. split; [exact Hend|].
  split; [reflexivity|]. split; [exact Hw1|]. split; [exact Hrun|].
  split; [rewrite Hsess; apply lookup_insert_eq|].
  assert (blank (strip text) = false) as Hb
    by by apply blank_stripped, truthy_true.
  destruct (add_user_message_appends closed (strip text)
              (now (S (S (clock_reads w)))) (now (S (S (S (clock_reads w)))))
              Hb) as [Hm _].
  by rewrite strip_strip in Hm.
Qed.

Lemma blank_greeting : blank greeting = false.
Proof. vm_compute. reflexivity. Qed.

Lemma started_messages (t1 t2 t3 t4 : time) :
  messages (add_assistant_message (__init__ None t1 t2) greeting t3 t4)
  = [Message assistant greeting t3].
Proof.
  destruct (add_assistant_message_appends (__init__ None t1 t2) greeting t3 t4
              blank_greeting) as [-> _].
  reflexivity.
Qed.

(** The start route: it registers a session that holds the greeting. *)
Lemma start_run (fresh_id : string) (w : world) :
  start_conversational_session fresh_id w
  = (Ok (Json200 (list_to_map
       [ ("success", PBool true);
         ("message", PStr greeting);
         ("is_active", PBool true);
         ("session_id", PStr fresh_id) ])),
     World (<[fresh_id :=
               add_assistant_message
                 (__init__ None (now (clock_reads w))
                    (now (S (clock_reads w))))
                 greeting (now (S (S (clock_reads w))))
                 (now (S (S (S (clock_reads w)))))]> (active_sessions w))
           (gateway_calls w) (S (S (S (S (clock_reads w)))))).
Proof.
  unfold App.start_conversational_session, try_except, bind, read_clock,
    put_session, ret.
  cbn [clock_reads active_sessions gateway_calls].
  by rewrite blank_greeting.
Qed.

(** X20: a whole conversation. The start route registers a session that
    holds the greeting; a message sent to it is answered by the primary
    chat call, which sees the greeting and the message; the end route
    then returns the transcript of the four messages, in order, and the
    one chat call is all the gateway traffic. *)
Theorem conversation_lifecycle (fresh_id text r : string)
    (d : gmap string pyval) (w : world) :
  fresh_id ≠ "" ->
  d !! "message" = Some (PStr text) ->
  d !! "session_id" = Some (PStr fresh_id) ->
  strip text ≠ "" ->
  lower (strip text) ∉ end_commands ->
  llm_client_chat [(assistant, greeting); (user, strip text)]
    CONVERSATIONAL_SYSTEM_PROMPT = Returned r ->
  blank r = false ->
  exists started w1 w2 ended w3,
    start_conversational_session fresh_id w = (Ok (Json200 started), w1) /\
    started !! "session_id" = Some (PStr fresh_id) /\
    send_message (PDict d) w1
      = (Ok (Json200 (list_to_map
           [ ("success", PBool true);
             ("message", PStr r);
             ("is_active", PBool true);
             ("session_id", PStr fresh_id) ])), w2) /\
    end_conversational_session (PDict {[ "session_id" := PStr fresh_id ]}) w2
      = (Ok (Json200 ended), w3) /\
    ended !! "transcript"
      = Some (PStr (join newline
                [ "Assistant: " +:+ greeting;
                  "Patient: " +:+ strip text;
                  "Assistant: " +:+ strip r;
                  "Assistant: " +:+ closing_msg ])) /\
    gateway_calls w3
      = gateway_calls w
          ++ [PrimaryChat [(assistant, greeting); (user, strip text)]].
Proof.
  intros Hne Hmsg Hsid Htext Hcmd Hchat Hr.
  set (c := clock_reads w).
  set (conv0 := add_assistant_message (__init__ None (now c) (now (S c)))
                  greeting (now (S (S c))) (now (S (S (S c))))).
  set (w1 := World (<[fresh_id := conv0]> (active_sessions w))
                   (gateway_calls w) (S (S (S (S c))))).
  assert (messages conv0 = [Message assistant greeting (now (S (S c)))])
    as Hm0 by apply started_messages.
  assert (active_sessions w1 !! fresh_id = Some conv0) as Hw1
    by apply lookup_insert_eq.
  assert (blank (strip text) = false) as Hb
    by by apply blank_stripped, truthy_true.
  set (conv1 := add_user_message conv0 (strip text)
                  (now (clock_reads w1)) (now (S (clock_reads w1)))).
  assert (messages conv1
          = [Message assistant greeting (now (S (S c)));
             Message user (strip text) (now (clock_reads w1))]) as Hm1.
  { destruct (add_user_message_appends conv0 (strip text)
                (now (clock_reads w1)) (now (S (clock_reads w1))) Hb)
      as [Hm _].
    fold conv1 in Hm. rewrite Hm, Hm0, strip_strip. reflexivity. }
  assert (get_history conv1 = [(assistant, greeting); (user, strip text)])
    as Hh1 by (unfold get_history; rewrite Hm1; reflexivity).
  destruct (send_message_run d text fresh_id conv0 w1 Hmsg Hsid Hne Hw1 Htext
              Hcmd) as (w2 & Hrun2 & Hcalls2 & Hsess2).
  fold conv1 in Hrun2, Hcalls2, Hsess2.
  rewrite Hh1, Hchat in Hrun2, Hcalls2, Hsess2.
  cbn [settled_reply calls_for] in Hrun2, Hcalls2, Hsess2.
  apply (f_equal (fun m => m !! fresh_id)) in Hsess2.
  rewrite lookup_insert_eq in Hsess2.
  set (conv2 := add_assistant_message conv1 r
                  (now (S (S (clock_reads w1))))
                  (now (S (S (S (clock_reads w1)))))) in *.
  assert (messages conv2
          = messages conv1
              ++ [Message assistant (strip r) (now (S (S (clock_reads w1))))])
    as Hm2.
  { destruct (add_assistant_message_appends conv1 r
                (now (S (S (clock_reads w1))))
                (now (S (S (S (clock_reads w1))))) Hr) as [Hm _].
    fold conv2 in Hm. rewrite Hm, Hm1. reflexivity. }
  pose proof (end_internal_run now fresh_id conv2 w2 Hne Hsess2) as Hend.
  cbv zeta in Hend.
  set (conv3 := add_assistant_message conv2 closing_msg
                  (now (clock_reads w2)) (now (S (clock_reads w2)))) in *.
  assert (messages conv3
          = messages conv2
              ++ [Message assistant closing_msg (now (clock_reads w2))])
    as Hm3.
  { destruct (add_assistant_message_appends conv2 closing_msg
                (now (clock_reads w2)) (now (S (clock_reads w2))))
      as [Hm _]; [vm_compute; reflexivity|].
    fold conv3 in Hm. rewrite Hm, Hm2, Hm1. reflexivity. }
  eexists _, w1, w2, _, _.
  split; [apply start_run|].
  split; [reflexivity|].
  split; [exact Hrun2|]. split.
  { unfold App.end_conversational_session, try_except, bind, body_get, ret.
    rewrite lookup_singleton_eq. cbn [default]. unfold id. by rewrite Hend. }
  split.
  - rewrite !list_to_map_cons. rewrite !lookup_insert_ne by done.
    rewrite lookup_insert_eq. do 2 f_equal.
    unfold get_conversation_transcript. rewrite Hm3, Hm2, Hm1. reflexivity.
  - exact Hcalls2.
Qed.

End WithServer.

(** Witness of X18: the mock chat as the primary, one message to the
    greeted session; the session then holds the greeting, the message
    and the reply. *)
Lemma send_message_primary_reply_witness :
  (strip "It was fine" ≠ "" /\
   (lower (strip "It was fine") ∉ end_commands) /\
   (mock_chat 0 [(assistant, greeting); (user, "It was fine")] ""
    = Returned "Hello! I'm here to hear about your healthcare visit today. How was your overall experience?")) /\
  exists w',
    send_message "" (mock_chat 0) offline_chat ticking
      (PDict (message_request "It was fine" "s1")) one_session
    = (Ok (Json200 (list_to_map
         [ ("success", PBool true);
           ("message",
             PStr "Hello! I'm here to hear about your healthcare visit today. How was your overall experience?");
           ("is_active", PBool true);
           ("session_id", PStr "s1") ])), w') /\
    gateway_calls w'
    = [PrimaryChat [(assistant, greeting); (user, "It was fine")]] /\
    get_history <$> active_sessions w' !! "s1"
    = Some [ (assistant, greeting);
             (user, "It was fine");
             (assistant,
               "Hello! I'm here to hear about your healthcare visit today. How was your overall experience?") ].
Proof.
  assert (strip "It was fine" ≠ "") as Htext by discriminate.
  assert (lower (strip "It was fine") ∉ end_commands) as Hcmd
    by (apply (proj1 (bool_decide_eq_false _)); vm_compute; reflexivity).
  split; [by repeat split|].
  destruct (send_message_primary_reply "" (mock_chat 0) offline_chat ticking
              (message_request "It was fine" "s1") "It was fine" "s1"
              "Hello! I'm here to hear about your healthcare visit today. How was your overall experience?"
              greeted one_session)
    as (w' & Hrun & Hcalls & Hsess & _);
    [reflexivity|reflexivity|discriminate|reflexivity|exact Htext|exact Hcmd
    |reflexivity|].
  exists w'. split; [exact Hrun|]. split; [exact Hcalls|].
  rewrite Hsess. reflexivity.
Defined.

(** Witness of X19: the greeted session is ended, then written to. *)
Lemma session_accepts_messages_after_end_witness :
  (strip "one more thing" ≠ "" /\
   lower (strip "one more thing") ∉ end_commands) /\
  exists ended w1 reply w2,
    end_conversational_session_internal ticking (PStr "s1") one_session
    = (Ok (Json200 ended), w1) /\
    ended !! "is_active" = Some (PBool false) /\
    send_message "" (mock_chat 0) offline_chat ticking
      (PDict (message_request "one more thing" "s1")) w1
    = (Ok (Json200 (list_to_map
         [ ("success", PBool true);
           ("message", PStr reply);
           ("is_active", PBool true);
           ("session_id", PStr "s1") ])), w2).
Proof.
  assert (strip "one more thing" ≠ "") as Htext by discriminate.
  assert (lower (strip "one more thing") ∉ end_commands) as Hcmd
    by (apply (proj1 (bool_decide_eq_false _)); vm_compute; reflexivity).
  split; [by split|].
  destruct (session_accepts_messages_after_end "" (mock_chat 0) offline_chat
              ticking (message_request "one more thing" "s1")
              "one more thing" "s1" greeted one_session)
    as (ended & w1 & reply & w2 & Hend & Hflag & _ & Hrun & _);
    [reflexivity|reflexivity|discriminate|reflexivity|exact Htext|exact Hcmd|].
  exists ended, w1, reply, w2. by repeat split.
Defined.

(** Witness of X20: a conversation of one exchange with the mock chat,
    in a server that holds no session yet. *)
Lemma conversation_lifecycle_witness :
  (strip " The wait was long " ≠ "" /\
   lower (strip " The wait was long ") ∉ end_commands) /\
  exists started w1 w2 ended w3,
    start_conversational_session ticking "s2" (World ∅ [] 0)
    = (Ok (Json200 started), w1) /\
    send_message "" (mock_chat 0) offline_chat ticking
      (PDict (message_request " The wait was long " "s2")) w1
    = (Ok (Json200 (list_to_map
         [ ("success", PBool true);
           ("message",
             PStr "Hello! I'm here to hear about your healthcare visit today. How was your overall experience?");
           ("is_active", PBool true);
           ("session_id", PStr "s2") ])), w2) /\
    end_conversational_session ticking
      (PDict {[ "session_id" := PStr "s2" ]}) w2
    = (Ok (Json200 ended), w3) /\
    ended !! "transcript"
    = Some (PStr (join newline
              [ "Assistant: " +:+ greeting;
                "Patient: The wait was long";
                "Assistant: Hello! I'm here to hear about your healthcare visit today. How was your overall experience?";
                "Assistant: " +:+ closing_msg ])).
Proof.
  assert (strip " The wait was long " ≠ "") as Htext by discriminate.
  assert (lower (strip " The wait was long ") ∉ end_commands) as Hcmd
    by (apply (proj1 (bool_decide_eq_false _)); vm_compute; reflexivity).
  split; [by split|].
  destruct (conversation_lifecycle "" (mock_chat 0) offline_chat ticking
              "s2" " The wait was long "
              "Hello! I'm here to hear about your healthcare visit today. How was your overall experience?"
              (message_request " The wait was long " "s2") (World ∅ [] 0))
    as (started & w1 & w2 & ended & w3 & Hstart & _ & Hrun & Hend & Htr & _);
    [discriminate|reflexivity|reflexivity|exact Htext|exact Hcmd
    |reflexivity|reflexivity|].
  exists started, w1, w2, ended, w3. by repeat split.
Defined.

End AppLaws.

(* ================================================================= *)
(** * Facts about storage.py *)

Module StorageFacts.
Import PyStr PyStrFacts PyStrLaws FeedbackAnalyzer AnalyzerFacts.
Import Conversation Storage.

Lemma truthy_app (a b : string) : truthy (a +:+ b) = truthy a || truthy b.
Proof. destruct a; [by rewrite app_empty_l|by rewrite app_String]. Qed.

Lemma prefix_String (a b : ascii) (p s : string) :
  String.prefix (String a p) (String b s)
  = if ascii_dec a b then String.prefix p s else false.
Proof. reflexivity. Qed.

(** No occurrence of the separator starts inside a piece that lacks it,
    even when the separator follows the piece. *)
Lemma prefix_sep_piece (x rest : string) :
  x ≠ "" -> contains "; " x = false ->
  String.prefix "; " (x +:+ "; " +:+ rest) = false.
Proof.
  destruct x as [|c x]; [done|]. intros _ Hx.
  change (contains "; " (String c x))
    with (String.prefix "; " (String c x) || contains "; " x) in Hx.
  apply orb_false_iff in Hx as [Hp _].
  rewrite app_String. rewrite prefix_String in *.
  destruct (ascii_dec ";" c) as [_|]; [|done].
  destruct x as [|c2 x].
  - rewrite app_empty_l, app_String, prefix_String.
    destruct (ascii_dec " " ";") as [e|]; [discriminate e|done].
  - rewrite app_String. rewrite prefix_String in *.
    destruct (ascii_dec " " c2); [by rewrite prefix_empty in Hp|done].
Qed.

Lemma prefix_sep_alone (x : string) :
  contains "; " x = false -> String.prefix "; " x = false.
Proof.
  destruct x as [|c x]; [done|]. intros Hx.
  change (contains "; " (String c x))
    with (String.prefix "; " (String c x) || contains "; " x) in Hx.
  by apply orb_false_iff in Hx as [Hp _].
Qed.

Lemma contains_tail (w : string) (c : ascii) (x : string) :
  contains w (String c x) = false -> contains w x = false.
Proof.
  change (contains w (String c x))
    with (String.prefix w (String c x) || contains w x).
  by intros [_ ?]%orb_false_iff.
Qed.

Lemma split_from_piece (x cur rest : string) :
  contains "; " x = false ->
  split_from "; " 0 cur (x +:+ "; " +:+ rest)
  = (cur +:+ x) :: split_from "; " 0 "" rest.
Proof.
  revert cur. induction x as [|c x IH]; intros cur Hx.
  - rewrite app_empty_l, app_empty_r.
    pose proof (prefix_app "; " rest) as Hp.
    change ("; " +:+ rest) with (String ";" (String " " rest)) in *.
    cbn [split_from String.length Nat.sub]. by rewrite Hp.
  - pose proof (prefix_sep_piece (String c x) rest) as Hp.
    rewrite app_String in *.
    cbn [split_from]. rewrite Hp by done.
    rewrite IH by by apply contains_tail in Hx.
    by rewrite app_assoc, app_String, app_empty_l.
Qed.

Lemma split_from_last (x cur : string) :
  contains "; " x = false -> split_from "; " 0 cur x = [cur +:+ x].
Proof.
  revert cur. induction x as [|c x IH]; intros cur Hx.
  - by rewrite app_empty_r.
  - cbn [split_from]. rewrite (prefix_sep_alone _ Hx).
    rewrite IH by by apply contains_tail in Hx.
    by rewrite app_assoc, app_String, app_empty_l.
Qed.

(** Splitting undoes joining when no item holds the separator. *)
Lemma split_join (issues : list string) :
  issues ≠ [] -> Forall (fun i => contains "; " i = false) issues ->
  split_str "; " (join "; " issues) = issues.
Proof.
  unfold split_str.
  induction issues as [|w rest IH]; [done|]. intros _ Hall.
  apply Forall_cons in Hall as [Hw Hrest].
  destruct rest as [|w2 rest].
  - simpl. rewrite split_from_last by done. by rewrite app_empty_l.
  - change (join "; " (w :: w2 :: rest))
      with (w +:+ "; " +:+ join "; " (w2 :: rest)).
    rewrite split_from_piece by done.
    rewrite app_empty_l. f_equal. by apply IH.
Qed.

Lemma join_truthy_issues (issues : list string) :
  issues ≠ [] -> issues ≠ [""] -> truthy (join "; " issues) = true.
Proof.
  destruct issues as [|w [|w2 rest]]; [done| |].
  - intros _ Hw. simpl. destruct w; [done|reflexivity].
  - intros _ _.
    change (join "; " (w :: w2 :: rest))
      with (w +:+ "; " +:+ join "; " (w2 :: rest)).
    rewrite !truthy_app. simpl. by rewrite orb_true_r.
Qed.

Section WithInterpreter.

Variable float_of_str : string -> option spec_float.
Variable repr : pyval -> result string.
Variable strftime : time -> string.
Variable key_order : gmap string pyval -> list string.
Variable int_of_str : string -> option Z.

Local Abbreviation process_llm_output := (process_llm_output float_of_str repr).
Local Abbreviation prepare_row := (prepare_row strftime key_order).
Local Abbreviation save_feedback := (save_feedback repr strftime key_order).
Local Abbreviation load_row := (load_row int_of_str).
Local Abbreviation load_all_feedback := (load_all_feedback int_of_str).

Lemma feedback_dict_lookups (s : Z) (m : gmap string Z) (c : string)
    (du st : Z) (bs : list string) :
  exists d,
    feedback_dict s m c du st bs = PDict d /\
    d !! "satisfaction_score" = Some (PInt s) /\
    d !! "summary" = None /\
    d !! "key_issues" = None.
Proof.
  eexists. split; [reflexivity|].
  rewrite !list_to_map_cons, list_to_map_nil.
  split; [apply lookup_insert_eq|].
  split; rewrite !lookup_insert_ne by done; apply lookup_empty.
Qed.

Lemma written_row_cells (timestamp : string) (score summary issues : pyval)
    (a b c : string) :
  cell_text repr score = Ok a ->
  cell_text repr summary = Ok b ->
  cell_text repr issues = Ok c ->
  written_row repr
    (list_to_map
       [ ("timestamp", PStr timestamp);
         ("satisfaction_score", score);
         ("summary", summary);
         ("key_issues", issues) ])
  = Ok (list_to_map
      [ ("timestamp", Some timestamp);
        ("satisfaction_score", Some a);
        ("summary", Some b);
        ("key_issues", Some c) ]).
Proof.
  intros Ha Hb Hc. unfold written_row, fieldnames. cbn [mapM].
  rewrite !(list_to_map_cons (M := gmap string) (A := pyval)).
  rewrite lookup_insert_eq.
  rewrite (lookup_insert_ne _ "timestamp" "satisfaction_score") by done.
  rewrite lookup_insert_eq.
  rewrite (lookup_insert_ne _ "timestamp" "summary") by done.
  rewrite (lookup_insert_ne _ "satisfaction_score" "summary") by done.
  rewrite lookup_insert_eq.
  rewrite (lookup_insert_ne _ "timestamp" "key_issues") by done.
  rewrite (lookup_insert_ne _ "satisfaction_score" "key_issues") by done.
  rewrite (lookup_insert_ne _ "summary" "key_issues") by done.
  rewrite lookup_insert_eq.
  unfold default, id. rewrite Ha, Hb, Hc. reflexivity.
Qed.

(** X21: of a record that [process_llm_output] returned, [save_feedback]
    stores the time and the record's satisfaction score, in decimal, and
    nothing else: the record has no [summary] and no [key_issues], so
    these two columns are written empty, and the radar metrics, the
    confidence, the two other scores and the bullets are not written at
    all. *)
Theorem save_feedback_keeps_score_only (raw r : pyval) (now : time)
    (file : csv_file) :
  process_llm_output raw = Ok r ->
  exists d score,
    r = PDict d /\
    d !! "satisfaction_score" = Some (PInt score) /\
    1 <= score <= 5 /\
    save_feedback r now file
    = (true,
       Some (default [] file
             ++ [list_to_map
                   [ ("timestamp", Some (strftime now));
                     ("satisfaction_score", Some (pretty score));
                     ("summary", Some "");
                     ("key_issues", Some "") ]])).
Proof.
  intros Hr.
  apply process_llm_output_returned in Hr
    as (s & m & c & du & st & bs & -> & Hs & _).
  destruct (feedback_dict_lookups s m c du st bs)
    as (d & -> & Hscore & Hsummary & Hissues).
  exists d, s. split; [reflexivity|]. split; [exact Hscore|].
  split; [exact Hs|].
  unfold Storage.save_feedback, Storage.prepare_row, feedback_get, dict_get,
    _ensure_file_exists.
  rewrite Hscore, Hsummary, Hissues. cbn [default mbind result_bind].
  cbn [join_items mapM mret result_ret mbind result_bind join].
  unfold id.
  by rewrite (written_row_cells _ _ _ _ (pretty s) "" "")
    by (try reflexivity; by apply str_of_int_score).
Qed.

Lemma join_items_strings (issues : list string) :
  join_items key_order (PList (PStr <$> issues)) = Ok issues.
Proof.
  unfold join_items. induction issues as [|w rest IH]; [reflexivity|].
  rewrite fmap_cons. cbn [mapM]. rewrite IH. reflexivity.
Qed.

Lemma row_lookups (a b c d : option string) :
  let row : csv_row :=
    list_to_map [ ("timestamp", a); ("satisfaction_score", b);
                  ("summary", c); ("key_issues", d) ] in
  row !! "timestamp" = Some a /\ row !! "satisfaction_score" = Some b /\
  row !! "summary" = Some c /\ row !! "key_issues" = Some d.
Proof. by repeat split. Qed.

Lemma load_row_written (timestamp summary : string) (z : Z)
    (issues : list string) :
  int_of_str (pretty z) = Some z ->
  Forall (fun i => contains "; " i = false) issues ->
  issues ≠ [""] ->
  load_row
    (list_to_map
       [ ("timestamp", Some timestamp);
         ("satisfaction_score", Some (pretty z));
         ("summary", Some summary);
         ("key_issues", Some (join "; " issues)) ])
  = Ok (PDict (list_to_map
         [ ("timestamp", PStr timestamp);
           ("satisfaction_score", PInt z);
           ("summary", PStr summary);
           ("key_issues", PList (PStr <$> issues)) ])).
Proof.
  intros Hint Hall Hne.
  destruct (row_lookups (Some timestamp) (Some (pretty z)) (Some summary)
              (Some (join "; " issues))) as (Ht & Hs & Hsum & Hk).
  unfold Storage.load_row, row_get. rewrite Hk, Ht, Hs, Hsum.
  cbn [mbind result_bind]. rewrite Hint. cbn [mbind result_bind cell_value].
  destruct issues as [|w rest]; [reflexivity|].
  rewrite join_truthy_issues by done. by rewrite split_join.
Qed.

Lemma str_of_int_small (z : Z) :
  Z.abs z < str_digits_bound -> str_of_int z = Ok (pretty z).
Proof.
  intros Hz. unfold str_of_int. rewrite bool_decide_false; [done|lia].
Qed.

(** X22: [load_all_feedback] undoes what [save_feedback] does to a
    record. A dict with an integer score that [str] prints, a summary
    and a list of issues is written, to a new file, as one line: the
    time of saving, the score in decimal, the summary, and the issues
    joined by [; ]. When the reader yields that line, the record loaded
    has the same score, summary and issues - provided no issue holds the
    separator [; ], the list of issues is not the single empty string,
    and [int] reads the decimal form of the score. *)
Theorem save_then_load (d : gmap string pyval) (z : Z) (summary : string)
    (issues : list string) (now : time) :
  d !! "satisfaction_score" = Some (PInt z) ->
  d !! "summary" = Some (PStr summary) ->
  d !! "key_issues" = Some (PList (PStr <$> issues)) ->
  Z.abs z < str_digits_bound ->
  int_of_str (pretty z) = Some z ->
  Forall (fun i => contains "; " i = false) issues ->
  issues ≠ [""] ->
  let line : csv_row :=
    list_to_map
      [ ("timestamp", Some (strftime now));
        ("satisfaction_score", Some (pretty z));
        ("summary", Some summary);
        ("key_issues", Some (join "; " issues)) ] in
  save_feedback (PDict d) now None = (true, Some [line]) /\
  load_all_feedback (Some (Ok [line]))
  = [PDict (list_to_map
       [ ("timestamp", PStr (strftime now));
         ("satisfaction_score", PInt z);
         ("summary", PStr summary);
         ("key_issues", PList (PStr <$> issues)) ])].
Proof.
  intros Hscore Hsummary Hissues Hsmall Hint Hall Hne line. split.
  - unfold Storage.save_feedback, Storage.prepare_row, feedback_get,
      dict_get, _ensure_file_exists.
    rewrite Hscore, Hsummary, Hissues. cbn [default mbind result_bind].
    unfold id. rewrite join_items_strings. cbn [mbind result_bind].
    by rewrite (written_row_cells _ _ _ _ (pretty z) summary
                  (join "; " issues))
      by (try reflexivity; by apply str_of_int_small).
  - unfold Storage.load_all_feedback. cbn [mbind result_bind mapM].
    subst line. rewrite load_row_written by done. reflexivity.
Qed.

Lemma mapM_load_raises (lines : list csv_row) :
  Exists (fun row => exists e, load_row row = Raise e) lines ->
  exists e, mapM load_row lines = Raise e.
Proof.
  induction 1 as [row lines [e He]|row lines _ [e IH]].
  - exists e. cbn [mapM]. by rewrite He.
  - cbn [mapM]. destruct (load_row row) as [v|e']; [|by exists e'].
    exists e. cbn [mbind result_bind]. by rewrite IH.
Qed.

Lemma mapM_load_returns (lines : list csv_row) :
  Forall (fun row => exists v, load_row row = Ok v) lines ->
  exists vs, mapM load_row lines = Ok vs /\ length vs = length lines.
Proof.
  induction 1 as [|row lines [v Hv] _ (vs & IH & Hlen)].
  - by exists [].
  - exists (v :: vs). cbn [mapM]. rewrite Hv. cbn [mbind result_bind].
    rewrite IH. split; [reflexivity|]. simpl. by rewrite Hlen.
Qed.

(** X23: [load_all_feedback] is all or nothing. One line it cannot read
    - a score that is no integer, a missing column - makes it return
    the empty list, as for a file that does not exist and for a file the
    reader raises on; it returns one entry per line only when it can
    read every line. *)
Theorem load_all_feedback_all_or_nothing (lines : list csv_row) :
  load_all_feedback None = [] /\
  (forall e, load_all_feedback (Some (Raise e)) = []) /\
  (Exists (fun row => exists e, load_row row = Raise e) lines ->
   load_all_feedback (Some (Ok lines)) = []) /\
  (Forall (fun row => exists v, load_row row = Ok v) lines ->
   length (load_all_feedback (Some (Ok lines))) = length lines) /\
  (forall row text,
     row !! "satisfaction_score" = Some (Some text) ->
     int_of_str text = None ->
     row !! "key_issues" ≠ None -> row !! "timestamp" ≠ None ->
     load_row row = Raise ValueError).
Proof.
  split; [reflexivity|]. split; [reflexivity|]. split; [|split].
  - intros [e He]%mapM_load_raises. unfold Storage.load_all_feedback.
    cbn [mbind result_bind]. by rewrite He.
  - intros (vs & Hvs & Hlen)%mapM_load_returns.
    unfold Storage.load_all_feedback. cbn [mbind result_bind].
    by rewrite Hvs.
  - intros row text Hscore Hint Hissues Htime.
    unfold Storage.load_row, row_get. rewrite Hscore.
    destruct (row !! "key_issues") as [issues|]; [|done].
    destruct (row !! "timestamp") as [timestamp|]; [|done].
    cbn [mbind result_bind]. by rewrite Hint.
Qed.

End WithInterpreter.

(** Witness of X21: the default record, whose score is 3, saved to a
    new file. *)
Lemma save_feedback_keeps_score_only_witness :
  process_llm_output no_float no_repr (PDict ∅) = Ok default_record /\
  exists d score,
    default_record = PDict d /\
    d !! "satisfaction_score" = Some (PInt score) /\
    1 <= score <= 5 /\
    save_feedback no_repr no_strftime no_key_order default_record 0 None
    = (true,
       Some [list_to_map
               [ ("timestamp", Some "");
                 ("satisfaction_score", Some (pretty score));
                 ("summary", Some "");
                 ("key_issues", Some "") ]]).
Proof.
  assert (process_llm_output no_float no_repr (PDict ∅) = Ok default_record)
    as Hr by (vm_compute; reflexivity).
  split; [exact Hr|].
  exact (save_feedback_keeps_score_only no_float no_repr no_strftime
           no_key_order (PDict ∅) default_record 0 None Hr).
Defined.

(** Witness of X22: a score of 4 with two issues. *)
Lemma save_then_load_witness :
  let d : gmap string pyval :=
    list_to_map
      [ ("satisfaction_score", PInt 4);
        ("summary", PStr "slow");
        ("key_issues", PList (PStr <$> ["long wait"; "parking"])) ] in
  let line : csv_row :=
    list_to_map
      [ ("timestamp", Some "");
        ("satisfaction_score", Some "4");
        ("summary", Some "slow");
        ("key_issues", Some "long wait; parking") ] in
  (Z.abs 4 < str_digits_bound /\
   int_of_digit (pretty 4) = Some 4 /\
   Forall (fun i => contains "; " i = false) ["long wait"; "parking"]) /\
  save_feedback no_repr no_strftime no_key_order (PDict d) 0 None
  = (true, Some [line]) /\
  load_all_feedback int_of_digit (Some (Ok [line]))
  = [PDict (list_to_map
       [ ("timestamp", PStr "");
         ("satisfaction_score", PInt 4);
         ("summary", PStr "slow");
         ("key_issues", PList (PStr <$> ["long wait"; "parking"])) ])].
Proof.
  intros d line.
  assert (Z.abs 4 < str_digits_bound) as Hsmall by reflexivity.
  assert (int_of_digit (pretty 4) = Some 4) as Hint
    by (vm_compute; reflexivity).
  assert (Forall (fun i => contains "; " i = false) ["long wait"; "parking"])
    as Hall by (repeat constructor).
  split; [by repeat split|].
  apply (save_then_load no_repr no_strftime no_key_order int_of_digit d 4
           "slow" ["long wait"; "parking"] 0);
    [reflexivity|reflexivity|reflexivity|exact Hsmall|exact Hint|exact Hall
    |discriminate].
Defined.

End StorageFacts.

(* ================================================================= *)
(** * Facts about conversational_assistant.py *)

Module AssistantFacts.
Import PyStr PyStrFacts ConversationalAssistant.

Lemma greeting_elem (i : nat) :
  item GREETINGS (i `mod` length GREETINGS) ∈ GREETINGS.
Proof.
  unfold item.
  destruct (GREETINGS !! (i `mod` length GREETINGS)%nat) as [g|] eqn:Hg.
  - by apply list_elem_of_lookup_2 in Hg.
  - apply lookup_ge_None in Hg.
    pose proof (Nat.mod_upper_bound i (length GREETINGS)) as Hlt.
    simpl in *. lia.
Qed.

Lemma closing_elem (n : nat) :
  (if bool_decide (5 ≤ n)%nat then item CLOSING_MESSAGES 0
   else if bool_decide (2 ≤ n)%nat then item CLOSING_MESSAGES 1
   else item CLOSING_MESSAGES 2) ∈ CLOSING_MESSAGES.
Proof.
  unfold CLOSING_MESSAGES, item.
  repeat case_bool_decide; simpl; rewrite !elem_of_cons; auto.
Qed.

Lemma step_coherent (self : Assistant) (c : call) :
  coherent self -> coherent (step self c).
Proof.
  intros Hc. pose proof Hc as (Hne & Hidle & Hact & Hdone).
  destruct c as [now1 now2|now1 now2|message now|message now|]; simpl.
  - (* start_conversation *)
    split; [done|]. split; [done|]. split; [|done].
    intros _. eexists _, _, _. split; [apply greeting_elem|reflexivity].
  - (* end_conversation *)
    unfold end_conversation.
    destruct (state self) eqn:Hs; simpl; try exact Hc; try congruence.
    split; [done|]. split; [done|].
    destruct Hact as (g & t & rest & Hg & Hh); [done|].
    split.
    + intros _. exists g, t. eexists. split; [exact Hg|].
      rewrite Hh. reflexivity.
    + intros _. eexists _, _, _. split; [apply closing_elem|reflexivity].
  - (* add_user_message *)
    unfold add_user_message.
    case_bool_decide as Hs; simpl; [|exact Hc].
    destruct (Conversation.blank message); simpl; [exact Hc|].
    unfold coherent. simpl. rewrite Hs.
    split; [done|]. split; [done|].
    destruct Hact as (g & t & rest & Hg & Hh); [by rewrite Hs|].
    split; [|done].
    intros _. exists g, t. eexists. split; [exact Hg|].
    rewrite Hh. reflexivity.
  - (* add_assistant_message *)
    unfold add_assistant_message.
    case_bool_decide as Hs; simpl; [|exact Hc].
    destruct (Conversation.blank message); simpl; [exact Hc|].
    destruct Hs as [Hs|Hs]; [|done].
    unfold coherent. simpl. rewrite Hs.
    split; [done|]. split; [done|].
    destruct Hact as (g & t & rest & Hg & Hh); [by rewrite Hs|].
    split; [|done].
    intros _. exists g, t. eexists. split; [exact Hg|].
    rewrite Hh. reflexivity.
  - (* reset *)
    split; [done|]. split; [done|]. split; [done|]. done.
Qed.

Lemma fold_step_coherent (calls : list call) (self : Assistant) :
  coherent self -> coherent (fold_left step calls self).
Proof.
  revert self. induction calls as [|c calls IH]; intros self Hc; [done|].
  simpl. by apply IH, step_coherent.
Qed.

(** X24: whatever calls are made on a new assistant, it is never in the
    state [ENDING]; while it is [IDLE] its history is empty; once started
    its history begins with one of the three greetings, said by the
    assistant; and when it is [COMPLETED] its history ends with one of
    the three closing messages. *)
Theorem assistant_invariants (calls : list call) :
  let self := run calls in
  state self ≠ ENDING /\
  (state self = IDLE -> conversation_history self = []) /\
  (state self ≠ IDLE ->
   exists g t rest,
     g ∈ GREETINGS /\
     conversation_history self
     = Conversation.Message Conversation.assistant g t :: rest) /\
  (state self = COMPLETED ->
   exists front c t,
     c ∈ CLOSING_MESSAGES /\
     conversation_history self
     = front ++ [Conversation.Message Conversation.assistant c t]).
Proof.
  assert (coherent (run calls)) as (Hne & Hidle & Hact & Hdone).
  { apply fold_step_coherent. by repeat split. }
  split; [exact Hne|]. split; [|by split].
  intros Hs. by destruct (Hidle Hs).
Qed.

Lemma step_completed (self : Assistant) (c : call) :
  state self = COMPLETED -> keeps_session c = true -> step self c = self.
Proof.
  intros Hs Hc.
  destruct c as [now1 now2|now1 now2|message now|message now|];
    try discriminate Hc; simpl.
  - unfold end_conversation. by rewrite Hs.
  - unfold add_user_message. by rewrite Hs.
  - unfold add_assistant_message. rewrite Hs.
    rewrite bool_decide_false; [done|]. by intros [|].
Qed.

(** X25: a completed conversation is final. Until the assistant is
    started again or reset, no call changes it: user and assistant
    messages are refused, a second end appends no second closing
    message, and the returned flags and texts say so. *)
Theorem completed_is_final (self : Assistant) (calls : list call) :
  state self = COMPLETED ->
  Forall (fun c => keeps_session c = true) calls ->
  fold_left step calls self = self /\
  (forall message now,
     add_user_message self message now = (false, self) /\
     add_assistant_message self message now = (false, self)) /\
  (forall now1 now2,
     end_conversation self now1 now2
     = ("This conversation has already ended.", self)).
Proof.
  intros Hs Hcalls. split; [|split].
  - induction Hcalls as [|c calls Hc _ IH]; [done|].
    simpl. by rewrite step_completed.
  - intros message now. unfold add_user_message, add_assistant_message.
    rewrite Hs. split; [done|].
    rewrite bool_decide_false; [done|]. by intros [|].
  - intros now1 now2. unfold end_conversation. by rewrite Hs.
Qed.

(** Witness of X25: a conversation that was ended, then written to
    and ended again. *)
Lemma completed_is_final_witness :
  let self := run [Start 0 1; UserSays "the wait was long" 2; End_ 3 4] in
  let calls := [UserSays "and one more thing" 5; AssistantSays "noted" 6;
                End_ 7 8] in
  state self = COMPLETED /\
  Forall (fun c => keeps_session c = true) calls /\
  fold_left step calls self = self.
Proof.
  intros self calls.
  assert (state self = COMPLETED) as Hs by reflexivity.
  assert (Forall (fun c => keeps_session c = true) calls) as Hcalls
    by (repeat constructor).
  split; [exact Hs|]. split; [exact Hcalls|].
  exact (proj1 (completed_is_final self calls Hs Hcalls)).
Defined.

Lemma step_greeting_index (self : Assistant) (c : call) :
  _greeting_index (step self c)
  = ((if is_start c then 1 else 0) + _greeting_index self)%nat.
Proof.
  destruct c as [now1 now2|now1 now2|message now|message now|]; simpl;
    try reflexivity.
  - unfold end_conversation. by destruct (state self).
  - unfold add_user_message.
    by repeat (match goal with
               | |- context [if ?b then _ else _] => destruct b
               end).
  - unfold add_assistant_message.
    by repeat (match goal with
               | |- context [if ?b then _ else _] => destruct b
               end).
Qed.

Lemma fold_step_greeting_index (calls : list call) (self : Assistant) :
  _greeting_index (fold_left step calls self)
  = (length (filter (fun c => is_start c = true) calls)
     + _greeting_index self)%nat.
Proof.
  revert self. induction calls as [|c calls IH]; intros self; [done|].
  simpl fold_left. rewrite IH, step_greeting_index.
  destruct c; simpl is_start; cbn [is_start];
    rewrite ?(filter_cons_True (fun c => is_start c = true)) by done;
    rewrite ?(filter_cons_False (fun c => is_start c = true)) by done;
    simpl; lia.
Qed.

(** X26: the greetings rotate over the life of the object. The start
    that follows [n] earlier starts greets with the greeting of index
    [n mod 3], whatever else was called in between - a reset does not
    restart the rotation. *)
Theorem greetings_rotate (calls : list call) (now1 now2 : Conversation.time) :
  let n := length (filter (fun c => is_start c = true) calls) in
  (start_conversation (run calls) now1 now2).1
  = item GREETINGS (n `mod` 3)%nat /\
  (start_conversation (run calls) now1 now2).1 ∈ GREETINGS.
Proof.
  simpl. unfold run. rewrite fold_step_greeting_index. simpl _greeting_index.
  rewrite Nat.add_0_r. split; [reflexivity|].
  apply (greeting_elem _).
Qed.

Lemma detect_topics_fold (entries : list (string * list string))
    (topics : gset string) (message_lower : string) :
  let found :=
    fold_left
      (fun topics entry =>
         if any_in entry.2 message_lower then topics ∪ {[ entry.1 ]}
         else topics)
      entries topics in
  topics ⊆ found /\ found ⊆ topics ∪ list_to_set entries.*1.
Proof.
  revert topics. induction entries as [|[name kws] entries IH];
    intros topics; simpl.
  - split; [done|]. apply union_subseteq_l.
  - destruct (IH (if any_in kws message_lower then topics ∪ {[name]}
                  else topics)) as [Hlo Hhi].
    split.
    + etrans; [|exact Hlo]. destruct (any_in kws message_lower); [|done].
      apply union_subseteq_l.
    + etrans; [exact Hhi|]. destruct (any_in kws message_lower).
      * apply union_least; [apply union_least|].
        -- apply union_subseteq_l.
        -- etrans; [|apply union_subseteq_r]. apply union_subseteq_l.
        -- etrans; [|apply union_subseteq_r]. apply union_subseteq_r.
      * apply union_least; [apply union_subseteq_l|].
        etrans; [|apply union_subseteq_r]. apply union_subseteq_r.
Qed.

Lemma step_topics (self : Assistant) (c : call) :
  topics_discussed self ⊆ list_to_set topic_keywords.*1 ->
  topics_discussed (step self c) ⊆ list_to_set topic_keywords.*1.
Proof.
  intros Hsub.
  destruct c as [now1 now2|now1 now2|message now|message now|]; simpl.
  - apply empty_subseteq.
  - unfold end_conversation. by destruct (state self).
  - unfold add_user_message.
    case_bool_decide; simpl; [|done].
    destruct (Conversation.blank message); simpl; [done|].
    destruct (detect_topics_fold topic_keywords (topics_discussed self)
                (lower (strip message))) as [_ Hhi].
    etrans; [exact Hhi|]. by apply union_least.
  - unfold add_assistant_message.
    case_bool_decide; simpl; [|done].
    by destruct (Conversation.blank message).
  - apply empty_subseteq.
Qed.

(** X27: the topics an assistant has recorded are always among the nine
    names of its keyword table, whatever was called; and a user message
    never removes a topic, it can only add some. *)
Theorem topics_known_and_growing (calls : list call) (self : Assistant)
    (message : string) (now : Conversation.time) :
  topics_discussed (run calls) ⊆ list_to_set topic_keywords.*1 /\
  topics_discussed self
    ⊆ topics_discussed (add_user_message self message now).2.
Proof.
  split.
  - unfold run.
    assert (topics_discussed __init__ ⊆ list_to_set topic_keywords.*1)
      as Hinit by apply empty_subseteq.
    revert Hinit. generalize __init__.
    induction calls as [|c calls IH]; intros s Hs; [done|].
    simpl. by apply IH, step_topics.
  - unfold add_user_message.
    case_bool_decide; simpl; [|done].
    destruct (Conversation.blank message); simpl; [done|].
    by destruct (detect_topics_fold topic_keywords (topics_discussed self)
                   (lower (strip message))) as [Hlo _].
Qed.

End AssistantFacts.
